(** * updblock: a shallow embedding of [updblock.py]

    The text block updater reads an INI configuration into typed attribute
    objects ([IniListAttribute], [IniValueAttribute], [IniBoolAttribute]),
    computes the width of a rendered block ([determine_length]), renders the
    block ([generate_block]) and substitutes it for the old block of a line
    stream ([apply_block]).

    The module is written for Python 2 and Python 3 alike (it imports
    [print_function] from [__future__] and falls back from [configparser] to
    [ConfigParser]).  The two interpreters differ on [filler / 2]: floor
    division of two ints under Python 2, a float under Python 3, where the
    following [char * part] raises [TypeError]; with the default centering of
    the first line the renderer only completes under Python 2.  The
    interpreter is therefore a parameter of the model ([Runtime]), together
    with the built-ins the module only calls: [int] on a string and the [re]
    module. *)

From Stdlib Require Import ZArith Ascii String List Bool Lia.
From stdpp Require Import base option list gmap strings.
Import ListNotations.

Local Open Scope Z_scope.

(** ** Python values, exceptions and results *)

Inductive PyVersion := Py2 | Py3.

Inductive PyErr :=
| TypeError
| ValueError
| IndexError
| AttributeError
| ReError
| KeyError (msg : string).

Inductive Res (A : Type) : Type :=
| Ok (a : A)
| Raise (e : PyErr).
Arguments Ok {A} a.
Arguments Raise {A} e.

Global Instance res_ret : MRet Res := fun A a => Ok a.

Global Instance res_bind : MBind Res := fun A B f m =>
  match m with
  | Ok a => f a
  | Raise e => Raise e
  end.

(** What a value attribute may hold: its default ([None], an int or a str)
    or the str of a configuration file. *)
Inductive PyVal :=
| PyNone
| PyInt (n : Z)
| PyStr (s : string).

(** ** Strings: the [str] methods the module calls

    A [string] is a sequence of characters with code points below 256. *)

Definition nl : string := String "010"%char EmptyString.
Definition dquote : string := String "034"%char EmptyString.

(** [len(s)] *)
Definition len (s : string) : Z := Z.of_nat (String.length s).

Fixpoint repeat_str (s : string) (n : nat) : string :=
  match n with
  | O => ""
  | S k => s +:+ repeat_str s k
  end.

(** [s * n] for an int [n]: empty when [n <= 0]. *)
Definition str_mul (s : string) (n : Z) : string := repeat_str s (Z.to_nat n).

(** [sep.join(parts)] with the empty separator. *)
Definition join (parts : list string) : string := String.concat "" parts.

(** [sum(len(part) for part in parts)] *)
Definition total_len (parts : list string) : Z :=
  fold_left (fun acc part => acc + len part) parts 0.

Definition startswith (p s : string) : bool := String.prefix p s.

Definition endswith (p s : string) : bool :=
  (String.length p <=? String.length s)%nat &&
  String.eqb (String.substring (String.length s - String.length p) (String.length p) s) p.

(** [s[1:-1]] *)
Definition slice_1_m1 (s : string) : string :=
  String.substring 1 (String.length s - 2) s.

(** [s[n:]] *)
Fixpoint slice_from (n : nat) (s : string) : string :=
  match n, s with
  | O, _ => s
  | S k, String _ s' => slice_from k s'
  | S _, EmptyString => ""
  end.

(** [s[0]]: [IndexError] on the empty string. *)
Definition index0 (s : string) : Res string :=
  match s with
  | EmptyString => Raise IndexError
  | String c _ => Ok (String c "")
  end.

Definition between (lo hi n : nat) : bool := ((lo <=? n) && (n <=? hi))%nat.

(** [c.isspace()]: the six ASCII blanks, and under Python 3 the separators
    U+001C..U+001F, U+0085 and U+00A0 as well. *)
Definition isspace (v : PyVersion) (c : ascii) : bool :=
  let n := nat_of_ascii c in
  between 9 13 n || (n =? 32)%nat ||
  match v with
  | Py2 => false
  | Py3 => between 28 31 n || (n =? 133)%nat || (n =? 160)%nat
  end.

Fixpoint lstrip (v : PyVersion) (s : string) : string :=
  match s with
  | EmptyString => ""
  | String c s' => if isspace v c then lstrip v s' else s
  end.

Fixpoint rstrip (v : PyVersion) (s : string) : string :=
  match s with
  | EmptyString => ""
  | String c s' =>
      let r := rstrip v s' in
      if isspace v c && String.eqb r "" then "" else String c r
  end.

(** [s.strip()] *)
Definition strip (v : PyVersion) (s : string) : string := rstrip v (lstrip v s).

Definition lower_char (v : PyVersion) (c : ascii) : ascii :=
  let n := nat_of_ascii c in
  if between 65 90 n then ascii_of_nat (n + 32)
  else match v with
       | Py2 => c
       | Py3 => if between 192 222 n && negb (n =? 215)%nat
                then ascii_of_nat (n + 32) else c
       end.

Fixpoint str_map (f : ascii -> ascii) (s : string) : string :=
  match s with
  | EmptyString => ""
  | String c s' => String (f c) (str_map f s')
  end.

(** [s.lower()] *)
Definition lower (v : PyVersion) (s : string) : string := str_map (lower_char v) s.

(** [key.replace("-", "_")] *)
Definition dash_to_underscore (s : string) : string :=
  str_map (fun c => if Ascii.eqb c "-"%char then "_"%char else c) s.

(** [s.split(sep)] for a non-empty [sep]: [cur] is the piece being read,
    [skip] the characters of a matched separator still to pass. *)
Fixpoint split_go (sep s : string) (skip : nat) (cur : string) : list string :=
  match s with
  | EmptyString => [cur]
  | String c s' =>
      match skip with
      | S k => split_go sep s' k cur
      | O =>
          if String.prefix sep s
          then cur :: split_go sep s' (String.length sep - 1) ""
          else split_go sep s' 0 (cur +:+ String c "")
      end
  end.

(** [s.split(sep)]: [ValueError] on the empty separator. *)
Definition split (sep s : string) : Res (list string) :=
  match sep with
  | EmptyString => Raise ValueError
  | _ => Ok (split_go sep s 0 "")
  end.

(** [max(xs)] over a generator: [ValueError] when it yields nothing. *)
Definition py_max (xs : list Z) : Res Z :=
  match xs with
  | [] => Raise ValueError
  | x :: rest => Ok (fold_left Z.max rest x)
  end.

(** ** The interpreter

    [int_of_str] is [int(s)] on a str ([None] for [ValueError]);
    [re_compile] is [re.compile] ([None] for [re.error]) and [re_match] the
    truth of [pattern.match(line)]; [object_attr] tells whether
    [getattr(obj, name, None)] finds a truthy attribute that the section
    classes inherit from [object] (such as [__class__]). *)
Class Runtime := {
  py_version : PyVersion;
  int_of_str : string -> option Z;
  Regex : Type;
  re_compile : string -> option Regex;
  re_match : Regex -> string -> bool;
  object_attr : string -> bool
}.

(** [int(v)] *)
Definition py_int `{rt : Runtime} (v : PyVal) : Res Z :=
  match v with
  | PyNone => Raise TypeError
  | PyInt n => Ok n
  | PyStr s => match int_of_str s with Some n => Ok n | None => Raise ValueError end
  end.

(** A value used where the code needs a str ([len], [join], [[0]],
    [re.compile]): anything else raises [TypeError]. *)
Definition as_str (v : PyVal) : Res string :=
  match v with
  | PyStr s => Ok s
  | _ => Raise TypeError
  end.

(** The number [filler / 2] evaluates to. *)
Inductive PyNum :=
| NumInt (n : Z)
| NumFloat.

Definition py_div2 `{rt : Runtime} (filler : Z) : PyNum :=
  match py_version with
  | Py2 => NumInt (filler / 2)
  | Py3 => NumFloat
  end.

(** [s * part]: a str cannot be multiplied by a float. *)
Definition py_str_mul (s : string) (part : PyNum) : Res string :=
  match part with
  | NumInt n => Ok (str_mul s n)
  | NumFloat => Raise TypeError
  end.

(** ** Attributes

    [IniListAttribute] keeps a Python list, which its methods mutate in
    place and which [get] copies: list objects live in a heap, addressed by
    allocation order.  A program only holds references that [alloc] handed
    out; on any other number [deref] reads the empty list and an update
    changes nothing. *)

Abbreviation Heap := (list (list string)).

Definition alloc (h : Heap) (l : list string) : nat * Heap := (length h, h ++ [l]).

Definition deref (h : Heap) (r : nat) : list string := h !!! r.

Record IniListAttribute := { la_sep : string; la_value : nat }.

(** [IniListAttribute.__init__(sep)]: [self._value = []] *)
Definition IniListAttribute_init (sep : string) (h : Heap) : IniListAttribute * Heap :=
  let '(r, h') := alloc h [] in ({| la_sep := sep; la_value := r |}, h').

(** The generator [i.strip() for i in pieces if i.strip()]. *)
Definition stripped_parts (v : PyVersion) (pieces : list string) : list string :=
  strip v <$> List.filter (fun i => negb (String.eqb (strip v i) "")) pieces.

(** [IniListAttribute.set]: [self._value.extend(...)] *)
Definition IniListAttribute_set `{rt : Runtime} (a : IniListAttribute) (value : string)
    (h : Heap) : Res Heap :=
  pieces ← split (la_sep a) value;
  Ok (alter (fun old => old ++ stripped_parts py_version pieces) (la_value a) h).

(** [IniListAttribute.get]: [list(self._value)], a new list object. *)
Definition IniListAttribute_get (a : IniListAttribute) (h : Heap) : nat * Heap :=
  alloc h (deref h (la_value a)).

(** [IniAttribute.get], the method of the base class that [IniListAttribute]
    overrides: it would return [self._value] itself. *)
Definition IniAttribute_get (a : IniListAttribute) (h : Heap) : nat * Heap :=
  (la_value a, h).

(** [l.append(x)] on a list object, what a caller may do with a list it holds. *)
Definition list_append (r : nat) (x : string) (h : Heap) : Heap :=
  alter (fun old => old ++ [x]) r h.

Record IniValueAttribute := { va_value : PyVal }.

Definition IniValueAttribute_init (defval : PyVal) : IniValueAttribute :=
  {| va_value := defval |}.

Definition IniValueAttribute_set (a : IniValueAttribute) (value : string) : IniValueAttribute :=
  {| va_value := PyStr value |}.

Definition IniValueAttribute_get (a : IniValueAttribute) : PyVal :=
  match va_value a with
  | PyStr value =>
      if startswith dquote value && endswith dquote value
      then PyStr (slice_1_m1 value)
      else PyStr value
  | value => value
  end.

Record IniBoolAttribute := { ba_value : bool }.

Definition IniBoolAttribute_init (defval : bool) : IniBoolAttribute :=
  {| ba_value := defval |}.

Definition IniBoolAttribute_set `{rt : Runtime} (a : IniBoolAttribute) (value : string)
    : IniBoolAttribute :=
  let word := lower py_version (strip py_version value) in
  {| ba_value := negb (bool_decide (word ∈ ["0"; "false"; "no"; "off"])) |}.

Definition IniBoolAttribute_get (a : IniBoolAttribute) : bool := ba_value a.

(** [attr.get()] where the code goes on to use a str. *)
Definition sget (a : IniValueAttribute) : Res string := as_str (IniValueAttribute_get a).

(** ** Sections with declared attributes

    An instance of a section class is its attribute table: the names are the
    constructors below, by kind of attribute. *)

Inductive FileTypeValue :=
| line_minlength | line_padding
| firstline_start | firstline_end | firstline_prepad | firstline_postpad | firstline_filler
| lastline_start | lastline_end | lastline_prepad | lastline_postpad | lastline_filler
| midline_start | midline_end | midline_prepad | midline_postpad.

Inductive FileTypeBool := firstline_center | lastline_center | midline_center.

Inductive BlockValue := start_pattern | end_pattern | start | end_.

Inductive ActionValue := text | block.

Global Instance FileTypeValue_eq_dec : EqDecision FileTypeValue.
Proof. solve_decision. Defined.
Global Instance FileTypeBool_eq_dec : EqDecision FileTypeBool.
Proof. solve_decision. Defined.
Global Instance BlockValue_eq_dec : EqDecision BlockValue.
Proof. solve_decision. Defined.
Global Instance ActionValue_eq_dec : EqDecision ActionValue.
Proof. solve_decision. Defined.

Record ConfigFileType := {
  extensions : IniListAttribute;
  ft_value : FileTypeValue -> IniValueAttribute;
  ft_bool : FileTypeBool -> IniBoolAttribute
}.

Record ConfigBlock := { blk_value : BlockValue -> IniValueAttribute }.

Record ConfigAction := {
  filetype : IniListAttribute;
  act_value : ActionValue -> IniValueAttribute
}.

(** [ConfigFileType.__init__] *)
Definition ConfigFileType_init (h : Heap) : ConfigFileType * Heap :=
  let '(ext, h') := IniListAttribute_init "," h in
  ({| extensions := ext;
      ft_value := fun a =>
        IniValueAttribute_init
          match a with
          | line_minlength => PyInt 80
          | line_padding => PyInt 1
          | firstline_start | firstline_end => PyStr ""
          | firstline_prepad | firstline_postpad => PyStr " "
          | firstline_filler => PyStr "#"
          | lastline_start | lastline_end => PyStr ""
          | lastline_prepad | lastline_postpad => PyStr " "
          | lastline_filler => PyStr "#"
          | midline_start | midline_end => PyStr ""
          | midline_prepad | midline_postpad => PyStr " "
          end;
      ft_bool := fun a =>
        IniBoolAttribute_init
          match a with
          | firstline_center | lastline_center => true
          | midline_center => false
          end |}, h').

(** [ConfigBlock.__init__] *)
Definition ConfigBlock_init : ConfigBlock :=
  {| blk_value := fun _ => IniValueAttribute_init (PyStr "") |}.

(** [ConfigAction.__init__] *)
Definition ConfigAction_init (h : Heap) : ConfigAction * Heap :=
  let '(fts, h') := IniListAttribute_init "," h in
  ({| filetype := fts; act_value := fun _ => IniValueAttribute_init (PyStr "") |}, h').

Definition FileTypeValue_names : list (string * FileTypeValue) :=
  [("line_minlength", line_minlength); ("line_padding", line_padding);
   ("firstline_start", firstline_start); ("firstline_end", firstline_end);
   ("firstline_prepad", firstline_prepad); ("firstline_postpad", firstline_postpad);
   ("firstline_filler", firstline_filler);
   ("lastline_start", lastline_start); ("lastline_end", lastline_end);
   ("lastline_prepad", lastline_prepad); ("lastline_postpad", lastline_postpad);
   ("lastline_filler", lastline_filler);
   ("midline_start", midline_start); ("midline_end", midline_end);
   ("midline_prepad", midline_prepad); ("midline_postpad", midline_postpad)].

Definition FileTypeBool_names : list (string * FileTypeBool) :=
  [("firstline_center", firstline_center); ("lastline_center", lastline_center);
   ("midline_center", midline_center)].

Definition BlockValue_names : list (string * BlockValue) :=
  [("start_pattern", start_pattern); ("end_pattern", end_pattern);
   ("start", start); ("end", end_)].

Definition ActionValue_names : list (string * ActionValue) :=
  [("text", text); ("block", block)].

Fixpoint assoc {A} (name : string) (table : list (string * A)) : option A :=
  match table with
  | [] => None
  | (n, a) :: rest => if String.eqb n name then Some a else assoc name rest
  end.

(** The interface [IniAttributeSection.update] relies on: [attr_set s aname
    value h] is [getattr(s, aname).set(value)] when [aname] names one of the
    attributes the constructor declares, [None] otherwise. *)
Class AttributeSection (S : Type) := {
  attr_set : Runtime -> S -> string -> string -> Heap -> option (Res (S * Heap))
}.

Global Instance ConfigFileType_section : AttributeSection ConfigFileType := {
  attr_set rt s aname value h :=
    if String.eqb aname "extensions" then
      Some (h' ← IniListAttribute_set (extensions s) value h; Ok (s, h'))
    else match assoc aname FileTypeValue_names, assoc aname FileTypeBool_names with
         | Some a, _ =>
             Some (Ok ({| extensions := extensions s;
                          ft_value := fun b =>
                            if decide (b = a)
                            then IniValueAttribute_set (ft_value s a) value
                            else ft_value s b;
                          ft_bool := ft_bool s |}, h))
         | None, Some a =>
             Some (Ok ({| extensions := extensions s;
                          ft_value := ft_value s;
                          ft_bool := fun b =>
                            if decide (b = a)
                            then IniBoolAttribute_set (ft_bool s a) value
                            else ft_bool s b |}, h))
         | None, None => None
         end
}.

Global Instance ConfigBlock_section : AttributeSection ConfigBlock := {
  attr_set rt s aname value h :=
    match assoc aname BlockValue_names with
    | Some a =>
        Some (Ok ({| blk_value := fun b =>
                       if decide (b = a)
                       then IniValueAttribute_set (blk_value s a) value
                       else blk_value s b |}, h))
    | None => None
    end
}.

Global Instance ConfigAction_section : AttributeSection ConfigAction := {
  attr_set rt s aname value h :=
    if String.eqb aname "filetype" then
      Some (h' ← IniListAttribute_set (filetype s) value h;
            Ok ({| filetype := filetype s; act_value := act_value s |}, h'))
    else match assoc aname ActionValue_names with
         | Some a =>
             Some (Ok ({| filetype := filetype s;
                          act_value := fun b =>
                            if decide (b = a)
                            then IniValueAttribute_set (act_value s a) value
                            else act_value s b |}, h))
         | None => None
         end
}.

(** What [getattr(self, aname, None)] finds besides the declared attributes:
    the methods of the class, or an attribute inherited from [object].  Such a
    value is truthy and has no [set]. *)
Definition other_attr `{rt : Runtime} (aname : string) : bool :=
  bool_decide (aname ∈ ["update"; "dump"; "__init__"]) || object_attr aname.

(** [IniAttributeSection.update] *)
Fixpoint update `{rt : Runtime} {S} `{AttributeSection S} (self : S)
    (section : list (string * string)) (h : Heap) : Res (S * Heap) :=
  match section with
  | [] => Ok (self, h)
  | (key, value) :: rest =>
      let aname := dash_to_underscore key in
      match attr_set rt self aname value h with
      | Some r => '(self', h') ← r; update self' rest h'
      | None =>
          if other_attr aname then Raise AttributeError
          else Raise (KeyError ("Invalid attribute: " +:+ key))
      end
  end.

(** ** The dynamic keyed collection *)

Record IniSection := {
  _factory : PyVal -> IniValueAttribute;
  _args : PyVal;
  _results : gmap string IniValueAttribute
}.

(** [IniSection.__init__(factory, *args)] *)
Definition IniSection_init (factory : PyVal -> IniValueAttribute) (args : PyVal) : IniSection :=
  {| _factory := factory; _args := args; _results := ∅ |}.

(** [ConfigTextFiles.__init__] *)
Definition ConfigTextFiles_init : IniSection :=
  IniSection_init IniValueAttribute_init (PyStr "").

(** [IniSection.update] *)
Fixpoint IniSection_update (self : IniSection) (section : list (string * string))
    : IniSection :=
  match section with
  | [] => self
  | (key, value) :: rest =>
      let results :=
        match _results self !! key with
        | None => <[key := _factory self (_args self)]> (_results self)
        | Some _ => _results self
        end in
      let results := alter (fun a => IniValueAttribute_set a value) key results in
      IniSection_update
        {| _factory := _factory self; _args := _args self; _results := results |} rest
  end.

(** [j()] on an attribute object: the attribute classes define no
    [__call__]. *)
Definition call_attribute (j : IniValueAttribute) : Res PyVal := Raise TypeError.

Fixpoint res_map {A B} (f : A -> Res B) (l : list A) : Res (list B) :=
  match l with
  | [] => Ok []
  | x :: rest => y ← f x; ys ← res_map f rest; Ok (y :: ys)
  end.

(** [IniSection.items]: [list((i, j()) for (i, j) in self._results.items())] *)
Definition IniSection_items (self : IniSection) : Res (list (string * PyVal)) :=
  res_map (fun '(i, j) => v ← call_attribute j; Ok (i, v)) (map_to_list (_results self)).

(** What the docstrings and the sibling [dump] suggest was meant:
    [(i, j.get())]. *)
Definition IniSection_items_get (self : IniSection) : list (string * PyVal) :=
  (fun '(i, j) => (i, IniValueAttribute_get j)) <$> map_to_list (_results self).

(** ** The configuration *)

Record Config := {
  _filetypes : gmap string ConfigFileType;
  _blocks : gmap string ConfigBlock;
  _actions : gmap string ConfigAction;
  _textblocks : IniSection;
  _textfiles : IniSection
}.

(** [Config.__init__] *)
Definition Config_init : Config :=
  {| _filetypes := ∅; _blocks := ∅; _actions := ∅;
     _textblocks := ConfigTextFiles_init; _textfiles := ConfigTextFiles_init |}.

(** One turn of the loop of [Config.parse]: [section] is the section's name
    and [items] is [config.items(section)]. *)
Definition parse_section `{rt : Runtime} (self : Config) (section : string)
    (items : list (string * string)) (h : Heap) : Res (Config * Heap) :=
  if startswith "filetype:" section then
    let filetypename := slice_from 9 section in
    let '(ft, h) := match _filetypes self !! filetypename with
                    | Some ft => (ft, h)
                    | None => ConfigFileType_init h
                    end in
    '(ft, h) ← update ft items h;
    Ok ({| _filetypes := <[filetypename := ft]> (_filetypes self);
           _blocks := _blocks self; _actions := _actions self;
           _textblocks := _textblocks self; _textfiles := _textfiles self |}, h)
  else if startswith "block:" section then
    let blockname := slice_from 6 section in
    let blk := default ConfigBlock_init (_blocks self !! blockname) in
    '(blk, h) ← update blk items h;
    Ok ({| _filetypes := _filetypes self;
           _blocks := <[blockname := blk]> (_blocks self); _actions := _actions self;
           _textblocks := _textblocks self; _textfiles := _textfiles self |}, h)
  else if startswith "action:" section then
    let actionname := slice_from 7 section in
    let '(act, h) := match _actions self !! actionname with
                     | Some act => (act, h)
                     | None => ConfigAction_init h
                     end in
    '(act, h) ← update act items h;
    Ok ({| _filetypes := _filetypes self; _blocks := _blocks self;
           _actions := <[actionname := act]> (_actions self);
           _textblocks := _textblocks self; _textfiles := _textfiles self |}, h)
  else if String.eqb section "text-blocks" then
    Ok ({| _filetypes := _filetypes self; _blocks := _blocks self;
           _actions := _actions self;
           _textblocks := IniSection_update (_textblocks self) items;
           _textfiles := _textfiles self |}, h)
  else if String.eqb section "text-files" then
    Ok ({| _filetypes := _filetypes self; _blocks := _blocks self;
           _actions := _actions self; _textblocks := _textblocks self;
           _textfiles := IniSection_update (_textfiles self) items |}, h)
  else Raise (KeyError ("Unknown section: " +:+ "section")).

(** [Config.parse], from the sections [configparser] has read, in the order
    of [config.sections()]. *)
Fixpoint parse `{rt : Runtime} (self : Config) (config : list (string * list (string * string)))
    (h : Heap) : Res (Config * Heap) :=
  match config with
  | [] => Ok (self, h)
  | (section, items) :: rest =>
      '(self, h) ← parse_section self section items h;
      parse self rest h
  end.

(** ** Standard output

    A computation that prints returns what it wrote, one entry per call of
    [print], and its result; an exception keeps what was written before
    it. *)

Definition Out (A : Type) : Type := list string * Res A.

Global Instance out_ret : MRet Out := fun A a => ([], Ok a).

Global Instance out_bind : MBind Out := fun A B f m =>
  match m with
  | (o, Ok a) => let '(o', r) := f a in (o ++ o', r)
  | (o, Raise e) => (o, Raise e)
  end.

Definition lift {A} (r : Res A) : Out A := ([], r).

(** What [print(s)] writes: [s] and the end of the line. *)
Definition println (s : string) : string := s +:+ nl.

(** [print(s)] *)
Definition print (s : string) : Out unit := ([println s], Ok ()).

(** [print(s, end="")] *)
Definition print_raw (s : string) : Out unit := ([s], Ok ()).

(** [for i in range(n): print(s)] *)
Fixpoint print_times (n : nat) (s : string) : Out unit :=
  match n with
  | O => mret ()
  | S k => print s;; print_times k s
  end.

(** [for x in xs: body(x)] *)
Fixpoint for_each {A} (body : A -> Out unit) (xs : list A) : Out unit :=
  match xs with
  | [] => mret ()
  | x :: rest => body x;; for_each body rest
  end.

(** ** Layout *)

Section Render.
Context `{rt : Runtime}.
Variables (ft : ConfigFileType) (blk : ConfigBlock).

Definition max4 (a b c d : Z) : Z := Z.max (Z.max (Z.max a b) c) d.

Definition determine_length (license : list string) : Res Z :=
  fs ← sget (ft_value ft firstline_start);
  fe ← sget (ft_value ft firstline_end);
  fpre ← sget (ft_value ft firstline_prepad);
  fpost ← sget (ft_value ft firstline_postpad);
  bs ← sget (blk_value blk start);
  let firstline_len := len fs + len fe + len fpre + len fpost + len bs in
  ls ← sget (ft_value ft lastline_start);
  le ← sget (ft_value ft lastline_end);
  lpre ← sget (ft_value ft lastline_prepad);
  lpost ← sget (ft_value ft lastline_postpad);
  be ← sget (blk_value blk end_);
  let lastline_len := len ls + len le + len lpre + len lpost + len be in
  liclen ← py_max (len <$> license);
  ms ← sget (ft_value ft midline_start);
  me ← sget (ft_value ft midline_end);
  let midline_len := len ms + len me + liclen in
  minlength ← py_int (IniValueAttribute_get (ft_value ft line_minlength));
  Ok (max4 firstline_len midline_len lastline_len minlength).

(** The filling of a first or last line (lines 337-348 and 416-427 of the
    source, the same code on [firstline] and [lastline]): [line] is the list
    of seven parts with both gaps empty. *)
Definition fill_edge (filler_attr : IniValueAttribute) (center : IniBoolAttribute)
    (line : list string) (length : Z) : Res (list string) :=
  let total := total_len line in
  if total <? length then
    value ← sget filler_attr;
    char ← index0 value;
    let filler := length - total in
    '(line, filler) ←
      (if IniBoolAttribute_get center then
         match py_div2 filler with
         | NumInt part => Ok (<[1%nat := str_mul char part]> line, filler - part)
         | NumFloat => Raise TypeError
         end
       else Ok (line, filler));
    if 0 <? filler
    then Ok (<[5%nat := str_mul char filler]> line)
    else Ok line
  else Ok line.

Definition firstline_parts (length : Z) : Res (list string) :=
  s ← sget (ft_value ft firstline_start);
  pre ← sget (ft_value ft firstline_prepad);
  bs ← sget (blk_value blk start);
  post ← sget (ft_value ft firstline_postpad);
  e ← sget (ft_value ft firstline_end);
  fill_edge (ft_value ft firstline_filler) (ft_bool ft firstline_center)
    [s; ""; pre; bs; post; ""; e] length.

Definition lastline_parts (length : Z) : Res (list string) :=
  s ← sget (ft_value ft lastline_start);
  pre ← sget (ft_value ft lastline_prepad);
  be ← sget (blk_value blk end_);
  post ← sget (ft_value ft lastline_postpad);
  e ← sget (ft_value ft lastline_end);
  fill_edge (ft_value ft lastline_filler) (ft_bool ft lastline_center)
    [s; ""; pre; be; post; ""; e] length.

Definition padline_parts (length : Z) : Res (list string) :=
  s ← sget (ft_value ft midline_start);
  e ← sget (ft_value ft midline_end);
  let padline := [s; ""; e] in
  let total := total_len padline in
  if (total <? length) && negb (len e =? 0)
  then Ok (<[1%nat := str_mul " " (length - total)]> padline)
  else Ok padline.

(** The body of the loop over the payload: [s] and [e] are [midline[0]] and
    [midline[4]], read once before the loop. *)
Definition midline_parts (s e : string) (length : Z) (line : string) : Res (list string) :=
  let midline := [s; ""; line; ""; e] in
  let center := IniBoolAttribute_get (ft_bool ft midline_center) in
  if negb (len e =? 0) || center then
    let total := total_len midline in
    if total <? length then
      let filler := length - total in
      '(midline, filler) ←
        (if center && (negb (len e =? 0) || negb (len line =? 0)) then
           match py_div2 filler with
           | NumInt part => Ok (<[1%nat := str_mul " " part]> midline, filler - part)
           | NumFloat => Raise TypeError
           end
         else Ok (midline, filler));
      if (0 <? filler) && negb (len e =? 0)
      then Ok (<[3%nat := str_mul " " filler]> midline)
      else Ok midline
    else Ok midline
  else Ok midline.

Definition generate_block (license : list string) : Out unit :=
  length ← lift (determine_length license);
  firstline ← lift (firstline_parts length);
  print (join firstline);;
  padline ← lift (padline_parts length);
  n ← lift (py_int (IniValueAttribute_get (ft_value ft line_padding)));
  print_times (Z.to_nat n) (join padline);;
  s ← lift (sget (ft_value ft midline_start));
  e ← lift (sget (ft_value ft midline_end));
  for_each (fun line =>
              midline ← lift (midline_parts s e length line);
              print (join midline)) license;;
  n ← lift (py_int (IniValueAttribute_get (ft_value ft line_padding)));
  print_times (Z.to_nat n) (join padline);;
  lastline ← lift (lastline_parts length);
  print (join lastline).

(** ** The scanner *)

(** The loop of [apply_block] over the lines of [handle], from the state
    [in_block]: what it writes, and the state it ends in. *)
Fixpoint scan (re_start re_end : Regex) (license : list string)
    (handle : list string) (in_block : bool) : Out bool :=
  match handle with
  | [] => mret in_block
  | line :: rest =>
      if in_block then
        if re_match re_end line
        then generate_block license;; scan re_start re_end license rest false
        else scan re_start re_end license rest true
      else if re_match re_start line
        then scan re_start re_end license rest true
        else print_raw line;; scan re_start re_end license rest false
  end.

(** [re.compile(v)] *)
Definition compile (v : PyVal) : Res Regex :=
  pattern ← as_str v;
  match re_compile pattern with
  | Some r => Ok r
  | None => Raise ReError
  end.

Definition apply_block (handle : list string) (license : list string) : Out unit :=
  re_start ← lift (compile (IniValueAttribute_get (blk_value blk start_pattern)));
  re_end ← lift (compile (IniValueAttribute_get (blk_value blk end_pattern)));
  in_block ← scan re_start re_end license handle false;
  if in_block : bool then generate_block license else mret ().

End Render.

(** What [apply_block] writes when the renderer writes [rendered]: lines
    of the input that do not start a block, and copies of [rendered]. *)
Inductive Segments `{rt : Runtime} (re_start : Regex) (rendered : list string)
    : list string -> Prop :=
| segments_nil : Segments re_start rendered []
| segments_line line rest :
    re_match re_start line = false ->
    Segments re_start rendered rest ->
    Segments re_start rendered (line :: rest)
| segments_block rest :
    Segments re_start rendered rest ->
    Segments re_start rendered (rendered ++ rest).

(** ** Line roles

    The three kinds of line that carry a left and a right gap. *)

Inductive Role :=
| FirstLine
| MiddleLine (line : string)
| LastLine.

Section Roles.
Context `{rt : Runtime}.
Variables (ft : ConfigFileType) (blk : ConfigBlock).

(** The parts [generate_block] joins into the line of a role. *)
Definition role_parts (length : Z) (role : Role) : Res (list string) :=
  match role with
  | FirstLine => firstline_parts ft blk length
  | MiddleLine line =>
      s ← sget (ft_value ft midline_start);
      e ← sget (ft_value ft midline_end);
      midline_parts ft s e length line
  | LastLine => lastline_parts ft blk length
  end.

Definition role_center (role : Role) : bool :=
  IniBoolAttribute_get
    (ft_bool ft match role with
                | FirstLine => firstline_center
                | MiddleLine _ => midline_center
                | LastLine => lastline_center
                end).

(** The character that fills the gaps of a role. *)
Definition role_char (role : Role) : Res string :=
  match role with
  | FirstLine => value ← sget (ft_value ft firstline_filler); index0 value
  | MiddleLine _ => Ok " "
  | LastLine => value ← sget (ft_value ft lastline_filler); index0 value
  end.

End Roles.

Definition right_index (role : Role) : nat :=
  match role with
  | MiddleLine _ => 3%nat
  | _ => 5%nat
  end.

Definition left_gap (parts : list string) : string := parts !!! 1%nat.

Definition right_gap (role : Role) (parts : list string) : string :=
  parts !!! right_index role.

(** [total], the width of a line before its gaps are filled. *)
Definition fixed_total (role : Role) (parts : list string) : Z :=
  total_len (<[1%nat := ""]> (<[right_index role := ""]> parts)).

(** The split of [filler] characters [char] the three roles are said to
    share: half to the left and the rest to the right when centered, all to
    the right otherwise. *)
Definition gap_rule (center : bool) (char : string) (filler : Z) (left right : string) : Prop :=
  if center
  then left = str_mul char (filler / 2) /\ right = str_mul char (filler - filler / 2)
  else left = "" /\ right = str_mul char filler.

(** The split the middle lines get: a left gap only when centered and the
    line or the end decoration is not empty, a right gap only before an end
    decoration. *)
Definition midline_gap_rule (center : bool) (e line : string) (filler : Z)
    (left right : string) : Prop :=
  left = (if center && (negb (len e =? 0) || negb (len line =? 0))
          then str_mul " " (filler / 2) else "") /\
  right = (if negb (len e =? 0) then str_mul " " (filler - len left) else "").

(** ** Well-typed sections

    The attributes the renderer reads as strs do hold strs: so it is after
    the constructors and after every [update]. *)

Definition is_str (a : IniValueAttribute) : bool :=
  match va_value a with
  | PyStr _ => true
  | _ => false
  end.

Definition str_attributes : list FileTypeValue :=
  [firstline_start; firstline_end; firstline_prepad; firstline_postpad; firstline_filler;
   lastline_start; lastline_end; lastline_prepad; lastline_postpad; lastline_filler;
   midline_start; midline_end; midline_prepad; midline_postpad].

Definition wf_filetype (ft : ConfigFileType) : bool :=
  forallb (fun a => is_str (ft_value ft a)) str_attributes.

Definition wf_block (blk : ConfigBlock) : bool :=
  forallb (fun a => is_str (blk_value blk a)) [start_pattern; end_pattern; start; end_].

(** The str an attribute resolves to (empty when it holds none). *)
Definition text_of (a : IniValueAttribute) : string :=
  match IniValueAttribute_get a with
  | PyStr s => s
  | _ => ""
  end.

(** The attributes [determine_length] reads before it looks at the payload. *)
Definition edges_are_str (ft : ConfigFileType) (blk : ConfigBlock) : bool :=
  forallb (fun a => is_str (ft_value ft a))
    [firstline_start; firstline_end; firstline_prepad; firstline_postpad;
     lastline_start; lastline_end; lastline_prepad; lastline_postpad] &&
  is_str (blk_value blk start) && is_str (blk_value blk end_).

(** Whether the right gap of a role is ever filled: always on the first and
    last lines, before an end decoration on the middle lines. *)
Definition fills_right (ft : ConfigFileType) (role : Role) : bool :=
  match role with
  | MiddleLine _ => negb (len (text_of (ft_value ft midline_end)) =? 0)
  | _ => true
  end.

(** Whether every [filler / 2] the renderer may compute is an int: so it is
    under Python 2, and under Python 3 when no role is centered. *)
Definition halves_are_ints `{rt : Runtime} (ft : ConfigFileType) : bool :=
  match py_version with
  | Py2 => true
  | Py3 => negb (IniBoolAttribute_get (ft_bool ft firstline_center)) &&
           negb (IniBoolAttribute_get (ft_bool ft midline_center)) &&
           negb (IniBoolAttribute_get (ft_bool ft lastline_center))
  end.

(** ** An interpreter and configurations for the examples

    [int] on plain digit strings, patterns without metacharacters (such a
    pattern matches the lines that start with it), and the attributes every
    [object] carries in both versions of the language. *)

Definition decimal_digit (c : ascii) : option Z :=
  let n := nat_of_ascii c in
  if between 48 57 n then Some (Z.of_nat (n - 48)) else None.

Fixpoint decimal_go (s : string) (acc : Z) : option Z :=
  match s with
  | EmptyString => Some acc
  | String c s' => d ← decimal_digit c; decimal_go s' (10 * acc + d)
  end.

Definition decimal (s : string) : option Z :=
  match s with
  | EmptyString => None
  | _ => decimal_go s 0
  end.

Definition example_runtime (v : PyVersion) : Runtime :=
  {| py_version := v;
     int_of_str := decimal;
     Regex := string;
     re_compile := Some;
     re_match := String.prefix;
     object_attr := fun name =>
       bool_decide (name ∈ ["__class__"; "__dict__"; "__doc__"; "__module__";
                            "__hash__"; "__repr__"; "__str__"; "__new__"]) |}.

(** A [ConfigFileType] as [Config.parse] builds it from the items of a
    section. *)
Definition example_filetype (v : PyVersion) (items : list (string * string)) : ConfigFileType :=
  let '(ft, h) := ConfigFileType_init [] in
  match update (rt := example_runtime v) ft items h with
  | Ok (ft', _) => ft'
  | Raise _ => ft
  end.

Definition example_block (v : PyVersion) (items : list (string * string)) : ConfigBlock :=
  match update (rt := example_runtime v) ConfigBlock_init items [] with
  | Ok (blk, _) => blk
  | Raise _ => ConfigBlock_init
  end.

(** A file type of width 12 that centers nothing. *)
Definition plain_filetype (v : PyVersion) : ConfigFileType :=
  example_filetype v [("line-minlength", "12"); ("firstline-center", "no");
                      ("lastline-center", "no")].

(** A file type of width 12 with the default centering of its first and
    last lines. *)
Definition centered_filetype (v : PyVersion) : ConfigFileType :=
  example_filetype v [("line-minlength", "12")].

(** A file type whose middle lines end in a bar. *)
Definition boxed_filetype (v : PyVersion) : ConfigFileType :=
  example_filetype v [("line-minlength", "12"); ("midline-start", "|");
                      ("midline-end", "|"); ("midline-center", "yes")].

Definition marker_block (v : PyVersion) : ConfigBlock :=
  example_block v [("start-pattern", "BEGIN"); ("end-pattern", "END");
                   ("start", "BEGIN"); ("end", "END")].

(** A block whose patterns recognise the lines rendered for it. *)
Definition framed_block (v : PyVersion) : ConfigBlock :=
  example_block v [("start-pattern", " BEGIN"); ("end-pattern", " END");
                   ("start", "BEGIN"); ("end", "END")].

(** ** Statements tried on the examples *)

(** A middle line of the plain file type, which centers nothing and has no
    end decoration, is too short and still gets no gap: the rule stated for
    all three roles would put every filler character in its right gap. *)
Definition midline_breaks_gap_rule (v : PyVersion) : Prop :=
  let ft := plain_filetype v in
  let blk := marker_block v in
  let role := MiddleLine "X" in
  let parts := [""; ""; "X"; ""; ""] in
  determine_length (rt := example_runtime v) ft blk ["X"] = Ok 12 /\
  role_parts (rt := example_runtime v) ft blk 12 role = Ok parts /\
  role_center ft role = false /\
  12 - fixed_total role parts = 11 /\
  ~ gap_rule (role_center ft role) " " (12 - fixed_total role parts)
      (left_gap parts) (right_gap role parts).

(** The first line of the centered file type, five characters short: two
    fill characters to the left and three to the right. *)
Definition centered_firstline_parts : list string :=
  [""; "##"; " "; "BEGIN"; " "; "###"; ""].

(** The block rendered for the plain file type and the payload [["X"]],
    and whether each of its lines reaches the width 12. *)
Definition plain_block_lines : list string :=
  [" BEGIN #####"; ""; "X"; ""; " END #######"].

Definition middle_line_is_short (v : PyVersion) : Prop :=
  let ft := plain_filetype v in
  let blk := marker_block v in
  determine_length (rt := example_runtime v) ft blk ["X"] = Ok 12 /\
  generate_block (rt := example_runtime v) ft blk ["X"]
    = (println <$> plain_block_lines, Ok ()) /\
  ~ Forall (fun line => 12 <= len line) plain_block_lines.

(** A payload line that itself starts with the start pattern: the first
    run replaces the old block, the second run takes the payload line of the
    new block for a start marker. *)
Definition rerun_input : list string := println <$> ["BEGIN"; "old text"; "END"].

Definition rerun_first : list string :=
  println <$> [" BEGIN #####"; ""; "BEGIN"; ""; " END #######"].

Definition rerun_second : list string :=
  println <$> [" BEGIN #####"; ""; " BEGIN #####"; ""; "BEGIN"; ""; " END #######"].

Definition rerun_differs (v : PyVersion) : Prop :=
  let ft := plain_filetype v in
  let blk := marker_block v in
  apply_block (rt := example_runtime v) ft blk rerun_input ["BEGIN"] = (rerun_first, Ok ()) /\
  apply_block (rt := example_runtime v) ft blk rerun_first ["BEGIN"] = (rerun_second, Ok ()) /\
  join rerun_first <> join rerun_second.

(** ** Vocabulary of the properties *)

(** A section name that [Config.parse] knows no handler for. *)
Definition unknown_section (section : string) : bool :=
  negb (startswith "filetype:" section) && negb (startswith "block:" section) &&
  negb (startswith "action:" section) &&
  negb (String.eqb section "text-blocks") && negb (String.eqb section "text-files").

(** [needle in text] *)
Fixpoint contains (needle text : string) : bool :=
  String.prefix needle text ||
  match text with
  | EmptyString => false
  | String _ rest => contains needle rest
  end.

(** A str made of blanks only, and a str with no blank at either end. *)
Fixpoint all_space (v : PyVersion) (s : string) : bool :=
  match s with
  | EmptyString => true
  | String c s' => isspace v c && all_space v s'
  end.

Definition head_char (s : string) : option ascii :=
  match s with
  | EmptyString => None
  | String c _ => Some c
  end.

Fixpoint last_char (s : string) : option ascii :=
  match s with
  | EmptyString => None
  | String c EmptyString => Some c
  | String _ s' => last_char s'
  end.

Definition no_blank (v : PyVersion) (c : option ascii) : bool :=
  match c with
  | Some a => negb (isspace v a)
  | None => true
  end.

Definition trimmed (v : PyVersion) (s : string) : bool :=
  no_blank v (head_char s) && no_blank v (last_char s).

(** The list [value] adds to a list attribute, in the words of the
    description: split on the separator, trim each piece, drop the empty
    ones. *)
Definition trimmed_parts (v : PyVersion) (pieces : list string) : list string :=
  List.filter (fun p => negb (String.eqb p "")) (strip v <$> pieces).

(** ** The driver

    The statements at the end of the module: [config] is what
    [configparser] reads from [config.ini] and [test_txt] the lines of
    [test.txt]. *)

Definition test_license : list string :=
  ["Stop: This is a test license dddddddddddddddddddddddddddddddddddddddddddddddddddddddddddddddd";
   "";
   "1) Don't claim credit";
   "2) Don't share freely";
   "3) Feed me!"].

(** [d[key]]: [KeyError] with the key when it is missing. *)
Definition dict_get {V} (d : gmap string V) (key : string) : Res V :=
  match d !! key with
  | Some v => Ok v
  | None => Raise (KeyError key)
  end.

Definition main `{rt : Runtime} (config : list (string * list (string * string)))
    (test_txt : list string) : Out unit :=
  '(c, h) ← lift (parse Config_init config []);
  ft ← lift (dict_get (_filetypes c) "c");
  blk ← lift (dict_get (_blocks c) "license-c");
  apply_block ft blk test_txt test_license.

(** ** What a section says about an attribute *)

(** The last value the pairs of a section give to the attribute [a], by the
    name table of its class and after the hyphens of the key are replaced. *)
Fixpoint last_value {A} `{EqDecision A} (table : list (string * A)) (a : A)
    (section : list (string * string)) : option string :=
  match section with
  | [] => None
  | (key, value) :: rest =>
      match last_value table a rest with
      | Some v => Some v
      | None =>
          if decide (assoc (dash_to_underscore key) table = Some a)
          then Some value else None
      end
  end.

(** The last value the pairs give to the key [k] as it is written. *)
Fixpoint last_exact (k : string) (section : list (string * string)) : option string :=
  match section with
  | [] => None
  | (key, value) :: rest =>
      match last_exact k rest with
      | Some v => Some v
      | None => if decide (key = k) then Some value else None
      end
  end.

(** The values the pairs give to the attribute named [aname], in order. *)
Definition values_of (aname : string) (section : list (string * string)) : list string :=
  snd <$> List.filter (fun '(key, _) => String.eqb (dash_to_underscore key) aname) section.

(** Whether [aname] names an attribute that [ConfigFileType.__init__]
    declares. *)
Definition filetype_attribute (aname : string) : bool :=
  String.eqb aname "extensions" ||
  bool_decide (is_Some (assoc aname FileTypeValue_names)) ||
  bool_decide (is_Some (assoc aname FileTypeBool_names)).

(** The name of the block or file type a section header stands for, by the
    order of the tests in [Config.parse]. *)
Definition filetype_section (section : string) : option string :=
  if startswith "filetype:" section then Some (slice_from 9 section) else None.

Definition block_section (section : string) : option string :=
  if startswith "filetype:" section then None
  else if startswith "block:" section then Some (slice_from 6 section)
  else None.

(** The pairs of the sections that stand for the block [name], in order. *)
Fixpoint block_items (name : string) (config : list (string * list (string * string)))
    : list (string * string) :=
  match config with
  | [] => []
  | (section, items) :: rest =>
      if decide (block_section section = Some name)
      then items ++ block_items name rest
      else block_items name rest
  end.

Definition has_block_section (name : string)
    (config : list (string * list (string * string))) : bool :=
  existsb (fun '(section, _) => bool_decide (block_section section = Some name)) config.

Definition has_filetype_section (name : string)
    (config : list (string * list (string * string))) : bool :=
  existsb (fun '(section, _) => bool_decide (filetype_section section = Some name)) config.

(** ** The furniture of the lines *)

(** The width of the fixed parts of the first line, of the last line and of
    a middle line, as [determine_length] adds them up. *)
Definition firstline_width (ft : ConfigFileType) (blk : ConfigBlock) : Z :=
  len (text_of (ft_value ft firstline_start)) + len (text_of (ft_value ft firstline_end))
  + len (text_of (ft_value ft firstline_prepad))
  + len (text_of (ft_value ft firstline_postpad)) + len (text_of (blk_value blk start)).

Definition lastline_width (ft : ConfigFileType) (blk : ConfigBlock) : Z :=
  len (text_of (ft_value ft lastline_start)) + len (text_of (ft_value ft lastline_end))
  + len (text_of (ft_value ft lastline_prepad))
  + len (text_of (ft_value ft lastline_postpad)) + len (text_of (blk_value blk end_)).

Definition midline_width (ft : ConfigFileType) : Z :=
  len (text_of (ft_value ft midline_start)) + len (text_of (ft_value ft midline_end)).

(** The attributes [determine_length] takes the length of. *)
Definition length_attrs_are_str (ft : ConfigFileType) (blk : ConfigBlock) : bool :=
  edges_are_str ft blk &&
  is_str (ft_value ft midline_start) && is_str (ft_value ft midline_end).

(** A file type of width 12 whose section sets [lastline-filler] to
    nothing. *)
Definition unfilled_filetype (v : PyVersion) : ConfigFileType :=
  example_filetype v [("line-minlength", "12"); ("lastline-filler", "")].

(** ** Who holds which list

    The objects of a [Config] that hold a list object: its file types, by
    [extensions], and its actions, by [filetype]. *)

Inductive Owner :=
| FileTypeOwner (name : string)
| ActionOwner (name : string).

Global Instance Owner_eq_dec : EqDecision Owner.
Proof. solve_decision. Defined.

Definition owned_list (c : Config) (o : Owner) : option nat :=
  match o with
  | FileTypeOwner name => (fun ft => la_value (extensions ft)) <$> _filetypes c !! name
  | ActionOwner name => (fun act => la_value (filetype act)) <$> _actions c !! name
  end.

(** Every owner refers to a list of the heap, and no two owners refer to
    the same list. *)
Definition own_lists (c : Config) (h : Heap) : Prop :=
  forall o r, owned_list c o = Some r ->
    (r < length h)%nat /\ forall o', owned_list c o' = Some r -> o' = o.

(** The pairs of the sections that stand for the file type [name], in
    order. *)
Fixpoint filetype_items (name : string) (config : list (string * list (string * string)))
    : list (string * string) :=
  match config with
  | [] => []
  | (section, items) :: rest =>
      if decide (filetype_section section = Some name)
      then items ++ filetype_items name rest
      else filetype_items name rest
  end.

(** What the values given under [extensions] add to the list, in order. *)
Definition extension_parts `{rt : Runtime} (items : list (string * string)) : list string :=
  List.concat ((fun value => trimmed_parts py_version (split_go "," value 0 ""))
                 <$> values_of "extensions" items).

(** A configuration with two file types, a block and an action. *)
Definition example_config : list (string * list (string * string)) :=
  [("filetype:c", [("extensions", "c, h ,, cpp"); ("line-minlength", "40")]);
   ("action:license", [("filetype", "c, py"); ("block", "license-c")]);
   ("block:license-c", [("start", "BEGIN")]);
   ("filetype:py", [("extensions", "py")])].

(** The pairs of the sections named [name], in order. *)
Fixpoint section_items (name : string) (config : list (string * list (string * string)))
    : list (string * string) :=
  match config with
  | [] => []
  | (section, items) :: rest =>
      if String.eqb section name
      then items ++ section_items name rest
      else section_items name rest
  end.

(** * Properties *)

(** ** Results and output *)

Lemma res_bind_ok {A B} (m : Res A) (f : A -> Res B) (b : B) :
  m ≫= f = Ok b -> exists a, m = Ok a /\ f a = Ok b.
Proof. destruct m as [a|e]; cbn; [eauto | discriminate]. Qed.

Lemma out_bind_ok {A B} (m : Out A) (f : A -> Out B) (o : list string) (b : B) :
  m ≫= f = (o, Ok b) ->
  exists o1 a o2, m = (o1, Ok a) /\ f a = (o2, Ok b) /\ o = o1 ++ o2.
Proof.
  destruct m as [o1 [a|e]]; cbn; [|discriminate].
  destruct (f a) as [o2 r] eqn:Hf. intros [= <- ->]. eauto 6.
Qed.

Lemma lift_ok {A} (r : Res A) (o : list string) (a : A) :
  lift r = (o, Ok a) -> r = Ok a /\ o = [].
Proof. unfold lift. intros [= <- ->]. auto. Qed.

Lemma out_bind_lift {A B} (r : Res A) (a : A) (f : A -> Out B) :
  r = Ok a -> lift r ≫= f = f a.
Proof. intros ->. cbn. destruct (f a). reflexivity. Qed.

Lemma out_bind_lift_raise {A B} (r : Res A) (e : PyErr) (f : A -> Out B) :
  r = Raise e -> lift r ≫= f = ([], Raise e).
Proof. intros ->. reflexivity. Qed.

(** ** Lengths *)

Lemma len_nonneg s : 0 <= len s.
Proof. unfold len. lia. Qed.

Lemma len_app s t : len (s +:+ t) = len s + len t.
Proof.
  unfold len. induction s as [|c s IH]; [reflexivity|].
  change (String c s +:+ t) with (String c (s +:+ t)).
  cbn [String.length]. lia.
Qed.

Lemma len_empty : len "" = 0.
Proof. reflexivity. Qed.

Lemma len_zero s : len s = 0 -> s = "".
Proof. destruct s; [reflexivity | unfold len; cbn; lia]. Qed.

Lemma len_repeat_str s n : len (repeat_str s n) = Z.of_nat n * len s.
Proof.
  induction n as [|n IH]; [reflexivity|].
  cbn [repeat_str]. rewrite len_app, IH. lia.
Qed.

Lemma len_str_mul s n : len s = 1 -> 0 <= n -> len (str_mul s n) = n.
Proof. intros Hs Hn. unfold str_mul. rewrite len_repeat_str, Hs. lia. Qed.

Lemma str_mul_nonpos s n : n <= 0 -> str_mul s n = "".
Proof. intros Hn. unfold str_mul. replace (Z.to_nat n) with 0%nat by lia. reflexivity. Qed.

Lemma index0_len value char : index0 value = Ok char -> len char = 1.
Proof. destruct value; [discriminate|]. intros [= <-]. reflexivity. Qed.

Lemma total_len_shift parts acc :
  fold_left (fun a part => a + len part) parts acc = acc + total_len parts.
Proof.
  unfold total_len. revert acc.
  induction parts as [|p parts IH]; intros acc; cbn [fold_left]; [lia|].
  rewrite (IH (acc + len p)), (IH (0 + len p)). lia.
Qed.

Lemma total_len_cons p parts : total_len (p :: parts) = len p + total_len parts.
Proof. unfold total_len at 1. cbn [fold_left]. rewrite total_len_shift. lia. Qed.

Lemma total_len_nil : total_len [] = 0.
Proof. reflexivity. Qed.

Lemma total_len_nonneg parts : 0 <= total_len parts.
Proof.
  induction parts as [|p parts IH]; [reflexivity|].
  rewrite total_len_cons. pose proof (len_nonneg p). lia.
Qed.

Lemma len_join parts : len (join parts) = total_len parts.
Proof.
  unfold join. induction parts as [|p [|q parts] IH].
  - reflexivity.
  - cbn [String.concat]. rewrite total_len_cons, total_len_nil. lia.
  - change (String.concat "" (p :: q :: parts))
      with (p +:+ "" +:+ String.concat "" (q :: parts)).
    rewrite !len_app, IH, len_empty, (total_len_cons p). lia.
Qed.

Lemma len_print_line s : len (s +:+ nl) = len s + 1.
Proof. rewrite len_app. reflexivity. Qed.

Ltac total_len_simpl :=
  repeat (rewrite total_len_cons || rewrite total_len_nil || rewrite len_empty).

(** ** The longest payload line *)

Lemma fold_max_ge xs x : x <= fold_left Z.max xs x.
Proof.
  revert x. induction xs as [|y xs IH]; intros x; cbn [fold_left]; [lia|].
  specialize (IH (Z.max x y)). lia.
Qed.

Lemma fold_max_bound xs x y : y ∈ xs -> y <= fold_left Z.max xs x.
Proof.
  revert x. induction xs as [|z xs IH]; intros x Hy; [by apply elem_of_nil in Hy|].
  apply elem_of_cons in Hy as [->|Hy]; cbn [fold_left].
  - pose proof (fold_max_ge xs (Z.max x z)). lia.
  - by apply IH.
Qed.

Lemma fold_max_elem xs x : fold_left Z.max xs x = x \/ fold_left Z.max xs x ∈ xs.
Proof.
  revert x. induction xs as [|z xs IH]; intros x; cbn [fold_left]; [by left|].
  destruct (IH (Z.max x z)) as [H|H].
  - rewrite H. destruct (Z.max_spec x z) as [[_ ->]|[_ ->]]; [right; left | by left].
  - right. by right.
Qed.

(** [py_max] returns the length of a longest line of a payload that has
    one. *)
Lemma py_max_longest (license : list string) :
  license <> [] ->
  exists longest, longest ∈ license /\
    (forall line, line ∈ license -> len line <= len longest) /\
    py_max (len <$> license) = Ok (len longest).
Proof.
  destruct license as [|l0 license]; [done|]. intros _.
  cbn [fmap list_fmap py_max].
  destruct (fold_max_elem (len <$> license) (len l0)) as [H|H].
  - exists l0. split; [left|]. split; [|by rewrite H].
    intros line Hl. rewrite <- H. apply elem_of_cons in Hl as [->|Hl].
    + apply fold_max_ge.
    + apply fold_max_bound, list_elem_of_fmap. eauto.
  - apply list_elem_of_fmap in H as (longest & Hlen & Hin).
    exists longest. split; [by right|]. split; [|by rewrite Hlen].
    intros line Hl. rewrite <- Hlen. apply elem_of_cons in Hl as [->|Hl].
    + apply fold_max_ge.
    + apply fold_max_bound, list_elem_of_fmap. eauto.
Qed.

(** ** Attributes that hold strs *)

Lemma sget_is_str a : is_str a = true -> sget a = Ok (text_of a).
Proof.
  unfold is_str, sget, text_of, IniValueAttribute_get.
  destruct (va_value a) as [| |s]; try discriminate. intros _.
  destruct (startswith dquote s && endswith dquote s); reflexivity.
Qed.

Lemma sget_ok a s : sget a = Ok s -> is_str a = true /\ s = text_of a.
Proof.
  unfold is_str, sget, text_of, IniValueAttribute_get.
  destruct (va_value a) as [| |v]; try discriminate.
  destruct (startswith dquote v && endswith dquote v); intros [= <-]; auto.
Qed.

Lemma sget_not_str a : is_str a = false -> sget a = Raise TypeError.
Proof.
  unfold is_str, sget, IniValueAttribute_get.
  destruct (va_value a); [reflexivity | reflexivity | discriminate].
Qed.

Ltac in_list :=
  unfold str_attributes;
  repeat first [apply list_elem_of_here | apply list_elem_of_further].

Lemma wf_filetype_is_str ft a :
  wf_filetype ft = true -> a ∈ str_attributes -> is_str (ft_value ft a) = true.
Proof.
  unfold wf_filetype. rewrite forallb_forall. intros H Ha.
  apply H. by apply list_elem_of_In.
Qed.

Lemma wf_block_is_str blk a : wf_block blk = true -> is_str (blk_value blk a) = true.
Proof.
  unfold wf_block. rewrite forallb_forall. intros H. apply H.
  destruct a; cbn; auto.
Qed.

Lemma wf_filetype_sget ft a :
  wf_filetype ft = true -> a ∈ str_attributes ->
  sget (ft_value ft a) = Ok (text_of (ft_value ft a)).
Proof. intros. by apply sget_is_str, wf_filetype_is_str. Qed.

Lemma wf_block_sget blk a :
  wf_block blk = true -> sget (blk_value blk a) = Ok (text_of (blk_value blk a)).
Proof. intros. by apply sget_is_str, wf_block_is_str. Qed.

(** ** The width of a block *)

Lemma max4_nested a b c d : max4 a b c d = Z.max a (Z.max b (Z.max c d)).
Proof. unfold max4. lia. Qed.

(** C3: for a payload with at least one line, [determine_length] returns
    the maximum of the first-line width (the lengths of [firstline_start],
    [firstline_end], [firstline_prepad], [firstline_postpad] and
    [block.start]), the middle width (the lengths of [midline_start],
    [midline_end] and of a longest payload line, counted in characters), the
    last-line width (the same sum over [lastline_*] and [block.end]) and
    [line_minlength]. *)
Theorem C3_determine_length_max `{rt : Runtime} (ft : ConfigFileType) (blk : ConfigBlock)
    (license : list string) (minlength : Z) :
  license <> [] ->
  wf_filetype ft = true ->
  wf_block blk = true ->
  py_int (IniValueAttribute_get (ft_value ft line_minlength)) = Ok minlength ->
  exists longest,
    longest ∈ license /\
    (forall line, line ∈ license -> len line <= len longest) /\
    let width a := len (text_of (ft_value ft a)) in
    let first := width firstline_start + width firstline_end + width firstline_prepad
                 + width firstline_postpad + len (text_of (blk_value blk start)) in
    let middle := width midline_start + width midline_end + len longest in
    let last := width lastline_start + width lastline_end + width lastline_prepad
                + width lastline_postpad + len (text_of (blk_value blk end_)) in
    determine_length ft blk license = Ok (Z.max first (Z.max middle (Z.max last minlength))).
Proof.
  intros Hne Hft Hblk Hmin.
  destruct (py_max_longest license Hne) as (longest & Hin & Hmax & Hpy).
  exists longest. split; [exact Hin|]. split; [exact Hmax|].
  cbv zeta. unfold determine_length.
  rewrite !(wf_filetype_sget ft) by (assumption || in_list).
  rewrite !(wf_block_sget blk) by assumption.
  cbn [mbind res_bind]. rewrite Hpy. cbn [mbind res_bind].
  rewrite Hmin. cbn [mbind res_bind].
  f_equal. unfold max4. lia.
Qed.

Lemma C3_determine_length_witness :
  determine_length (rt := example_runtime Py2) (plain_filetype Py2) (marker_block Py2)
    ["BEGIN"; "END OF IT"] = Ok 12.
Proof.
  destruct (C3_determine_length_max (rt := example_runtime Py2)
              (plain_filetype Py2) (marker_block Py2) ["BEGIN"; "END OF IT"] 12)
    as (longest & _ & _ & _); [discriminate | reflexivity | reflexivity | reflexivity |].
  reflexivity.
Defined.

Ltac read_str a :=
  let H := fresh "Hstr" in
  destruct (is_str a) eqn:H;
  [ rewrite (sget_is_str a H); cbn [mbind res_bind]
  | rewrite (sget_not_str a H); cbn [mbind res_bind] ].

(** C10: on a payload with no line [determine_length] returns no width: the
    maximum over the lengths of the payload lines is taken over nothing and
    raises ([ValueError], unless an attribute read before it holds no str),
    and [generate_block], which calls it first, raises the same error with
    no line written. *)
Theorem C10_empty_payload_raises `{rt : Runtime} (ft : ConfigFileType) (blk : ConfigBlock) :
  let e := if edges_are_str ft blk then ValueError else TypeError in
  determine_length ft blk [] = Raise e /\ generate_block ft blk [] = ([], Raise e).
Proof.
  cbv zeta.
  assert (H : determine_length ft blk [] =
              Raise (if edges_are_str ft blk then ValueError else TypeError)).
  { unfold determine_length, edges_are_str. cbn [forallb].
    read_str (ft_value ft firstline_start); [|reflexivity].
    read_str (ft_value ft firstline_end); [|reflexivity].
    read_str (ft_value ft firstline_prepad); [|reflexivity].
    read_str (ft_value ft firstline_postpad); [|reflexivity].
    read_str (blk_value blk start);
      [|by rewrite andb_false_r; destruct (is_str _), (is_str _), (is_str _), (is_str _)].
    read_str (ft_value ft lastline_start); [|reflexivity].
    read_str (ft_value ft lastline_end); [|reflexivity].
    read_str (ft_value ft lastline_prepad); [|reflexivity].
    read_str (ft_value ft lastline_postpad); [|reflexivity].
    read_str (blk_value blk end_); reflexivity. }
  split; [exact H|].
  unfold generate_block. by apply out_bind_lift_raise.
Qed.

(** ** The filling of the gaps *)

Lemma py_div2_int `{rt : Runtime} filler part :
  py_div2 filler = NumInt part -> part = filler / 2.
Proof. unfold py_div2. destruct py_version; [intros [= <-]; reflexivity | discriminate]. Qed.

Lemma py_div2_py2 `{rt : Runtime} filler :
  py_version = Py2 -> py_div2 filler = NumInt (filler / 2).
Proof. unfold py_div2. intros ->. reflexivity. Qed.

Lemma py_div2_py3 `{rt : Runtime} filler :
  py_version = Py3 -> py_div2 filler = NumFloat.
Proof. unfold py_div2. intros ->. reflexivity. Qed.

Lemma half_remainder_pos filler : 0 < filler -> 0 < filler - filler / 2.
Proof. intros H. pose proof (Z.div_lt filler 2). lia. Qed.

Lemma half_nonneg filler : 0 < filler -> 0 <= filler / 2.
Proof. intros H. apply Z.div_pos; lia. Qed.

Ltac half_pos := apply half_remainder_pos; lia.

(** A first or last line that is too short gets its gaps by [gap_rule]. *)
Lemma fill_edge_short `{rt : Runtime} filler_attr center s pre core post e length parts :
  let line := [s; ""; pre; core; post; ""; e] in
  total_len line < length ->
  fill_edge filler_attr center line length = Ok parts ->
  exists char left right,
    (sget filler_attr ≫= index0) = Ok char /\
    parts = [s; left; pre; core; post; right; e] /\
    gap_rule (IniBoolAttribute_get center) char (length - total_len line) left right.
Proof.
  intros line Hlt. unfold fill_edge. fold line.
  destruct (Z.ltb_spec (total_len line) length) as [_|]; [|lia].
  intros H. apply res_bind_ok in H as (value & Hvalue & H).
  apply res_bind_ok in H as (char & Hchar & H).
  apply res_bind_ok in H as ([line' filler'] & Hsplit & H).
  exists char. rewrite Hvalue. cbn [mbind res_bind]. unfold gap_rule.
  set (filler := length - total_len line) in *.
  destruct (IniBoolAttribute_get center).
  - destruct (py_div2 filler) as [part|] eqn:Hdiv; [|discriminate].
    apply py_div2_int in Hdiv. injection Hsplit as <- <-.
    assert (0 < filler - part) by (subst part filler; half_pos).
    destruct (Z.ltb_spec 0 (filler - part)); [|lia].
    injection H as <-. subst part. by eexists _, _.
  - injection Hsplit as <- <-.
    destruct (Z.ltb_spec 0 filler); [|subst filler; lia].
    injection H as <-. by eexists _, _.
Qed.

(** A first or last line that is wide enough is left as it is. *)
Lemma fill_edge_wide `{rt : Runtime} filler_attr center line length :
  length <= total_len line -> fill_edge filler_attr center line length = Ok line.
Proof.
  intros Hle. unfold fill_edge.
  destruct (Z.ltb_spec (total_len line) length); [lia | reflexivity].
Qed.

(** The filling of a middle line: [midline_gap_rule] when it is too short. *)
Lemma midline_parts_short `{rt : Runtime} ft s e length line parts :
  total_len [s; ""; line; ""; e] < length ->
  midline_parts ft s e length line = Ok parts ->
  exists left right,
    parts = [s; left; line; right; e] /\
    midline_gap_rule (IniBoolAttribute_get (ft_bool ft midline_center)) e line
      (length - total_len [s; ""; line; ""; e]) left right.
Proof.
  intros Hlt. unfold midline_parts, midline_gap_rule.
  set (midline := [s; ""; line; ""; e]) in *.
  set (center := IniBoolAttribute_get (ft_bool ft midline_center)).
  set (filler := length - total_len midline).
  assert (Hfiller : 0 < filler) by (subst filler; lia).
  destruct (Z.ltb_spec (total_len midline) length) as [_|Hge]; [|lia].
  clearbody filler.
  destruct (negb (len e =? 0)) eqn:He, center; cbn [orb andb].
  - destruct (py_div2 filler) as [part|] eqn:Hdiv; [|discriminate].
    apply py_div2_int in Hdiv. subst part. cbn [mbind res_bind].
    destruct (Z.ltb_spec 0 (filler - filler / 2)) as [_|Hle];
      [|pose proof (half_remainder_pos filler Hfiller); lia].
    intros [= <-]. eexists _, _. split; [reflexivity|]. split; [reflexivity|].
    by rewrite len_str_mul by (reflexivity || by apply half_nonneg).
  - cbn [mbind res_bind]. destruct (Z.ltb_spec 0 filler) as [_|Hle]; [|lia].
    intros [= <-]. eexists _, _. split; [reflexivity|]. split; [reflexivity|].
    rewrite len_empty. f_equal. lia.
  - destruct (negb (len line =? 0)).
    + destruct (py_div2 filler) as [part|] eqn:Hdiv; [|discriminate].
      apply py_div2_int in Hdiv. subst part. cbn [mbind res_bind].
      rewrite andb_false_r. intros [= <-]. by eexists _, _.
    + cbn [mbind res_bind]. rewrite andb_false_r. intros [= <-]. by eexists _, _.
  - intros [= <-]. by eexists _, _.
Qed.

Lemma midline_parts_wide `{rt : Runtime} ft s e length line :
  length <= total_len [s; ""; line; ""; e] ->
  midline_parts ft s e length line = Ok [s; ""; line; ""; e].
Proof.
  intros Hle. unfold midline_parts.
  destruct (negb (len e =? 0) || IniBoolAttribute_get (ft_bool ft midline_center));
    [|reflexivity].
  destruct (Z.ltb_spec (total_len [s; ""; line; ""; e]) length); [lia | reflexivity].
Qed.

(** ** The gaps of a role *)

Lemma firstline_parts_ok `{rt : Runtime} ft blk length parts :
  firstline_parts ft blk length = Ok parts ->
  exists s pre core post e,
    sget (ft_value ft firstline_start) = Ok s /\
    sget (ft_value ft firstline_prepad) = Ok pre /\
    sget (blk_value blk start) = Ok core /\
    sget (ft_value ft firstline_postpad) = Ok post /\
    sget (ft_value ft firstline_end) = Ok e /\
    fill_edge (ft_value ft firstline_filler) (ft_bool ft firstline_center)
      [s; ""; pre; core; post; ""; e] length = Ok parts.
Proof.
  unfold firstline_parts. intros H.
  apply res_bind_ok in H as (s & ? & H). apply res_bind_ok in H as (pre & ? & H).
  apply res_bind_ok in H as (core & ? & H). apply res_bind_ok in H as (post & ? & H).
  apply res_bind_ok in H as (e & ? & H). eauto 12.
Qed.

Lemma lastline_parts_ok `{rt : Runtime} ft blk length parts :
  lastline_parts ft blk length = Ok parts ->
  exists s pre core post e,
    sget (ft_value ft lastline_start) = Ok s /\
    sget (ft_value ft lastline_prepad) = Ok pre /\
    sget (blk_value blk end_) = Ok core /\
    sget (ft_value ft lastline_postpad) = Ok post /\
    sget (ft_value ft lastline_end) = Ok e /\
    fill_edge (ft_value ft lastline_filler) (ft_bool ft lastline_center)
      [s; ""; pre; core; post; ""; e] length = Ok parts.
Proof.
  unfold lastline_parts. intros H.
  apply res_bind_ok in H as (s & ? & H). apply res_bind_ok in H as (pre & ? & H).
  apply res_bind_ok in H as (core & ? & H). apply res_bind_ok in H as (post & ? & H).
  apply res_bind_ok in H as (e & ? & H). eauto 12.
Qed.

(** What [fill_edge] returns, short line or not: the seven parts with at
    most the two gaps changed. *)
Lemma fill_edge_gaps `{rt : Runtime} filler_attr center s pre core post e length parts :
  let line := [s; ""; pre; core; post; ""; e] in
  fill_edge filler_attr center line length = Ok parts ->
  exists left right,
    parts = [s; left; pre; core; post; right; e] /\
    (total_len line < length ->
     exists char, (sget filler_attr ≫= index0) = Ok char /\
       gap_rule (IniBoolAttribute_get center) char (length - total_len line) left right) /\
    (length <= total_len line -> left = "" /\ right = "").
Proof.
  intros line H. destruct (Z.lt_ge_cases (total_len line) length) as [Hlt|Hge].
  - destruct (fill_edge_short _ _ _ _ _ _ _ _ _ Hlt H) as (char & left & right & ? & ? & ?).
    exists left, right. split; [done|]. split; [eauto | lia].
  - rewrite fill_edge_wide in H by done. injection H as <-.
    exists "", "". split; [done|]. split; [lia | done].
Qed.

Lemma midline_parts_gaps `{rt : Runtime} ft s e length line parts :
  let midline := [s; ""; line; ""; e] in
  midline_parts ft s e length line = Ok parts ->
  exists left right,
    parts = [s; left; line; right; e] /\
    (total_len midline < length ->
     midline_gap_rule (IniBoolAttribute_get (ft_bool ft midline_center)) e line
       (length - total_len midline) left right) /\
    (length <= total_len midline -> left = "" /\ right = "").
Proof.
  intros midline H. destruct (Z.lt_ge_cases (total_len midline) length) as [Hlt|Hge].
  - destruct (midline_parts_short _ _ _ _ _ _ Hlt H) as (left & right & ? & ?).
    exists left, right. split; [done|]. split; [done | lia].
  - rewrite midline_parts_wide in H by done. injection H as <-.
    exists "", "". split; [done|]. split; [lia | done].
Qed.

(** C1, as the code has it: when a role is rendered and its line is too
    short by [filler] characters, a first or a last line gets
    [floor(filler / 2)] fill characters in its left gap and the other
    [filler - floor(filler / 2)] in its right gap if the role is centered,
    and all [filler] in its right gap if it is not.  A middle line gets
    [floor(filler / 2)] spaces in its left gap only if it is centered and
    the line or [midline_end] is not empty, and the rest of the filler in
    its right gap only if [midline_end] is not empty. *)
Theorem C1_gap_distribution `{rt : Runtime} (ft : ConfigFileType) (blk : ConfigBlock)
    (length : Z) (role : Role) (parts : list string) :
  role_parts ft blk length role = Ok parts ->
  fixed_total role parts < length ->
  match role with
  | MiddleLine line =>
      midline_gap_rule (role_center ft role) (text_of (ft_value ft midline_end)) line
        (length - fixed_total role parts) (left_gap parts) (right_gap role parts)
  | _ =>
      exists char, role_char ft role = Ok char /\
        gap_rule (role_center ft role) char
          (length - fixed_total role parts) (left_gap parts) (right_gap role parts)
  end.
Proof.
  intros Hparts Hshort. destruct role as [|line|]; cbn [role_parts] in Hparts.
  - apply firstline_parts_ok in Hparts as (s & pre & core & post & e & _ & _ & _ & _ & _ & H).
    apply fill_edge_gaps in H as (left & right & -> & Hlt & Hge).
    change (fixed_total FirstLine [s; left; pre; core; post; right; e])
      with (total_len [s; ""; pre; core; post; ""; e]) in *.
    exact (Hlt Hshort).
  - apply res_bind_ok in Hparts as (s & _ & Hparts).
    apply res_bind_ok in Hparts as (e & He & Hparts).
    apply sget_ok in He as [_ ->].
    apply midline_parts_gaps in Hparts as (left & right & -> & Hlt & Hge).
    exact (Hlt Hshort).
  - apply lastline_parts_ok in Hparts as (s & pre & core & post & e & _ & _ & _ & _ & _ & H).
    apply fill_edge_gaps in H as (left & right & -> & Hlt & Hge).
    change (fixed_total LastLine [s; left; pre; core; post; right; e])
      with (total_len [s; ""; pre; core; post; ""; e]) in *.
    exact (Hlt Hshort).
Qed.

Lemma C1_gap_distribution_witness :
  (exists char, role_char (centered_filetype Py2) FirstLine = Ok char /\
     gap_rule true char 5 "##" "###") /\
  midline_gap_rule true "|" "hello" 5 "  " "   ".
Proof.
  split.
  - exact (C1_gap_distribution (rt := example_runtime Py2) (centered_filetype Py2)
             (marker_block Py2) 12 FirstLine [""; "##"; " "; "BEGIN"; " "; "###"; ""]
             eq_refl eq_refl).
  - exact (C1_gap_distribution (rt := example_runtime Py2) (boxed_filetype Py2)
             (marker_block Py2) 12 (MiddleLine "hello") ["|"; "  "; "hello"; "   "; "|"]
             eq_refl eq_refl).
Defined.

(** C1 as stated fails on the middle role: not centered and with no end
    decoration, a middle line that is 11 characters short gets no filler at
    all, under either version of the language. *)
Lemma C1_midline_counterexample :
  midline_breaks_gap_rule Py2 /\ midline_breaks_gap_rule Py3.
Proof.
  split; (repeat split; try reflexivity; intros [_ H]; discriminate H).
Qed.

Lemma sget_index0_len a char : (sget a ≫= index0) = Ok char -> len char = 1.
Proof. intros H. apply res_bind_ok in H as (value & _ & H). by apply index0_len in H. Qed.

Lemma half_balance filler :
  0 < filler ->
  let left := filler / 2 in
  let right := filler - filler / 2 in
  (right - left = 0 \/ right - left = 1) /\ left + right = filler /\ 0 <= left /\ 0 < right.
Proof.
  intros H. cbv zeta.
  pose proof (Z.div_mod filler 2). pose proof (Z.mod_pos_bound filler 2). lia.
Qed.

Lemma role_char_len `{rt : Runtime} ft role char :
  role_char ft role = Ok char -> len char = 1.
Proof.
  destruct role; cbn [role_char]; intros H.
  - apply res_bind_ok in H as (value & _ & H). by apply index0_len in H.
  - by injection H as <-.
  - apply res_bind_ok in H as (value & _ & H). by apply index0_len in H.
Qed.

(** The lengths of the two gaps a centered split gives. *)
Lemma gap_rule_centered_len char filler left right :
  len char = 1 -> 0 < filler -> gap_rule true char filler left right ->
  len left = filler / 2 /\ len right = filler - filler / 2.
Proof.
  intros Hchar Hpos [-> ->]. destruct (half_balance filler Hpos) as (_ & _ & ? & ?).
  split; apply len_str_mul; (done || lia).
Qed.

Lemma gap_rule_len center char filler left right :
  len char = 1 -> 0 < filler -> gap_rule center char filler left right ->
  len left + len right = filler.
Proof.
  intros Hchar Hpos H. destruct center.
  - apply gap_rule_centered_len in H as [-> ->]; [lia | done | done].
  - destruct H as [-> ->]. rewrite len_empty, len_str_mul by (done || lia). lia.
Qed.

(** C8, as the code has it: on a role that is rendered centered, too short
    by [filler] characters and whose right gap is filled (a first or last
    line, or a middle line before an end decoration), the right gap is as
    long as the left gap or one character longer, and the two gaps hold the
    [filler] characters between them. *)
Theorem C8_centered_gap_balance `{rt : Runtime} (ft : ConfigFileType) (blk : ConfigBlock)
    (length : Z) (role : Role) (parts : list string) :
  role_parts ft blk length role = Ok parts ->
  role_center ft role = true ->
  fills_right ft role = true ->
  fixed_total role parts < length ->
  let left := len (left_gap parts) in
  let right := len (right_gap role parts) in
  (right - left = 0 \/ right - left = 1) /\
  left + right = length - fixed_total role parts.
Proof.
  intros Hparts Hcenter Hright Hshort. cbv zeta.
  unfold role_center in Hcenter.
  destruct role as [|line|]; cbn [role_parts] in Hparts.
  - apply firstline_parts_ok in Hparts as (s & pre & core & post & e & _ & _ & _ & _ & _ & H).
    apply fill_edge_gaps in H as (left & right & -> & Hlt & _).
    change (left_gap [s; left; pre; core; post; right; e]) with left.
    change (right_gap FirstLine [s; left; pre; core; post; right; e]) with right.
    change (fixed_total FirstLine [s; left; pre; core; post; right; e])
      with (total_len [s; ""; pre; core; post; ""; e]) in *.
    destruct (Hlt Hshort) as (char & Hchar%sget_index0_len & Hrule).
    rewrite Hcenter in Hrule.
    apply gap_rule_centered_len in Hrule as [-> ->]; [|done|lia].
    assert (Hpos : 0 < length - total_len [s; ""; pre; core; post; ""; e]) by lia.
    destruct (half_balance _ Hpos) as (Hbal & Hsum & _). by split.
  - cbn [fills_right] in Hright.
    apply res_bind_ok in Hparts as (s & _ & Hparts).
    apply res_bind_ok in Hparts as (e & [_ ->]%sget_ok & Hparts).
    apply midline_parts_gaps in Hparts as (left & right & -> & Hlt & _).
    set (e := text_of (ft_value ft midline_end)) in *.
    change (left_gap [s; left; line; right; e]) with left.
    change (right_gap (MiddleLine line) [s; left; line; right; e]) with right.
    change (fixed_total (MiddleLine line) [s; left; line; right; e])
      with (total_len [s; ""; line; ""; e]) in *.
    destruct (Hlt Hshort) as [Hl Hr].
    rewrite Hcenter, Hright in Hl. rewrite Hright in Hr. cbn [andb orb] in Hl.
    assert (Hpos : 0 < length - total_len [s; ""; line; ""; e]) by lia.
    destruct (half_balance _ Hpos) as (Hbal & Hsum & Hleft & Hrest).
    rewrite Hr, Hl, !len_str_mul; rewrite ?len_str_mul; (reflexivity || lia).
  - apply lastline_parts_ok in Hparts as (s & pre & core & post & e & _ & _ & _ & _ & _ & H).
    apply fill_edge_gaps in H as (left & right & -> & Hlt & _).
    change (left_gap [s; left; pre; core; post; right; e]) with left.
    change (right_gap LastLine [s; left; pre; core; post; right; e]) with right.
    change (fixed_total LastLine [s; left; pre; core; post; right; e])
      with (total_len [s; ""; pre; core; post; ""; e]) in *.
    destruct (Hlt Hshort) as (char & Hchar%sget_index0_len & Hrule).
    rewrite Hcenter in Hrule.
    apply gap_rule_centered_len in Hrule as [-> ->]; [|done|lia].
    assert (Hpos : 0 < length - total_len [s; ""; pre; core; post; ""; e]) by lia.
    destruct (half_balance _ Hpos) as (Hbal & Hsum & _). by split.
Qed.

Lemma C8_centered_gap_balance_witness :
  (len "###" - len "##" = 0 \/ len "###" - len "##" = 1) /\ len "##" + len "###" = 12 - 7.
Proof.
  exact (C8_centered_gap_balance (rt := example_runtime Py2) (centered_filetype Py2)
           (marker_block Py2) 12 FirstLine centered_firstline_parts
           eq_refl eq_refl eq_refl eq_refl).
Defined.

(** C8 as stated fails: under floor division the first line of the centered
    file type, five characters short, gets two fill characters to the left
    and three to the right, so that left minus right is -1. *)
Lemma C8_left_minus_right_counterexample :
  let ft := centered_filetype Py2 in
  let left := len (left_gap centered_firstline_parts) in
  let right := len (right_gap FirstLine centered_firstline_parts) in
  role_parts (rt := example_runtime Py2) ft (marker_block Py2) 12 FirstLine
    = Ok centered_firstline_parts /\
  role_center ft FirstLine = true /\
  12 - fixed_total FirstLine centered_firstline_parts = 5 /\
  left - right = -1 /\
  ~ (left - right = 0 \/ left - right = 1).
Proof.
  cbv zeta. repeat split; try reflexivity. intros [H|H]; discriminate H.
Qed.

(** Under Python 3 [filler / 2] is a float, and the centered filling of a
    first or last line that is too short raises [TypeError] at
    [char * part]. *)
Lemma fill_edge_py3_raises `{rt : Runtime} filler_attr center line length char :
  py_version = Py3 ->
  IniBoolAttribute_get center = true ->
  total_len line < length ->
  (sget filler_attr ≫= index0) = Ok char ->
  fill_edge filler_attr center line length = Raise TypeError.
Proof.
  intros Hv Hcenter Hlt Hchar. unfold fill_edge.
  destruct (Z.ltb_spec (total_len line) length); [|lia].
  apply res_bind_ok in Hchar as (value & -> & Hchar). cbn [mbind res_bind].
  rewrite Hchar, Hcenter, py_div2_py3 by done. reflexivity.
Qed.

Example centered_block_py3 :
  generate_block (rt := example_runtime Py3) (centered_filetype Py3) (marker_block Py3) ["X"]
  = ([], Raise TypeError).
Proof. reflexivity. Qed.

Example centered_block_py2 :
  generate_block (rt := example_runtime Py2) (centered_filetype Py2) (marker_block Py2) ["X"]
  = (println <$> ["## BEGIN ###"; ""; "X"; ""; "### END ####"], Ok ()).
Proof. reflexivity. Qed.

(** ** The rendered block *)

Lemma print_times_out n s : print_times n s = (replicate n (println s), Ok ()).
Proof.
  induction n as [|n IH]; [reflexivity|].
  cbn [print_times replicate]. unfold print at 1. cbn [mbind out_bind].
  by rewrite IH.
Qed.

Lemma for_each_midlines `{rt : Runtime} ft s e length license out :
  for_each (fun line => midline ← lift (midline_parts ft s e length line);
                        print (join midline)) license = (out, Ok ()) ->
  exists mids,
    Forall2 (fun line parts => midline_parts ft s e length line = Ok parts) license mids /\
    out = (fun parts => println (join parts)) <$> mids.
Proof.
  revert out. induction license as [|line license IH]; intros out; cbn [for_each].
  - intros [= <-]. exists []. split; [constructor | reflexivity].
  - intros H. apply out_bind_ok in H as (o1 & [] & o2 & Hline & Hrest & ->).
    apply out_bind_ok in Hline as (o3 & parts & o4 & Hparts & Hprint & ->).
    apply lift_ok in Hparts as [Hparts ->]. injection Hprint as <-.
    apply IH in Hrest as (mids & Hmids & ->).
    exists (parts :: mids). split; [by constructor | reflexivity].
Qed.

(** What a run of [generate_block] that raises nothing has computed and
    written. *)
Lemma generate_block_ok `{rt : Runtime} ft blk license out :
  generate_block ft blk license = (out, Ok ()) ->
  exists width first pad n s e mids last,
    determine_length ft blk license = Ok width /\
    firstline_parts ft blk width = Ok first /\
    padline_parts ft width = Ok pad /\
    py_int (IniValueAttribute_get (ft_value ft line_padding)) = Ok n /\
    sget (ft_value ft midline_start) = Ok s /\
    sget (ft_value ft midline_end) = Ok e /\
    Forall2 (fun line parts => midline_parts ft s e width line = Ok parts) license mids /\
    lastline_parts ft blk width = Ok last /\
    out = println <$> (join first :: replicate (Z.to_nat n) (join pad)
                         ++ (join <$> mids)
                         ++ replicate (Z.to_nat n) (join pad) ++ [join last]).
Proof.
  unfold generate_block. intros H.
  apply out_bind_ok in H as (? & width & ? & Hw & H & ->). apply lift_ok in Hw as [Hw ->].
  apply out_bind_ok in H as (? & first & ? & Hf & H & ->). apply lift_ok in Hf as [Hf ->].
  apply out_bind_ok in H as (? & [] & ? & [= <-] & H & ->).
  apply out_bind_ok in H as (? & pad & ? & Hp & H & ->). apply lift_ok in Hp as [Hp ->].
  apply out_bind_ok in H as (? & n & ? & Hn & H & ->). apply lift_ok in Hn as [Hn ->].
  apply out_bind_ok in H as (? & [] & ? & Hpad1 & H & ->).
  rewrite print_times_out in Hpad1. injection Hpad1 as <-.
  apply out_bind_ok in H as (? & s & ? & Hs & H & ->). apply lift_ok in Hs as [Hs ->].
  apply out_bind_ok in H as (? & e & ? & He & H & ->). apply lift_ok in He as [He ->].
  apply out_bind_ok in H as (? & [] & ? & Hmids & H & ->).
  apply for_each_midlines in Hmids as (mids & Hmids & ->).
  apply out_bind_ok in H as (? & n' & ? & Hn' & H & ->). apply lift_ok in Hn' as [Hn' ->].
  rewrite Hn in Hn'. injection Hn' as <-.
  apply out_bind_ok in H as (? & [] & ? & Hpad2 & H & ->).
  rewrite print_times_out in Hpad2. injection Hpad2 as <-.
  apply out_bind_ok in H as (? & last & ? & Hl & H & ->). apply lift_ok in Hl as [Hl ->].
  injection H as <-.
  exists width, first, pad, n, s, e, mids, last. repeat (split; [assumption|]).
  cbn [app fmap list_fmap]. f_equal.
  rewrite !fmap_app, !fmap_replicate, <- list_fmap_compose. reflexivity.
Qed.

Lemma py_max_bounds (license : list string) liclen :
  py_max (len <$> license) = Ok liclen ->
  0 <= liclen /\ forall line, line ∈ license -> len line <= liclen.
Proof.
  intros H. destruct license as [|l0 license]; [discriminate|].
  destruct (py_max_longest (l0 :: license)) as (longest & _ & Hmax & Heq); [done|].
  rewrite H in Heq. injection Heq as ->. split; [apply len_nonneg | exact Hmax].
Qed.

(** The width [determine_length] returns leaves room for every line before
    its gaps are filled. *)
Lemma determine_length_bounds `{rt : Runtime} ft blk license width :
  determine_length ft blk license = Ok width ->
  let T a := text_of (ft_value ft a) in
  total_len [T firstline_start; ""; T firstline_prepad; text_of (blk_value blk start);
             T firstline_postpad; ""; T firstline_end] <= width /\
  total_len [T lastline_start; ""; T lastline_prepad; text_of (blk_value blk end_);
             T lastline_postpad; ""; T lastline_end] <= width /\
  total_len [T midline_start; ""; T midline_end] <= width /\
  forall line, line ∈ license ->
    total_len [T midline_start; ""; line; ""; T midline_end] <= width.
Proof.
  unfold determine_length. intros H.
  repeat (apply res_bind_ok in H as (? & ?%sget_ok & H)).
  apply res_bind_ok in H as (liclen & Hmax & H).
  repeat (apply res_bind_ok in H as (? & ?%sget_ok & H)).
  apply res_bind_ok in H as (minlength & _ & H). injection H as <-.
  destruct_and?. subst. apply py_max_bounds in Hmax as [Hpos Hmax].
  cbv zeta. unfold max4. total_len_simpl.
  repeat split; try lia. intros line Hline. total_len_simpl.
  specialize (Hmax line Hline). lia.
Qed.

(** A first or last line is filled up to the width exactly. *)
Lemma fill_edge_len `{rt : Runtime} filler_attr center s pre core post e length parts :
  let line := [s; ""; pre; core; post; ""; e] in
  total_len line <= length ->
  fill_edge filler_attr center line length = Ok parts ->
  len (join parts) = length.
Proof.
  intros line Hle H. apply fill_edge_gaps in H as (left & right & -> & Hlt & Hge).
  rewrite len_join. fold line in Hlt, Hge.
  assert (Htotal : total_len [s; left; pre; core; post; right; e]
                   = total_len line + len left + len right).
  { unfold line. total_len_simpl. lia. }
  rewrite Htotal. destruct (Z.lt_ge_cases (total_len line) length) as [Hshort|Hwide].
  - destruct (Hlt Hshort) as (char & Hchar%sget_index0_len & Hrule).
    apply gap_rule_len in Hrule; [lia | done | lia].
  - destruct (Hge Hwide) as [-> ->]. rewrite len_empty. lia.
Qed.

(** A middle line is filled up to the width when there is an end
    decoration, and stays below it otherwise. *)
Lemma midline_parts_len `{rt : Runtime} ft s e length line parts :
  total_len [s; ""; line; ""; e] <= length ->
  midline_parts ft s e length line = Ok parts ->
  len (join parts) = length \/ (len (join parts) < length /\ e = "").
Proof.
  intros Hle H. apply midline_parts_gaps in H as (left & right & -> & Hlt & Hge).
  rewrite len_join.
  set (total := total_len [s; ""; line; ""; e]) in *.
  assert (Htotal : total_len [s; left; line; right; e] = total + len left + len right).
  { unfold total. total_len_simpl. lia. }
  rewrite Htotal. destruct (Z.lt_ge_cases total length) as [Hshort|Hwide].
  - destruct (Hlt Hshort) as [Hl Hr].
    assert (Hpos : 0 < length - total) by lia.
    destruct (half_balance _ Hpos) as (_ & _ & Hhalf & Hrest).
    assert (Hleft : 0 <= len left <= (length - total) / 2).
    { rewrite Hl. destruct (_ && _).
      - rewrite len_str_mul by done. lia.
      - rewrite len_empty. lia. }
    destruct (negb (len e =? 0)) eqn:He.
    + left. rewrite Hr, len_str_mul by (done || lia). lia.
    + right. rewrite Hr, len_empty. split; [lia|].
      apply len_zero. apply negb_false_iff in He. lia.
  - destruct (Hge Hwide) as [-> ->]. rewrite len_empty. left. lia.
Qed.

Lemma padline_parts_len `{rt : Runtime} ft length pad :
  total_len [text_of (ft_value ft midline_start); ""; text_of (ft_value ft midline_end)]
    <= length ->
  padline_parts ft length = Ok pad ->
  len (join pad) = length \/
  (len (join pad) <= length /\ text_of (ft_value ft midline_end) = "").
Proof.
  unfold padline_parts. intros Hle H.
  apply res_bind_ok in H as (s & [_ ->]%sget_ok & H).
  apply res_bind_ok in H as (e & [_ ->]%sget_ok & H).
  set (s := text_of (ft_value ft midline_start)) in *.
  set (e := text_of (ft_value ft midline_end)) in *.
  set (total := total_len [s; ""; e]) in *.
  destruct (Z.ltb_spec total length) as [Hshort|Hwide]; cbn [andb] in H.
  - destruct (negb (len e =? 0)) eqn:He; injection H as <-; rewrite len_join.
    + left. cbn [insert list_insert]. subst total. revert Hshort Hle.
      total_len_simpl. intros. rewrite len_str_mul by (done || lia). lia.
    + right. split; [done|]. apply len_zero. apply negb_false_iff in He. lia.
  - injection H as <-. left. rewrite len_join. fold total. lia.
Qed.

(** C2, as the code has it: when [generate_block] renders a block, its
    first and its last line have exactly the width [determine_length]
    computes; each of the lines between them (the padding lines and one line
    per payload line) has that width too when [midline_end] is not empty, and
    is at most that wide when it is empty. *)
Theorem C2_line_lengths `{rt : Runtime} (ft : ConfigFileType) (blk : ConfigBlock)
    (license : list string) (out : list string) (width : Z) :
  determine_length ft blk license = Ok width ->
  generate_block ft blk license = (out, Ok ()) ->
  exists first body last n,
    out = println <$> (first :: body ++ [last]) /\
    len first = width /\
    len last = width /\
    Forall (fun line => len line = width \/
                        (len line <= width /\ text_of (ft_value ft midline_end) = "")) body /\
    py_int (IniValueAttribute_get (ft_value ft line_padding)) = Ok n /\
    length body = (Z.to_nat n + length license + Z.to_nat n)%nat.
Proof.
  intros Hwidth Hgen.
  apply generate_block_ok in Hgen
    as (w & first & pad & n & s & e & mids & last
        & Hw & Hfirst & Hpad & Hn & Hs & He & Hmids & Hlast & ->).
  rewrite Hwidth in Hw. injection Hw as <-.
  destruct (determine_length_bounds _ _ _ _ Hwidth) as (Bfirst & Blast & Bpad & Bmid).
  apply sget_ok in Hs as [_ ->], He as [_ ->].
  exists (join first),
    (replicate (Z.to_nat n) (join pad) ++ (join <$> mids) ++ replicate (Z.to_nat n) (join pad)),
    (join last), n.
  split; [by rewrite <- !app_assoc|].
  split.
  { apply firstline_parts_ok in Hfirst
      as (? & ? & ? & ? & ? & [_ ->]%sget_ok & [_ ->]%sget_ok & [_ ->]%sget_ok
          & [_ ->]%sget_ok & [_ ->]%sget_ok & H).
    by apply fill_edge_len in H. }
  split.
  { apply lastline_parts_ok in Hlast
      as (? & ? & ? & ? & ? & [_ ->]%sget_ok & [_ ->]%sget_ok & [_ ->]%sget_ok
          & [_ ->]%sget_ok & [_ ->]%sget_ok & H).
    by apply fill_edge_len in H. }
  split; [|split; [exact Hn|]].
  - pose proof (padline_parts_len ft width pad Bpad Hpad) as Hpadlen.
    assert (Hpads : Forall (fun line => len line = width \/
                (len line <= width /\ text_of (ft_value ft midline_end) = ""))
              (replicate (Z.to_nat n) (join pad))).
    { apply Forall_replicate. exact Hpadlen. }
    rewrite !Forall_app. split; [exact Hpads|]. split; [|exact Hpads].
    apply Forall_fmap. clear -Hmids Bmid.
    induction Hmids as [|line parts license mids Hparts _ IH]; [constructor|].
    constructor.
    + cbn. apply midline_parts_len in Hparts; [|apply Bmid; left].
      destruct Hparts as [->|[Hlt ->]]; [by left | right; split; [lia | done]].
    + apply IH. intros l Hl. apply Bmid. by right.
  - rewrite !length_app, !length_replicate, length_fmap.
    apply Forall2_length in Hmids. lia.
Qed.

Lemma C2_line_lengths_witness :
  exists first body last n,
    println <$> plain_block_lines = println <$> (first :: body ++ [last]) /\
    len first = 12 /\
    len last = 12 /\
    Forall (fun line => len line = 12 \/
              (len line <= 12 /\ text_of (ft_value (plain_filetype Py3) midline_end) = ""))
      body /\
    py_int (rt := example_runtime Py3)
      (IniValueAttribute_get (ft_value (plain_filetype Py3) line_padding)) = Ok n /\
    length body = (Z.to_nat n + length ["X"] + Z.to_nat n)%nat.
Proof.
  exact (C2_line_lengths (rt := example_runtime Py3) (plain_filetype Py3) (marker_block Py3)
           ["X"] (println <$> plain_block_lines) 12 eq_refl eq_refl).
Defined.

(** C2 as stated fails: the plain file type renders the payload [["X"]] at
    width 12, and the middle line and the padding lines are shorter, under
    either version of the language. *)
Lemma C2_short_line_counterexample :
  middle_line_is_short Py2 /\ middle_line_is_short Py3.
Proof.
  split; (split; [reflexivity|]; split; [reflexivity|]);
    intros H; apply Forall_cons in H as [_ H]; apply Forall_cons in H as [H _];
    vm_compute in H; by apply H.
Qed.

(** ** The scanner *)

Lemma out_bind_ret {A B} (a : A) (f : A -> Out B) : mret a ≫= f = f a.
Proof. unfold mret, out_ret. cbn. by destruct (f a). Qed.

Lemma out_bind_assoc {A B C} (m : Out A) (f : A -> Out B) (g : B -> Out C) :
  (m ≫= f) ≫= g = m ≫= (fun a => f a ≫= g).
Proof.
  destruct m as [o [a|e]]; [|reflexivity]. cbn.
  destruct (f a) as [o1 [b|e]]; cbn; [|reflexivity].
  destruct (g b) as [o2 r]. by rewrite app_assoc.
Qed.

Lemma out_bind_written {A B} (m : Out A) (f : A -> Out B) o a :
  m = (o, Ok a) -> m ≫= f = (o ++ (f a).1, (f a).2).
Proof. intros ->. cbn. by destruct (f a). Qed.

Section Scanner.
Context `{rt : Runtime}.
Variables (ft : ConfigFileType) (blk : ConfigBlock) (license : list string).
Variables (re_start re_end : Regex).

Local Abbreviation run := (scan ft blk re_start re_end license).

(** The loop over two runs of lines is the loop over the first, then the
    loop over the second from the state the first ends in. *)
Lemma scan_app l1 l2 in_block :
  run (l1 ++ l2) in_block = run l1 in_block ≫= run l2.
Proof.
  revert in_block. induction l1 as [|line l1 IH]; intros in_block; cbn [app scan].
  - by rewrite out_bind_ret.
  - destruct in_block.
    + destruct (re_match re_end line); [|apply IH].
      rewrite out_bind_assoc. f_equal. by rewrite IH.
    + destruct (re_match re_start line); [apply IH|].
      rewrite out_bind_assoc. f_equal. by rewrite IH.
Qed.

(** Outside a block, lines that do not match the start pattern pass
    through. *)
Lemma scan_pass_through pre :
  Forall (fun line => re_match re_start line = false) pre ->
  run pre false = (pre, Ok false).
Proof.
  induction 1 as [|line pre Hline _ IH]; [reflexivity|].
  cbn [scan]. rewrite Hline. unfold print_raw. cbn [mbind out_bind]. by rewrite IH.
Qed.

(** Inside a block, lines that do not match the end pattern are dropped. *)
Lemma scan_swallow post :
  Forall (fun line => re_match re_end line = false) post ->
  run post true = ([], Ok true).
Proof.
  induction 1 as [|line post Hline _ IH]; [reflexivity|].
  cbn [scan]. by rewrite Hline.
Qed.

(** A start marker met outside a block and followed by no end marker leaves
    the loop inside the block, with nothing written after the marker. *)
Lemma scan_unterminated pre written s post :
  run pre false = (written, Ok false) ->
  re_match re_start s = true ->
  Forall (fun line => re_match re_end line = false) post ->
  run (pre ++ s :: post) false = (written, Ok true).
Proof.
  intros Hpre Hs Hpost. rewrite scan_app, (out_bind_written _ _ _ _ Hpre).
  cbn [scan]. rewrite Hs, scan_swallow by done. cbn [fst snd]. by rewrite app_nil_r.
Qed.

Lemma Segments_app rendered out1 out2 :
  Segments re_start rendered out1 -> Segments re_start rendered out2 ->
  Segments re_start rendered (out1 ++ out2).
Proof.
  induction 1 as [|line rest Hline _ IH|rest _ IH]; intros H2; cbn [app].
  - done.
  - apply segments_line; [done | by apply IH].
  - rewrite <- app_assoc. apply segments_block. by apply IH.
Qed.

Section Rendered.
Variable rendered : list string.
Hypothesis Hrendered : generate_block ft blk license = (rendered, Ok ()).

Lemma Segments_rendered : Segments re_start rendered rendered.
Proof.
  pose proof (segments_block re_start rendered [] (segments_nil _ _)) as H.
  by rewrite app_nil_r in H.
Qed.

(** The loop raises nothing and writes segments. *)
Lemma scan_segments handle in_block :
  exists out state,
    run handle in_block = (out, Ok state) /\ Segments re_start rendered out.
Proof.
  revert in_block. induction handle as [|line handle IH]; intros in_block; cbn [scan].
  - exists [], in_block. split; [done | apply segments_nil].
  - destruct in_block.
    + destruct (re_match re_end line); [|apply IH].
      destruct (IH false) as (out & state & Hout & Hseg).
      exists (rendered ++ out), state. rewrite Hrendered. cbn [mbind out_bind]. rewrite Hout.
      split; [done | by apply segments_block].
    + destruct (re_match re_start line) eqn:Hline; [apply IH|].
      destruct (IH false) as (out & state & Hout & Hseg).
      exists (line :: out), state. unfold print_raw. cbn [mbind out_bind]. rewrite Hout.
      split; [done | by apply segments_line].
Qed.

(** A rendered block that carries its own markers is read as a block and
    written again. *)
Lemma scan_rendered b1 mid bn :
  re_match re_start b1 = true ->
  Forall (fun line => re_match re_end line = false) mid ->
  re_match re_end bn = true ->
  run (b1 :: mid ++ [bn]) false = (rendered, Ok false).
Proof.
  intros Hb1 Hmid Hbn. cbn [scan]. rewrite Hb1.
  rewrite scan_app, (out_bind_written _ _ _ _ (scan_swallow mid Hmid)).
  cbn [scan]. rewrite Hbn, Hrendered. cbn. by rewrite app_nil_r.
Qed.

(** When the rendered block carries its own markers, the loop over segments
    writes them again and ends outside a block. *)
Lemma scan_of_segments b1 mid bn out :
  rendered = b1 :: mid ++ [bn] ->
  re_match re_start b1 = true ->
  Forall (fun line => re_match re_end line = false) mid ->
  re_match re_end bn = true ->
  Segments re_start rendered out ->
  run out false = (out, Ok false).
Proof.
  intros Hshape Hb1 Hmid Hbn. induction 1 as [|line rest Hline _ IH|rest _ IH].
  - reflexivity.
  - cbn [scan]. rewrite Hline. unfold print_raw. cbn [mbind out_bind]. by rewrite IH.
  - pose proof (scan_rendered b1 mid bn Hb1 Hmid Hbn) as Hblock.
    rewrite <- Hshape in Hblock.
    by rewrite scan_app, (out_bind_written _ _ _ _ Hblock), IH.
Qed.

End Rendered.
End Scanner.

Lemma apply_block_scan `{rt : Runtime} ft blk handle license re_start re_end :
  compile (IniValueAttribute_get (blk_value blk start_pattern)) = Ok re_start ->
  compile (IniValueAttribute_get (blk_value blk end_pattern)) = Ok re_end ->
  apply_block ft blk handle license =
  scan ft blk re_start re_end license handle false
    ≫= fun in_block : bool => if in_block then generate_block ft blk license else mret ().
Proof.
  intros Hs He. unfold apply_block.
  rewrite (out_bind_lift _ _ _ Hs), (out_bind_lift _ _ _ He). reflexivity.
Qed.

(** C4: when a line that matches the start pattern is met outside a block
    and no line after it matches the end pattern, [apply_block] writes what
    it wrote for the lines before the marker (these lines themselves, when
    none of them matches the start pattern) and then the block, rendered
    once, and raises nothing of its own: its result is that of the one call
    of [generate_block], no error when the renderer raises none. *)
Theorem C4_unterminated_block `{rt : Runtime} (ft : ConfigFileType) (blk : ConfigBlock)
    (license pre written : list string) (s : string) (post : list string)
    (re_start re_end : Regex) (rendered : list string) (result : Res unit) :
  compile (IniValueAttribute_get (blk_value blk start_pattern)) = Ok re_start ->
  compile (IniValueAttribute_get (blk_value blk end_pattern)) = Ok re_end ->
  scan ft blk re_start re_end license pre false = (written, Ok false) ->
  re_match re_start s = true ->
  Forall (fun line => re_match re_end line = false) post ->
  generate_block ft blk license = (rendered, result) ->
  apply_block ft blk (pre ++ s :: post) license = (written ++ rendered, result) /\
  (Forall (fun line => re_match re_start line = false) pre -> written = pre).
Proof.
  intros Hcs Hce Hpre Hs Hpost Hgen. split.
  - rewrite (apply_block_scan _ _ _ _ _ _ Hcs Hce).
    rewrite (out_bind_written _ _ _ _ (scan_unterminated _ _ _ _ _ _ _ _ _ Hpre Hs Hpost)).
    by rewrite Hgen.
  - intros Hplain. rewrite scan_pass_through in Hpre by done. by injection Hpre.
Qed.

Lemma C4_unterminated_block_witness :
  apply_block (rt := example_runtime Py3) (plain_filetype Py3) (marker_block Py3)
    ((println <$> ["keep me"; "BEGIN one"; "old"; "END one"; "and me"])
       ++ println "BEGIN two" :: (println <$> ["old"; "text"]))
    ["X"]
  = ((println "keep me" :: (println <$> plain_block_lines) ++ [println "and me"])
       ++ (println <$> plain_block_lines), Ok ()).
Proof.
  apply (C4_unterminated_block (rt := example_runtime Py3) (plain_filetype Py3)
           (marker_block Py3) ["X"]
           (println <$> ["keep me"; "BEGIN one"; "old"; "END one"; "and me"])
           (println "keep me" :: (println <$> plain_block_lines) ++ [println "and me"])
           (println "BEGIN two")
           (println <$> ["old"; "text"]) "BEGIN" "END" (println <$> plain_block_lines) (Ok ()));
    try reflexivity; cbn; repeat constructor.
Defined.

(** An earlier block that is closed, then one that is not. *)
Example two_blocks :
  apply_block (rt := example_runtime Py3) (plain_filetype Py3) (marker_block Py3)
    (println <$> ["BEGIN one"; "old"; "END one"; "between"; "BEGIN two"; "old"]) ["X"]
  = ((println <$> plain_block_lines) ++ println "between" :: (println <$> plain_block_lines),
     Ok ()).
Proof. reflexivity. Qed.

(** C7, as the code has it: when the first line of the rendered block
    matches the start pattern, its last line matches the end pattern and no
    line between them matches the end pattern, a run of [apply_block] over
    the lines an earlier run wrote, with the same file type, block and
    payload, writes the same lines again. *)
Theorem C7_rerun_reproduces `{rt : Runtime} (ft : ConfigFileType) (blk : ConfigBlock)
    (license handle : list string) (re_start re_end : Regex)
    (b1 : string) (mid : list string) (bn : string) :
  compile (IniValueAttribute_get (blk_value blk start_pattern)) = Ok re_start ->
  compile (IniValueAttribute_get (blk_value blk end_pattern)) = Ok re_end ->
  generate_block ft blk license = (b1 :: mid ++ [bn], Ok ()) ->
  re_match re_start b1 = true ->
  Forall (fun line => re_match re_end line = false) mid ->
  re_match re_end bn = true ->
  exists out,
    apply_block ft blk handle license = (out, Ok ()) /\
    apply_block ft blk out license = (out, Ok ()).
Proof.
  intros Hcs Hce Hgen Hb1 Hmid Hbn.
  destruct (scan_segments ft blk license re_start re_end _ Hgen handle false)
    as (out & state & Hout & Hseg).
  exists (out ++ (if state then b1 :: mid ++ [bn] else [])).
  assert (Hall : Segments re_start (b1 :: mid ++ [bn])
                   (out ++ (if state then b1 :: mid ++ [bn] else []))).
  { apply Segments_app; [done|].
    destruct state; [apply Segments_rendered | apply segments_nil]. }
  rewrite !(apply_block_scan _ _ _ _ _ _ Hcs Hce). split.
  - rewrite (out_bind_written _ _ _ _ Hout). destruct state; [by rewrite Hgen | done].
  - rewrite (out_bind_written _ _ _ _
               (scan_of_segments ft blk license re_start re_end _ Hgen b1 mid bn _
                  eq_refl Hb1 Hmid Hbn Hall)).
    cbn. by rewrite app_nil_r.
Qed.

Lemma C7_rerun_reproduces_witness :
  exists out,
    apply_block (rt := example_runtime Py3) (plain_filetype Py3) (framed_block Py3)
      (println <$> ["keep me"; " BEGIN old"; "old text"; " END old"; "and me"]) ["X"]
    = (out, Ok ()) /\
    apply_block (rt := example_runtime Py3) (plain_filetype Py3) (framed_block Py3) out ["X"]
    = (out, Ok ()).
Proof.
  apply (C7_rerun_reproduces (rt := example_runtime Py3) (plain_filetype Py3)
           (framed_block Py3) ["X"]
           (println <$> ["keep me"; " BEGIN old"; "old text"; " END old"; "and me"])
           " BEGIN" " END"
           (println " BEGIN #####") (println <$> [""; "X"; ""]) (println " END #######"));
    try reflexivity; cbn; repeat constructor.
Defined.

(** C7 as stated fails: with the payload line [BEGIN], which the start
    pattern matches, the second run takes the payload line of the block the
    first run wrote for a start marker and writes a longer text, under
    either version of the language. *)
Lemma C7_rerun_counterexample :
  rerun_differs Py2 /\ rerun_differs Py3.
Proof.
  split; (split; [reflexivity|]; split; [reflexivity|]);
    intros H; vm_compute in H; discriminate H.
Qed.

(** ** Unknown sections *)

Lemma parse_section_unknown `{rt : Runtime} self section items h :
  unknown_section section = true ->
  parse_section self section items h = Raise (KeyError "Unknown section: section").
Proof.
  unfold unknown_section, parse_section.
  destruct (startswith "filetype:" section); [discriminate|].
  destruct (startswith "block:" section); [discriminate|].
  destruct (startswith "action:" section); [discriminate|].
  destruct (String.eqb section "text-blocks"); [discriminate|].
  destruct (String.eqb section "text-files"); [discriminate|].
  reflexivity.
Qed.

(** C5, on the code: a section of unknown kind makes [Config.parse] raise
    [KeyError], and the message of that error is the same for every such
    section: it ends in the word [section], not in the name of the section
    that was read. *)
Theorem C5_unknown_section_message `{rt : Runtime} (self : Config) (section : string)
    (items : list (string * string)) (rest : list (string * list (string * string)))
    (h : Heap) :
  unknown_section section = true ->
  parse self ((section, items) :: rest) h = Raise (KeyError "Unknown section: section").
Proof.
  intros H. cbn [parse]. rewrite (parse_section_unknown _ _ _ _ H). reflexivity.
Qed.

Lemma C5_unknown_section_witness :
  parse (rt := example_runtime Py3) Config_init [("bogus:x", [("key", "value")])] []
    = Raise (KeyError "Unknown section: section") /\
  contains "bogus:x" "Unknown section: section" = false.
Proof.
  split; [|reflexivity].
  apply (C5_unknown_section_message (rt := example_runtime Py3) Config_init "bogus:x"
           [("key", "value")] [] []).
  reflexivity.
Defined.

(** The sibling error, raised by [IniAttributeSection.update] for an unknown
    key, does carry the name that was read. *)
Example unknown_attribute_message :
  parse (rt := example_runtime Py3) Config_init [("block:b", [("bogus-key", "value")])] []
  = Raise (KeyError "Invalid attribute: bogus-key").
Proof. reflexivity. Qed.

(** ** The dynamic keyed collection *)

Lemma IniSection_update_factory self section :
  _factory (IniSection_update self section) = _factory self /\
  _args (IniSection_update self section) = _args self.
Proof.
  revert self. induction section as [|[key value] section IH]; intros self; [done|].
  cbn [IniSection_update]. destruct (IH
    {| _factory := _factory self; _args := _args self;
       _results := alter (fun a => IniValueAttribute_set a value) key
                     match _results self !! key with
                     | Some _ => _results self
                     | None => <[key:=_factory self (_args self)]> (_results self)
                     end |}) as [-> ->]. done.
Qed.

(** One pair: a key seen for the first time gets the attribute the factory
    builds, and that attribute is set; a key seen before has its attribute
    set; the other keys keep theirs. *)
Lemma IniSection_update_one self key value k :
  _results (IniSection_update self [(key, value)]) !! k =
  if decide (k = key)
  then Some (IniValueAttribute_set
               (default (_factory self (_args self)) (_results self !! key)) value)
  else _results self !! k.
Proof.
  cbn [IniSection_update _results]. case_decide as Hk.
  - subst k. rewrite lookup_alter_eq.
    destruct (_results self !! key) as [a|] eqn:Ha; cbn.
    + by rewrite Ha.
    + by rewrite lookup_insert_eq.
  - rewrite lookup_alter_ne by done.
    destruct (_results self !! key); [done|]. by rewrite lookup_insert_ne.
Qed.

Lemma IniSection_update_app self s1 s2 :
  IniSection_update self (s1 ++ s2) = IniSection_update (IniSection_update self s1) s2.
Proof.
  revert self. induction s1 as [|[key value] s1 IH]; intros self; [done|].
  cbn [app IniSection_update]. apply IH.
Qed.

(** A key that was seen stays in the collection. *)
Lemma IniSection_update_keeps self section k :
  is_Some (_results self !! k) -> is_Some (_results (IniSection_update self section) !! k).
Proof.
  revert self. induction section as [|[key value] section IH]; intros self Hk; [done|].
  change ((key, value) :: section) with ([(key, value)] ++ section).
  rewrite IniSection_update_app. apply IH. rewrite IniSection_update_one.
  case_decide; [eauto | done].
Qed.

(** After the pairs of a section the attribute of a key holds the last value
    given for it. *)
Lemma IniSection_update_last self section key value :
  _results (IniSection_update self (section ++ [(key, value)])) !! key
  = Some {| va_value := PyStr value |}.
Proof.
  rewrite IniSection_update_app, IniSection_update_one. by rewrite decide_True.
Qed.

Lemma res_map_call_raises (entries : list (string * IniValueAttribute)) :
  entries <> [] ->
  res_map (fun '(i, j) => v ← call_attribute j; Ok (i, v)) entries = Raise TypeError.
Proof. destruct entries as [|[i j] entries]; [done | reflexivity]. Qed.

(** C6, on the code: once [update] has seen a key, [items()] returns no
    list: it calls the attribute object, which is not callable, and raises
    [TypeError]. *)
Theorem C6_items_raises (self : IniSection) (key value : string)
    (rest : list (string * string)) :
  IniSection_items (IniSection_update self ((key, value) :: rest)) = Raise TypeError.
Proof.
  unfold IniSection_items. apply res_map_call_raises.
  rewrite map_to_list_empty_iff. intros Hempty.
  assert (H : is_Some (_results (IniSection_update self ((key, value) :: rest)) !! key)).
  { change ((key, value) :: rest) with ([(key, value)] ++ rest).
    rewrite IniSection_update_app. apply IniSection_update_keeps.
    rewrite IniSection_update_one, decide_True by done. eauto. }
  rewrite Hempty, lookup_empty in H. by destruct H.
Qed.

(** With [j.get()] in the place of [j()], [items()] would list each key with
    the value its attribute resolves to. *)
Lemma IniSection_items_get_spec self k v :
  (k, v) ∈ IniSection_items_get self <->
  exists a, _results self !! k = Some a /\ v = IniValueAttribute_get a.
Proof.
  unfold IniSection_items_get. rewrite list_elem_of_fmap. split.
  - intros ([i j] & [= -> ->] & Hin). apply elem_of_map_to_list in Hin. eauto.
  - intros (a & Ha & ->). exists (k, a). split; [done|]. by apply elem_of_map_to_list.
Qed.

Example items_of_text_files :
  IniSection_items (IniSection_update ConfigTextFiles_init [("k", "v")]) = Raise TypeError /\
  IniSection_items_get (IniSection_update ConfigTextFiles_init [("k", "v"); ("k", "w")])
    = [("k", PyStr "w")].
Proof. split; reflexivity. Qed.

(** ** Splitting and trimming *)

Lemma str_app_nil_r s : s +:+ "" = s.
Proof.
  induction s as [|c s IH]; [reflexivity|].
  change (String c s +:+ "") with (String c (s +:+ "")). by rewrite IH.
Qed.

Lemma str_app_assoc s t u : (s +:+ t) +:+ u = s +:+ t +:+ u.
Proof.
  induction s as [|c s IH]; [reflexivity|].
  change (String c (s +:+ t) +:+ u = String c (s +:+ t +:+ u)).
  change (String c ((s +:+ t) +:+ u) = String c (s +:+ t +:+ u)). by rewrite IH.
Qed.

Lemma str_length_app s t :
  String.length (s +:+ t) = (String.length s + String.length t)%nat.
Proof.
  induction s as [|c s IH]; [reflexivity|].
  change (String c s +:+ t) with (String c (s +:+ t)). cbn [String.length]. by rewrite IH.
Qed.

Lemma prefix_split p s : String.prefix p s = true -> exists t, s = p +:+ t.
Proof.
  revert s. induction p as [|a p IH]; intros s H.
  - by exists s.
  - destruct s as [|b s]; [discriminate|]. cbn [String.prefix] in H.
    destruct (ascii_dec a b) as [->|]; [|discriminate].
    apply IH in H as [t ->]. by exists t.
Qed.

Lemma split_go_skip sep u t cur :
  split_go sep (u +:+ t) (String.length u) cur = split_go sep t 0 cur.
Proof. induction u as [|c u IH]; [reflexivity | exact IH]. Qed.

Lemma split_go_nonempty sep s skip cur : split_go sep s skip cur <> [].
Proof.
  revert skip cur. induction s as [|c s IH]; intros skip cur; cbn [split_go]; [done|].
  destruct skip; [|apply IH]. destruct (String.prefix sep (String c s)); [done | apply IH].
Qed.

Lemma concat_cons sep x pieces :
  pieces <> [] -> String.concat sep (x :: pieces) = x +:+ sep +:+ String.concat sep pieces.
Proof. destruct pieces; [done | reflexivity]. Qed.

(** The pieces [split] returns, joined by the separator, give the str back. *)
Lemma split_go_concat sep n s cur :
  sep <> "" -> (String.length s <= n)%nat ->
  String.concat sep (split_go sep s 0 cur) = cur +:+ s.
Proof.
  intros Hsep. revert s cur. induction n as [|n IH]; intros s cur Hn.
  - destruct s; [|cbn in Hn; lia]. cbn. by rewrite str_app_nil_r.
  - destruct s as [|c s]; [cbn; by rewrite str_app_nil_r|].
    cbn [String.length] in Hn. cbn [split_go].
    destruct (String.prefix sep (String c s)) eqn:Hp.
    + destruct sep as [|a sep]; [done|].
      apply prefix_split in Hp as [t Ht].
      change (String a sep +:+ t) with (String a (sep +:+ t)) in Ht.
      injection Ht as -> ->.
      replace (String.length (String a sep) - 1)%nat with (String.length sep)
        by (cbn [String.length]; lia).
      rewrite split_go_skip, concat_cons by apply split_go_nonempty.
      rewrite IH by (rewrite str_length_app in Hn; lia). reflexivity.
    + rewrite IH by lia. by rewrite str_app_assoc.
Qed.

Lemma split_concat sep s pieces :
  split sep s = Ok pieces -> String.concat sep pieces = s.
Proof.
  unfold split. destruct sep as [|a sep]; [discriminate|]. intros [= <-].
  by rewrite (split_go_concat _ (String.length s)).
Qed.

Lemma split_ok sep s : sep <> "" -> split sep s = Ok (split_go sep s 0 "").
Proof. destruct sep; done. Qed.

Lemma lstrip_spec v s :
  exists l, s = l +:+ lstrip v s /\ all_space v l = true /\
            no_blank v (head_char (lstrip v s)) = true.
Proof.
  induction s as [|c s (l & Hl & Hsp & Hhead)]; [by exists ""|].
  cbn [lstrip]. destruct (isspace v c) eqn:Hc.
  - exists (String c l). split; [|split; [|done]].
    + change (String c l +:+ lstrip v s) with (String c (l +:+ lstrip v s)). by rewrite <- Hl.
    + cbn [all_space]. by rewrite Hc.
  - exists "". split; [done|]. split; [done|]. cbn. by rewrite Hc.
Qed.

Lemma rstrip_spec v s :
  exists r, s = rstrip v s +:+ r /\ all_space v r = true /\
            no_blank v (last_char (rstrip v s)) = true.
Proof.
  induction s as [|c s (r & Hr & Hsp & Hlast)]; [by exists ""|].
  cbn [rstrip]. destruct (isspace v c && String.eqb (rstrip v s) "") eqn:Hc.
  - apply andb_prop in Hc as [Hc Hempty]. apply String.eqb_eq in Hempty.
    rewrite Hempty in Hr. exists (String c r). split; [by rewrite Hr at 1|].
    split; [|done]. cbn [all_space]. by rewrite Hc.
  - exists r. split; [|split; [done|]].
    + change (String c (rstrip v s) +:+ r) with (String c (rstrip v s +:+ r)). by rewrite <- Hr.
    + destruct (rstrip v s) as [|b t] eqn:Ht.
      * cbn. rewrite andb_true_r in Hc. by rewrite Hc.
      * exact Hlast.
Qed.

Lemma rstrip_head v s :
  no_blank v (head_char s) = true -> no_blank v (head_char (rstrip v s)) = true.
Proof.
  destruct s as [|c s]; [done|]. cbn [head_char no_blank rstrip]. intros Hc.
  apply negb_true_iff in Hc. rewrite Hc. cbn. by rewrite Hc.
Qed.

(** [strip] removes blanks, from both ends, and leaves none there. *)
Lemma strip_spec v s :
  exists l r, s = l +:+ strip v s +:+ r /\
    all_space v l = true /\ all_space v r = true /\ trimmed v (strip v s) = true.
Proof.
  unfold strip, trimmed.
  destruct (lstrip_spec v s) as (l & Hl & Hlsp & Hhead).
  destruct (rstrip_spec v (lstrip v s)) as (r & Hr & Hrsp & Hlast).
  exists l, r. split; [by rewrite <- Hr|]. split; [done|]. split; [done|].
  by rewrite rstrip_head, Hlast.
Qed.

Lemma strip_trimmed v s : trimmed v (strip v s) = true.
Proof. by destruct (strip_spec v s) as (? & ? & ? & ? & ? & ?). Qed.

(** The generator of [set] yields the trimmed, non-empty pieces, in the
    order of the pieces. *)
Lemma stripped_parts_trimmed v pieces : stripped_parts v pieces = trimmed_parts v pieces.
Proof.
  unfold stripped_parts, trimmed_parts.
  induction pieces as [|p pieces IH]; [reflexivity|].
  cbn [List.filter fmap list_fmap]. fold (strip v <$> pieces).
  destruct (negb (String.eqb (strip v p) "")); cbn [fmap list_fmap]; by rewrite <- IH.
Qed.

Lemma trimmed_parts_app v l1 l2 :
  trimmed_parts v (l1 ++ l2) = trimmed_parts v l1 ++ trimmed_parts v l2.
Proof. unfold trimmed_parts. by rewrite fmap_app, List.filter_app. Qed.

Lemma trimmed_parts_Forall v pieces :
  Forall (fun p => p <> "" /\ trimmed v p = true) (trimmed_parts v pieces).
Proof.
  unfold trimmed_parts. apply Forall_forall. intros p Hp.
  apply list_elem_of_In, List.filter_In in Hp as [Hin Hne].
  apply negb_true_iff, String.eqb_neq in Hne. split; [done|].
  apply list_elem_of_In, list_elem_of_fmap in Hin as (q & -> & _). apply strip_trimmed.
Qed.

(** ** The list attribute and its heap *)

Lemma deref_alloc (h : Heap) l : deref (alloc h l).2 (alloc h l).1 = l.
Proof. unfold deref, alloc. cbn [fst snd]. by rewrite list_lookup_total_middle. Qed.

Lemma deref_alloc_old (h : Heap) l r :
  (r < length h)%nat -> deref (alloc h l).2 r = deref h r.
Proof. intros Hr. unfold deref, alloc. cbn [snd]. by rewrite lookup_total_app_l. Qed.

Lemma deref_alter (h : Heap) f r :
  (r < length h)%nat -> deref (alter f r h) r = f (deref h r).
Proof. intros Hr. unfold deref. by rewrite list_lookup_total_alter_eq. Qed.

Lemma deref_alter_ne (h : Heap) f r r' :
  r <> r' -> deref (alter f r h) r' = deref h r'.
Proof. intros Hr. unfold deref. by rewrite list_lookup_total_alter_ne. Qed.

(** [set] extends the list of the attribute, in place, and no other list. *)
Lemma IniListAttribute_set_spec `{rt : Runtime} a value h :
  la_sep a <> "" ->
  (la_value a < length h)%nat ->
  exists pieces h',
    split (la_sep a) value = Ok pieces /\
    IniListAttribute_set a value h = Ok h' /\
    deref h' (la_value a) = deref h (la_value a) ++ trimmed_parts py_version pieces /\
    length h' = length h /\
    (forall r, r <> la_value a -> deref h' r = deref h r).
Proof.
  intros Hsep Hr. unfold IniListAttribute_set.
  rewrite split_ok by done. cbn [mbind res_bind].
  eexists (split_go (la_sep a) value 0 ""), _.
  split; [done|]. split; [done|]. rewrite stripped_parts_trimmed.
  split; [by rewrite deref_alter|]. split; [apply length_alter|].
  intros r Hne. by rewrite deref_alter_ne.
Qed.

(** [get] returns a new list with the elements of the attribute's list. *)
Lemma IniListAttribute_get_spec a h :
  (la_value a < length h)%nat ->
  let '(copy, h2) := IniListAttribute_get a h in
  copy = length h /\
  deref h2 copy = deref h (la_value a) /\
  length h2 = S (length h) /\
  (forall r, (r < length h)%nat -> deref h2 r = deref h r).
Proof.
  intros Hr. unfold IniListAttribute_get.
  pose proof (deref_alloc h (deref h (la_value a))) as Hnew.
  pose proof (deref_alloc_old h (deref h (la_value a))) as Hold.
  destruct (alloc h (deref h (la_value a))) as [copy h2] eqn:Halloc.
  injection Halloc as <- <-. cbn [fst snd] in *.
  split; [done|]. split; [done|]. split; [|done].
  rewrite length_app. cbn. lia.
Qed.

(** The method of the base class hands out the list itself: what the caller
    appends to it shows in the attribute. *)
Lemma IniAttribute_get_aliases a h x :
  (la_value a < length h)%nat ->
  let '(r, h2) := IniAttribute_get a h in
  r = la_value a /\
  deref (list_append r x h2) (la_value a) = deref h (la_value a) ++ [x].
Proof. intros Hr. cbn. split; [done|]. unfold list_append. by rewrite deref_alter. Qed.

(** C9: [set(value)] on a list attribute splits [value] on the separator
    (the pieces joined by the separator are [value]), trims each piece,
    drops the empty ones and appends the rest, in order, to the list the
    attribute already holds; a further [set] appends after them; and [get]
    returns a new list with the same elements, which neither the caller's
    appends nor later calls of [set] share with the attribute. *)
Theorem C9_list_attribute_set_get `{rt : Runtime} (a : IniListAttribute) (h : Heap)
    (value : string) :
  la_sep a <> "" ->
  (la_value a < length h)%nat ->
  exists pieces h',
    split (la_sep a) value = Ok pieces /\
    String.concat (la_sep a) pieces = value /\
    IniListAttribute_set a value h = Ok h' /\
    deref h' (la_value a) = deref h (la_value a) ++ trimmed_parts py_version pieces /\
    Forall (fun p => p <> "" /\ trimmed py_version p = true)
      (trimmed_parts py_version pieces) /\
    (forall value2, exists pieces2 h2,
        split (la_sep a) value2 = Ok pieces2 /\
        IniListAttribute_set a value2 h' = Ok h2 /\
        deref h2 (la_value a)
        = deref h (la_value a) ++ trimmed_parts py_version pieces
            ++ trimmed_parts py_version pieces2) /\
    let '(copy, h2) := IniListAttribute_get a h' in
    copy <> la_value a /\
    deref h2 copy = deref h' (la_value a) /\
    deref h2 (la_value a) = deref h' (la_value a) /\
    (forall x, deref (list_append copy x h2) (la_value a) = deref h' (la_value a)) /\
    (forall value3 h3,
        IniListAttribute_set a value3 h2 = Ok h3 -> deref h3 copy = deref h2 copy).
Proof.
  intros Hsep Hr.
  destruct (IniListAttribute_set_spec a value h Hsep Hr)
    as (pieces & h' & Hsplit & Hset & Hval & Hlen & Hother).
  exists pieces, h'. split; [done|]. split; [by apply split_concat|].
  split; [done|]. split; [done|]. split; [apply trimmed_parts_Forall|].
  assert (Hr' : (la_value a < length h')%nat) by lia.
  split.
  { intros value2.
    destruct (IniListAttribute_set_spec a value2 h' Hsep Hr')
      as (pieces2 & h2 & Hsplit2 & Hset2 & Hval2 & _ & _).
    exists pieces2, h2. split; [done|]. split; [done|].
    by rewrite Hval2, Hval, <- app_assoc. }
  pose proof (IniListAttribute_get_spec a h' Hr') as Hget.
  destruct (IniListAttribute_get a h') as [copy h2].
  destruct Hget as (-> & Hcopy & Hlen2 & Hold).
  split; [lia|]. split; [done|]. split; [by apply Hold|]. split.
  - intros x. unfold list_append. rewrite deref_alter_ne by lia. by apply Hold.
  - intros value3 h3 Hset3.
    destruct (IniListAttribute_set_spec a value3 h2 Hsep) as (? & h3' & _ & Hset3' & _ & _ & Hne);
      [lia|].
    rewrite Hset3 in Hset3'. injection Hset3' as <-. apply Hne. lia.
Qed.

Lemma C9_list_attribute_witness :
  exists pieces h',
    split "," "a, b" = Ok pieces /\
    IniListAttribute_set (rt := example_runtime Py3)
      (IniListAttribute_init "," []).1 "a, b" (IniListAttribute_init "," []).2 = Ok h' /\
    deref h' 0%nat = ["a"; "b"].
Proof.
  destruct (C9_list_attribute_set_get (rt := example_runtime Py3)
              (IniListAttribute_init "," []).1 (IniListAttribute_init "," []).2 "a, b")
    as (pieces & h' & Hsplit & _ & Hset & Hval & _); [discriminate | cbn; lia |].
  exists pieces, h'. split; [exact Hsplit|]. split; [exact Hset|].
  injection Hsplit as <-. exact Hval.
Defined.

(** The two occurrences of a key of the description: [a, b] and then [c]. *)
Example list_attribute_accumulates :
  let '(a, h0) := IniListAttribute_init "," [] in
  exists h1 h2,
    IniListAttribute_set (rt := example_runtime Py3) a "a, b" h0 = Ok h1 /\
    IniListAttribute_set (rt := example_runtime Py3) a "c" h1 = Ok h2 /\
    let '(copy, h3) := IniListAttribute_get a h2 in
    deref h3 copy = ["a"; "b"; "c"] /\ copy <> la_value a.
Proof. cbn. eexists _, _. split; [reflexivity|]. split; [reflexivity|]. by cbn. Qed.

(** ** When the renderer raises nothing *)

Lemma out_bind_snd {A B} (m : Out A) (f : A -> Out B) o a :
  m = (o, Ok a) -> (m ≫= f).2 = (f a).2.
Proof. intros ->. cbn. by destruct (f a). Qed.

Lemma print_times_snd {B} n s (f : unit -> Out B) : (print_times n s ≫= f).2 = (f ()).2.
Proof. by apply (out_bind_snd _ _ (replicate n (println s))), print_times_out. Qed.

Lemma halves_center `{rt : Runtime} ft a filler :
  halves_are_ints ft = true ->
  IniBoolAttribute_get (ft_bool ft a) = true ->
  py_div2 filler = NumInt (filler / 2).
Proof.
  unfold halves_are_ints, py_div2. destruct py_version; [done|].
  intros H Ha. destruct a; rewrite Ha in H; cbn in H;
    rewrite ?andb_false_r in H; discriminate.
Qed.

Lemma fill_edge_total `{rt : Runtime} ft a filler_attr line length :
  halves_are_ints ft = true ->
  is_str filler_attr = true ->
  text_of filler_attr <> "" ->
  exists parts, fill_edge filler_attr (ft_bool ft a) line length = Ok parts.
Proof.
  intros Hhalf Hstr Hne. unfold fill_edge.
  destruct (total_len line <? length); [|eauto].
  rewrite (sget_is_str _ Hstr). cbn [mbind res_bind].
  destruct (text_of filler_attr) as [|c rest]; [done|]. cbn [index0 mbind res_bind].
  destruct (IniBoolAttribute_get (ft_bool ft a)) eqn:Ha.
  - rewrite (halves_center ft a _ Hhalf Ha). cbn [mbind res_bind].
    destruct (0 <? _); eauto.
  - cbn [mbind res_bind]. destruct (0 <? _); eauto.
Qed.

Lemma midline_parts_total `{rt : Runtime} ft s e length line :
  halves_are_ints ft = true ->
  exists parts, midline_parts ft s e length line = Ok parts.
Proof.
  intros Hhalf. unfold midline_parts.
  destruct (_ || _); [|eauto]. destruct (total_len _ <? length); [|eauto].
  destruct (IniBoolAttribute_get (ft_bool ft midline_center)) eqn:Hc; cbn [andb].
  - destruct (_ || _).
    + rewrite (halves_center ft midline_center _ Hhalf Hc). cbn [mbind res_bind].
      destruct (_ && _); eauto.
    + cbn [mbind res_bind]. destruct (_ && _); eauto.
  - cbn [mbind res_bind]. destruct (_ && _); eauto.
Qed.

Lemma for_each_midlines_total `{rt : Runtime} ft s e length license :
  halves_are_ints ft = true ->
  (for_each (fun line => midline ← lift (midline_parts ft s e length line);
                         print (join midline)) license).2 = Ok ().
Proof.
  intros Hhalf. induction license as [|line license IH]; [reflexivity|].
  cbn [for_each].
  destruct (midline_parts_total ft s e length line Hhalf) as [parts Hparts].
  rewrite (out_bind_lift _ _ _ Hparts). unfold print. cbn [mbind out_bind].
  destruct (for_each _ license). exact IH.
Qed.

(** With attributes that hold strs, fill characters to take, numbers that
    [int] reads, a payload of at least one line and halves that are ints,
    [generate_block] raises nothing. *)
Lemma generate_block_total `{rt : Runtime} ft blk license minlength padding :
  license <> [] ->
  wf_filetype ft = true ->
  wf_block blk = true ->
  py_int (IniValueAttribute_get (ft_value ft line_minlength)) = Ok minlength ->
  py_int (IniValueAttribute_get (ft_value ft line_padding)) = Ok padding ->
  text_of (ft_value ft firstline_filler) <> "" ->
  text_of (ft_value ft lastline_filler) <> "" ->
  halves_are_ints ft = true ->
  (generate_block ft blk license).2 = Ok ().
Proof.
  intros Hne Hft Hblk Hmin Hpad Hf1 Hf2 Hhalf.
  assert (Hstr : forall a, a ∈ str_attributes ->
                   sget (ft_value ft a) = Ok (text_of (ft_value ft a)))
    by (intros; by apply wf_filetype_sget).
  assert (Hw : exists width, determine_length ft blk license = Ok width).
  { destruct (py_max_longest license Hne) as (longest & _ & _ & Hpy).
    unfold determine_length.
    rewrite !Hstr by in_list. rewrite !(wf_block_sget blk) by done.
    cbn [mbind res_bind]. rewrite Hpy. cbn [mbind res_bind]. rewrite Hmin. eauto. }
  destruct Hw as [width Hw].
  assert (Hfirst : exists parts, firstline_parts ft blk width = Ok parts).
  { unfold firstline_parts.
    rewrite !Hstr by in_list. rewrite !(wf_block_sget blk) by done.
    cbn [mbind res_bind]. apply fill_edge_total; [done | | done].
    apply wf_filetype_is_str; [done | in_list]. }
  assert (Hlast : exists parts, lastline_parts ft blk width = Ok parts).
  { unfold lastline_parts.
    rewrite !Hstr by in_list. rewrite !(wf_block_sget blk) by done.
    cbn [mbind res_bind]. apply fill_edge_total; [done | | done].
    apply wf_filetype_is_str; [done | in_list]. }
  assert (Hpadline : exists parts, padline_parts ft width = Ok parts).
  { unfold padline_parts. rewrite !Hstr by in_list.
    cbn [mbind res_bind]. destruct (_ && _); eauto. }
  destruct Hfirst as [first Hfirst], Hlast as [last Hlast], Hpadline as [pad Hpadline].
  unfold generate_block.
  rewrite (out_bind_lift _ _ _ Hw), (out_bind_lift _ _ _ Hfirst).
  erewrite out_bind_snd by reflexivity.
  rewrite (out_bind_lift _ _ _ Hpadline), (out_bind_lift _ _ _ Hpad), print_times_snd.
  rewrite (out_bind_lift _ _ _ (Hstr midline_start ltac:(in_list))).
  rewrite (out_bind_lift _ _ _ (Hstr midline_end ltac:(in_list))).
  pose proof (for_each_midlines_total ft (text_of (ft_value ft midline_start))
                (text_of (ft_value ft midline_end)) width license Hhalf) as Hmids.
  destruct (for_each _ license) as [omids rmids] eqn:Hfor. cbn [snd] in Hmids. subst rmids.
  erewrite out_bind_snd by reflexivity.
  rewrite (out_bind_lift _ _ _ Hpad), print_times_snd, (out_bind_lift _ _ _ Hlast).
  reflexivity.
Qed.

(** ** Sections stay well typed *)

Lemma ConfigFileType_init_wf h : wf_filetype (ConfigFileType_init h).1 = true.
Proof. reflexivity. Qed.

Lemma ConfigBlock_init_wf : wf_block ConfigBlock_init = true.
Proof. reflexivity. Qed.

Lemma IniValueAttribute_set_is_str a value : is_str (IniValueAttribute_set a value) = true.
Proof. reflexivity. Qed.

Lemma attr_set_filetype_wf `{rt : Runtime} (ft ft' : ConfigFileType) aname value h h' :
  wf_filetype ft = true ->
  attr_set rt ft aname value h = Some (Ok (ft', h')) ->
  wf_filetype ft' = true.
Proof.
  unfold wf_filetype. rewrite !forallb_forall. intros Hwf Hset b Hb.
  cbn [attr_set ConfigFileType_section] in Hset.
  destruct (String.eqb aname "extensions").
  - injection Hset as Hset. apply res_bind_ok in Hset as (? & _ & [= <- _]). by apply Hwf.
  - destruct (assoc aname FileTypeValue_names) as [a|].
    + injection Hset as <- _. cbn [ft_value]. case_decide; [done | by apply Hwf].
    + destruct (assoc aname FileTypeBool_names); [|discriminate].
      injection Hset as <- _. by apply Hwf.
Qed.

Lemma attr_set_block_wf `{rt : Runtime} (blk blk' : ConfigBlock) aname value h h' :
  wf_block blk = true ->
  attr_set rt blk aname value h = Some (Ok (blk', h')) ->
  wf_block blk' = true.
Proof.
  unfold wf_block. rewrite !forallb_forall. intros Hwf Hset b Hb.
  cbn [attr_set ConfigBlock_section] in Hset.
  destruct (assoc aname BlockValue_names) as [a|]; [|discriminate].
  injection Hset as <- _. cbn [blk_value]. case_decide; [done | by apply Hwf].
Qed.

(** [update] keeps strs in the attributes the renderer reads as strs. *)
Lemma update_filetype_wf `{rt : Runtime} (ft ft' : ConfigFileType) section h h' :
  wf_filetype ft = true ->
  update ft section h = Ok (ft', h') ->
  wf_filetype ft' = true.
Proof.
  revert ft h. induction section as [|[key value] section IH]; intros ft h Hwf.
  - by intros [= <- _].
  - cbn [update].
    destruct (attr_set rt ft (dash_to_underscore key) value h) as [[[ft1 h1]|e]|] eqn:Hset.
    + cbn [mbind res_bind]. apply IH. by eapply attr_set_filetype_wf.
    + discriminate.
    + by destruct (other_attr _).
Qed.

Lemma update_block_wf `{rt : Runtime} (blk blk' : ConfigBlock) section h h' :
  wf_block blk = true ->
  update blk section h = Ok (blk', h') ->
  wf_block blk' = true.
Proof.
  revert blk h. induction section as [|[key value] section IH]; intros blk h Hwf.
  - by intros [= <- _].
  - cbn [update].
    destruct (attr_set rt blk (dash_to_underscore key) value h) as [[[blk1 h1]|e]|] eqn:Hset.
    + cbn [mbind res_bind]. apply IH. by eapply attr_set_block_wf.
    + discriminate.
    + by destruct (other_attr _).
Qed.

(** The fixed words that turn a bool attribute off. *)
Example bool_attribute_words :
  let set value :=
    IniBoolAttribute_get
      (IniBoolAttribute_set (rt := example_runtime Py3) (IniBoolAttribute_init true) value) in
  (set "0", set "False", set " no ", set "OFF") = (false, false, false, false) /\
  (set "", set "1", set "yes", set "true", set "anything") = (true, true, true, true, true).
Proof. split; reflexivity. Qed.

(** [get] strips one pair of double quotes around a str. *)
Example value_attribute_quotes :
  IniValueAttribute_get {| va_value := PyStr (dquote +:+ "#" +:+ dquote) |} = PyStr "#" /\
  IniValueAttribute_get {| va_value := PyStr dquote |} = PyStr "" /\
  IniValueAttribute_get {| va_value := PyInt 80 |} = PyInt 80.
Proof. repeat split; reflexivity. Qed.

(** * Further properties of the code *)

(** ** Value attributes and quotes *)

Lemma prefix_nil s : String.prefix "" s = true.
Proof. by destruct s. Qed.

Lemma substring_all s : String.substring 0 (String.length s) s = s.
Proof. induction s as [|c s IH]; [reflexivity|]. cbn. by rewrite IH. Qed.

Lemma substring_app_l s t : String.substring 0 (String.length s) (s +:+ t) = s.
Proof.
  induction s as [|c s IH]; [by destruct t|].
  change (String c s +:+ t) with (String c (s +:+ t)). cbn. by rewrite IH.
Qed.

Lemma substring_app_r s t :
  String.substring (String.length s) (String.length t) (s +:+ t) = t.
Proof.
  induction s as [|c s IH]; [apply substring_all|].
  change (String c s +:+ t) with (String c (s +:+ t)). exact IH.
Qed.

Lemma endswith_app s p : endswith p (s +:+ p) = true.
Proof.
  unfold endswith. rewrite str_length_app.
  replace (String.length s + String.length p - String.length p)%nat
    with (String.length s) by lia.
  rewrite substring_app_r, String.eqb_refl, andb_true_r.
  apply Nat.leb_le. lia.
Qed.

(** X1: a value written between double quotes is read back without them,
    whatever it holds (blanks at its ends, quotes of its own): [get] after
    [set] of the quoted value returns the value, and strips one pair of
    quotes only. *)
Theorem X1_quoted_value_round_trip (a : IniValueAttribute) (value : string) :
  IniValueAttribute_get (IniValueAttribute_set a (dquote +:+ value +:+ dquote))
  = PyStr value.
Proof.
  assert (Hs : startswith dquote (dquote +:+ value +:+ dquote) = true).
  { change (dquote +:+ value +:+ dquote) with (String "034"%char (value +:+ dquote)).
    unfold startswith, dquote. cbn [String.prefix].
    destruct (ascii_dec "034" "034"); [apply prefix_nil | done]. }
  assert (He : endswith dquote (dquote +:+ value +:+ dquote) = true).
  { rewrite <- str_app_assoc. apply endswith_app. }
  unfold IniValueAttribute_get, IniValueAttribute_set. cbn [va_value].
  rewrite Hs, He. cbn [andb]. f_equal. unfold slice_1_m1.
  change (dquote +:+ value +:+ dquote) with (String "034"%char (value +:+ dquote)).
  cbn [String.length String.substring]. rewrite str_length_app.
  replace (S (String.length value + String.length dquote) - 2)%nat
    with (String.length value) by (cbn; lia).
  apply substring_app_l.
Qed.

(** ** Bool attributes *)

Lemma lstrip_all_space v s : all_space v s = true -> lstrip v s = "".
Proof.
  induction s as [|c s IH]; [done|]. cbn [all_space lstrip].
  intros [Hc Hs]%andb_prop. rewrite Hc. by apply IH.
Qed.

Lemma rstrip_all_space v s : all_space v s = true -> rstrip v s = "".
Proof.
  induction s as [|c s IH]; [done|]. cbn [all_space rstrip].
  intros [Hc Hs]%andb_prop. by rewrite Hc, IH.
Qed.

Lemma lstrip_blank_app v l s : all_space v l = true -> lstrip v (l +:+ s) = lstrip v s.
Proof.
  induction l as [|c l IH]; [done|]. cbn [all_space].
  intros [Hc Hl]%andb_prop.
  change (String c l +:+ s) with (String c (l +:+ s)). cbn [lstrip]. rewrite Hc. by apply IH.
Qed.

Lemma rstrip_app_blank v s r : all_space v r = true -> rstrip v (s +:+ r) = rstrip v s.
Proof.
  intros Hr. induction s as [|c s IH]; [by apply rstrip_all_space|].
  change (String c s +:+ r) with (String c (s +:+ r)). cbn [rstrip]. by rewrite IH.
Qed.

Lemma strip_app_blank v s r : all_space v r = true -> strip v (s +:+ r) = strip v s.
Proof.
  intros Hr. unfold strip. induction s as [|c s IH].
  - change ("" +:+ r) with r. by rewrite lstrip_all_space.
  - change (String c s +:+ r) with (String c (s +:+ r)). cbn [lstrip].
    destruct (isspace v c); [exact IH|].
    change (String c (s +:+ r)) with (String c s +:+ r). by apply rstrip_app_blank.
Qed.

(** Blanks around a str do not show in what [strip] returns. *)
Lemma strip_blanks_around v l s r :
  all_space v l = true -> all_space v r = true -> strip v (l +:+ s +:+ r) = strip v s.
Proof.
  intros Hl Hr. unfold strip. rewrite lstrip_blank_app by done.
  by apply strip_app_blank.
Qed.

Lemma isspace_lower_char v c : isspace v (lower_char v c) = isspace v c.
Proof. destruct v, c as [[] [] [] [] [] [] [] []]; reflexivity. Qed.

Lemma lower_char_idem v c : lower_char v (lower_char v c) = lower_char v c.
Proof. destruct v, c as [[] [] [] [] [] [] [] []]; reflexivity. Qed.

Lemma lower_idem v s : lower v (lower v s) = lower v s.
Proof.
  unfold lower. induction s as [|c s IH]; [done|].
  cbn [str_map]. by rewrite lower_char_idem, IH.
Qed.

Lemma lstrip_lower v s : lstrip v (lower v s) = lower v (lstrip v s).
Proof.
  unfold lower. induction s as [|c s IH]; [done|].
  cbn [str_map lstrip]. rewrite isspace_lower_char. by destruct (isspace v c).
Qed.

Lemma rstrip_lower v s : rstrip v (lower v s) = lower v (rstrip v s).
Proof.
  unfold lower. induction s as [|c s IH]; [done|].
  cbn [str_map rstrip]. rewrite isspace_lower_char, IH.
  destruct (rstrip v s) as [|b t]; cbn [str_map]; [|by rewrite !andb_false_r].
  by destruct (isspace v c).
Qed.

Lemma strip_lower v s : strip v (lower v s) = lower v (strip v s).
Proof. unfold strip. by rewrite lstrip_lower, rstrip_lower. Qed.

(** X2: what [IniBoolAttribute.set] stores depends neither on blanks around
    the value nor on the case of its letters: a value with blanks before and
    after it, and the lower-cased value, store the same bool as the value
    itself. *)
Theorem X2_bool_set_ignores_blanks_and_case `{rt : Runtime} (a : IniBoolAttribute)
    (l value r : string) :
  all_space py_version l = true ->
  all_space py_version r = true ->
  IniBoolAttribute_set a (l +:+ value +:+ r) = IniBoolAttribute_set a value /\
  IniBoolAttribute_set a (lower py_version value) = IniBoolAttribute_set a value.
Proof.
  intros Hl Hr. unfold IniBoolAttribute_set. split.
  - by rewrite strip_blanks_around.
  - by rewrite strip_lower, lower_idem.
Qed.

Lemma X2_bool_set_witness :
  IniBoolAttribute_set (rt := example_runtime Py3) (IniBoolAttribute_init true)
    ("  " +:+ "Off" +:+ " ")
  = IniBoolAttribute_set (rt := example_runtime Py3) (IniBoolAttribute_init true) "Off" /\
  IniBoolAttribute_set (rt := example_runtime Py3) (IniBoolAttribute_init true)
    (lower Py3 "Off")
  = IniBoolAttribute_set (rt := example_runtime Py3) (IniBoolAttribute_init true) "Off".
Proof.
  apply (X2_bool_set_ignores_blanks_and_case (rt := example_runtime Py3)
           (IniBoolAttribute_init true) "  " "Off" " "); reflexivity.
Defined.

(** ** List attributes: one line or several *)

Lemma split_go_step c a s cur :
  split_go (String c "") (String a s) 0 cur
  = if ascii_dec c a
    then cur :: split_go (String c "") s 0 ""
    else split_go (String c "") s 0 (cur +:+ String a "").
Proof.
  cbn [split_go String.prefix]. destruct (ascii_dec c a); [|reflexivity].
  by rewrite prefix_nil.
Qed.

Lemma split_go_single c s1 s2 cur :
  split_go (String c "") (s1 +:+ String c "" +:+ s2) 0 cur
  = split_go (String c "") s1 0 cur ++ split_go (String c "") s2 0 "".
Proof.
  revert cur. induction s1 as [|a s1 IH]; intros cur.
  - change ("" +:+ String c "" +:+ s2) with (String c s2).
    rewrite split_go_step. by destruct (ascii_dec c c).
  - change (String a s1 +:+ String c "" +:+ s2) with (String a (s1 +:+ String c "" +:+ s2)).
    rewrite !split_go_step. destruct (ascii_dec c a); by rewrite IH.
Qed.

Lemma stripped_parts_app v l1 l2 :
  stripped_parts v (l1 ++ l2) = stripped_parts v l1 ++ stripped_parts v l2.
Proof. by rewrite !stripped_parts_trimmed, trimmed_parts_app. Qed.

(** X3: with a separator of one character, [set] of two values joined by
    the separator does to the heap what [set] of the first and then [set]
    of the second do: items on one line and items on repeated keys give the
    same list. *)
Theorem X3_list_set_joined `{rt : Runtime} (a : IniListAttribute) (c : ascii)
    (v1 v2 : string) (h : Heap) :
  la_sep a = String c "" ->
  IniListAttribute_set a (v1 +:+ la_sep a +:+ v2) h
  = IniListAttribute_set a v1 h ≫= IniListAttribute_set a v2.
Proof.
  intros Hsep. unfold IniListAttribute_set. rewrite Hsep.
  cbn [split mbind res_bind]. f_equal.
  rewrite split_go_single, stripped_parts_app, list_alter_alter_eq.
  apply list_alter_ext; [|done]. intros old _. cbn. by rewrite app_assoc.
Qed.

Lemma X3_list_set_joined_witness :
  IniListAttribute_set (rt := example_runtime Py3) (IniListAttribute_init "," []).1
    ("c, h" +:+ "," +:+ " cpp ") (IniListAttribute_init "," []).2
  = Ok [["c"; "h"; "cpp"]].
Proof.
  exact (eq_trans
           (X3_list_set_joined (rt := example_runtime Py3) (IniListAttribute_init "," []).1
              ","%char "c, h" " cpp " (IniListAttribute_init "," []).2 eq_refl)
           eq_refl).
Defined.

(** ** Sections of declared attributes *)

Lemma update_app `{rt : Runtime} {S} `{AttributeSection S} (self : S)
    (p q : list (string * string)) (h : Heap) :
  update self (p ++ q) h = update self p h ≫= fun '(self', h') => update self' q h'.
Proof.
  revert self h. induction p as [|[key value] p IH]; intros self h; [reflexivity|].
  cbn [app update].
  destruct (attr_set rt self (dash_to_underscore key) value h) as [[[s1 h1]|e]|].
  - cbn [mbind res_bind]. apply IH.
  - reflexivity.
  - by destruct (other_attr _).
Qed.

(** What [update] leaves in a block. *)
Lemma block_update_values `{rt : Runtime} (blk blk' : ConfigBlock)
    (section : list (string * string)) (h h' : Heap) :
  update blk section h = Ok (blk', h') ->
  h' = h /\
  forall a, blk_value blk' a =
            match last_value BlockValue_names a section with
            | Some v => {| va_value := PyStr v |}
            | None => blk_value blk a
            end.
Proof.
  revert blk h. induction section as [|[key value] section IH]; intros blk h.
  - intros [= <- <-]. by split.
  - cbn [update attr_set ConfigBlock_section].
    destruct (assoc (dash_to_underscore key) BlockValue_names) as [b|] eqn:Hb;
      [|by destruct (other_attr _)].
    cbn [mbind res_bind]. intros Hrest.
    apply IH in Hrest as (-> & Hvalues). split; [done|].
    intros a. rewrite Hvalues. cbn [last_value].
    destruct (last_value BlockValue_names a section); [done|].
    cbn [blk_value]. rewrite Hb. repeat case_decide; (reflexivity || congruence).
Qed.

(** [update] of a block only succeeds on keys that name its attributes. *)
Lemma block_update_keys `{rt : Runtime} (blk blk' : ConfigBlock)
    (section : list (string * string)) (h h' : Heap) :
  update blk section h = Ok (blk', h') ->
  Forall (fun pair => is_Some (assoc (dash_to_underscore pair.1) BlockValue_names))
    section.
Proof.
  revert blk h. induction section as [|[key value] section IH]; intros blk h;
    [constructor|].
  cbn [update attr_set ConfigBlock_section].
  destruct (assoc (dash_to_underscore key) BlockValue_names) as [b|] eqn:Hb;
    [|by destruct (other_attr _)].
  cbn [mbind res_bind]. intros Hrest. constructor; [|by eapply IH].
  cbn [fst]. rewrite Hb. eauto.
Qed.

(** X4: when [update] of a block succeeds, every key of the section names
    one of the four attributes (hyphens read as underscores), each attribute
    holds the last value the section gives it, an attribute the section does
    not name keeps what it held, and no list of the heap is touched. *)
Theorem X4_block_update_last_value `{rt : Runtime} (blk blk' : ConfigBlock)
    (section : list (string * string)) (h h' : Heap) :
  update blk section h = Ok (blk', h') ->
  h' = h /\
  Forall (fun pair => is_Some (assoc (dash_to_underscore pair.1) BlockValue_names))
    section /\
  forall a, blk_value blk' a =
            match last_value BlockValue_names a section with
            | Some v => {| va_value := PyStr v |}
            | None => blk_value blk a
            end.
Proof.
  intros Hupdate.
  destruct (block_update_values _ _ _ _ _ Hupdate) as [Hheap Hvalues].
  split; [exact Hheap|]. split; [|exact Hvalues].
  by eapply block_update_keys.
Qed.

Lemma X4_block_update_witness :
  blk_value (marker_block Py3) start = {| va_value := PyStr "BEGIN" |} /\
  blk_value (marker_block Py3) end_pattern = {| va_value := PyStr "END" |}.
Proof.
  destruct (X4_block_update_last_value (rt := example_runtime Py3) ConfigBlock_init
              (marker_block Py3)
              [("start-pattern", "BEGIN"); ("end-pattern", "END");
               ("start", "BEGIN"); ("end", "END")] [] [] eq_refl) as (_ & _ & H).
  split; [exact (H start) | exact (H end_pattern)].
Defined.

Lemma filetype_attr_set_none `{rt : Runtime} (ft : ConfigFileType) aname value h :
  filetype_attribute aname = false -> attr_set rt ft aname value h = None.
Proof.
  unfold filetype_attribute. intros H.
  apply orb_false_elim in H as [H Hbool]. apply orb_false_elim in H as [Hext Hvalue].
  cbn [attr_set ConfigFileType_section]. rewrite Hext.
  apply bool_decide_eq_false in Hvalue, Hbool.
  destruct (assoc aname FileTypeValue_names); [by destruct Hvalue|].
  destruct (assoc aname FileTypeBool_names); [by destruct Hbool|]. done.
Qed.

(** X5: a key that names no attribute of a file type stops [update] where
    it stands, after the pairs before it and whatever follows it: with
    [KeyError] and the key as it is written in the section, or with
    [AttributeError] when the key is the name of a method or of an
    attribute every object has, on which [set] is then looked up. *)
Theorem X5_filetype_update_unknown_key `{rt : Runtime} (ft ft1 : ConfigFileType)
    (pre rest : list (string * string)) (key value : string) (h h1 : Heap) :
  update ft pre h = Ok (ft1, h1) ->
  filetype_attribute (dash_to_underscore key) = false ->
  update ft (pre ++ (key, value) :: rest) h
  = Raise (if other_attr (dash_to_underscore key) then AttributeError
           else KeyError ("Invalid attribute: " +:+ key)).
Proof.
  intros Hpre Hkey. rewrite update_app, Hpre. cbn [mbind res_bind update].
  rewrite (filetype_attr_set_none ft1 _ value h1 Hkey).
  by destruct (other_attr _).
Qed.

Lemma X5_filetype_update_witness :
  update (rt := example_runtime Py3) (ConfigFileType_init []).1
    ([("line-minlength", "12")] ++ ("first-line", "x") :: [("midline-end", "|")])
    (ConfigFileType_init []).2
  = Raise (KeyError "Invalid attribute: first-line") /\
  update (rt := example_runtime Py3) (ConfigFileType_init []).1
    ([] ++ ("dump", "x") :: []) (ConfigFileType_init []).2
  = Raise AttributeError.
Proof.
  split.
  - exact (X5_filetype_update_unknown_key (rt := example_runtime Py3)
             (ConfigFileType_init []).1
             (example_filetype Py3 [("line-minlength", "12")])
             [("line-minlength", "12")] [("midline-end", "|")] "first-line" "x"
             (ConfigFileType_init []).2 (ConfigFileType_init []).2 eq_refl eq_refl).
  - exact (X5_filetype_update_unknown_key (rt := example_runtime Py3)
             (ConfigFileType_init []).1 (ConfigFileType_init []).1
             [] [] "dump" "x"
             (ConfigFileType_init []).2 (ConfigFileType_init []).2 eq_refl eq_refl).
Defined.

Lemma values_of_cons aname key value section :
  values_of aname ((key, value) :: section)
  = if String.eqb (dash_to_underscore key) aname
    then value :: values_of aname section
    else values_of aname section.
Proof. unfold values_of. cbn [List.filter]. by destruct (String.eqb _ aname). Qed.

(** X6: when [update] of a file type succeeds, the list of [extensions]
    has grown by the trimmed, non-empty items of every value the section
    gives under that key, in the order of the section; the file type still
    refers to the same list, and the other lists of the heap are as they
    were. *)
Theorem X6_filetype_update_extensions `{rt : Runtime} (ft ft' : ConfigFileType)
    (section : list (string * string)) (h h' : Heap) :
  la_sep (extensions ft) <> "" ->
  (la_value (extensions ft) < length h)%nat ->
  update ft section h = Ok (ft', h') ->
  extensions ft' = extensions ft /\
  length h' = length h /\
  deref h' (la_value (extensions ft))
  = deref h (la_value (extensions ft))
      ++ List.concat
           ((fun value =>
               trimmed_parts py_version (split_go (la_sep (extensions ft)) value 0 ""))
              <$> values_of "extensions" section) /\
  forall r, r <> la_value (extensions ft) -> deref h' r = deref h r.
Proof.
  revert ft h. induction section as [|[key value] section IH]; intros ft h Hsep Hr.
  - intros [= <- <-]. cbn. rewrite app_nil_r. by repeat split.
  - cbn [update]. rewrite values_of_cons.
    destruct (attr_set rt ft (dash_to_underscore key) value h) as [[[ft1 h1]|e]|] eqn:Hset;
      [|discriminate|by destruct (other_attr _)].
    cbn [mbind res_bind]. intros Hrest.
    cbn [attr_set ConfigFileType_section] in Hset.
    destruct (String.eqb (dash_to_underscore key) "extensions").
    + injection Hset as Hset. apply res_bind_ok in Hset as (h2 & Hh2 & [= <- <-]).
      destruct (IniListAttribute_set_spec (extensions ft) value h Hsep Hr)
        as (pieces & h3 & Hsplit & Hset & Hval & Hlen & Hother).
      rewrite Hh2 in Hset. injection Hset as <-.
      rewrite split_ok in Hsplit by done. injection Hsplit as <-.
      apply IH in Hrest as (Hext & Hlen' & Hval' & Hother'); [|done|lia].
      split; [done|]. split; [lia|]. split.
      * rewrite Hval', Hval. cbn [fmap list_fmap List.concat]. by rewrite <- app_assoc.
      * intros r Hne. rewrite Hother' by done. by apply Hother.
    + assert (Hsame : extensions ft1 = extensions ft /\ h1 = h).
      { destruct (assoc _ FileTypeValue_names); [by injection Hset as <- <-|].
        destruct (assoc _ FileTypeBool_names); [by injection Hset as <- <-|done]. }
      destruct Hsame as [Hext ->].
      apply IH in Hrest as (Hext' & Hlen' & Hval' & Hother'); rewrite ?Hext in *; done.
Qed.

Lemma X6_filetype_update_witness :
  exists ft' h',
    update (rt := example_runtime Py3) (ConfigFileType_init []).1
      [("extensions", "c, h"); ("line-minlength", "12"); ("extensions", " cpp ,")]
      (ConfigFileType_init []).2 = Ok (ft', h') /\
    deref h' 0%nat = ["c"; "h"; "cpp"].
Proof.
  eexists _, _. split; [reflexivity|].
  exact (proj1 (proj2 (proj2
    (X6_filetype_update_extensions (rt := example_runtime Py3) (ConfigFileType_init []).1 _
       [("extensions", "c, h"); ("line-minlength", "12"); ("extensions", " cpp ,")]
       (ConfigFileType_init []).2 _ ltac:(discriminate) ltac:(cbn; lia) eq_refl)))).
Defined.

(** ** The dynamic keyed collection *)

(** X7: after [IniSection.update] a key of the section holds the last value
    the section gives it, as a str, whatever the factory's default is; the
    keys are compared as they are written (a hyphen is not an underscore
    here), and a key the section does not give keeps the attribute it
    had. *)
Theorem X7_inisection_update_lookup (self : IniSection) (section : list (string * string))
    (k : string) :
  _results (IniSection_update self section) !! k
  = match last_exact k section with
    | Some v => Some {| va_value := PyStr v |}
    | None => _results self !! k
    end.
Proof.
  revert self. induction section as [|[key value] section IH]; intros self; [done|].
  change ((key, value) :: section) with ([(key, value)] ++ section).
  rewrite IniSection_update_app, IH. cbn [app last_exact].
  destruct (last_exact k section); [done|].
  rewrite IniSection_update_one. by repeat case_decide; subst.
Qed.

(** ** The registries after a parse *)

Lemma last_value_app {A} `{EqDecision A} (table : list (string * A)) a l1 l2 :
  last_value table a (l1 ++ l2)
  = match last_value table a l2 with
    | Some v => Some v
    | None => last_value table a l1
    end.
Proof.
  induction l1 as [|[key value] l1 IH]; cbn [app last_value].
  - by destruct (last_value table a l2).
  - rewrite IH. by destruct (last_value table a l2).
Qed.

(** What one section does to the registry of blocks. *)
Lemma parse_section_blocks `{rt : Runtime} self section items h self1 h1 :
  parse_section self section items h = Ok (self1, h1) ->
  match block_section section with
  | Some name =>
      exists blk1,
        update (default ConfigBlock_init (_blocks self !! name)) items h = Ok (blk1, h1) /\
        _blocks self1 = <[name := blk1]> (_blocks self)
  | None => _blocks self1 = _blocks self
  end.
Proof.
  unfold parse_section, block_section.
  destruct (startswith "filetype:" section).
  { destruct (match _filetypes self !! slice_from 9 section with
              | Some ft => (ft, h)
              | None => ConfigFileType_init h
              end) as [ft0 h0].
    intros H. apply res_bind_ok in H as ([ft1 h2] & _ & H). by injection H as <- _. }
  destruct (startswith "block:" section).
  { intros H. apply res_bind_ok in H as ([blk1 h2] & Hupd & H).
    injection H as <- <-. by exists blk1. }
  destruct (startswith "action:" section).
  { destruct (match _actions self !! slice_from 7 section with
              | Some act => (act, h)
              | None => ConfigAction_init h
              end) as [act0 h0].
    intros H. apply res_bind_ok in H as ([act1 h2] & _ & H). by injection H as <- _. }
  destruct (String.eqb section "text-blocks"); [by intros [= <- _]|].
  destruct (String.eqb section "text-files"); [by intros [= <- _]|].
  discriminate.
Qed.

(** The registry of blocks after a parse, from any registry before it. *)
Lemma parse_blocks `{rt : Runtime} config self h c' h' name :
  parse self config h = Ok (c', h') ->
  match _blocks c' !! name with
  | Some blk =>
      (has_block_section name config = true \/ is_Some (_blocks self !! name)) /\
      forall a, blk_value blk a =
                match last_value BlockValue_names a (block_items name config) with
                | Some v => {| va_value := PyStr v |}
                | None => blk_value (default ConfigBlock_init (_blocks self !! name)) a
                end
  | None => has_block_section name config = false /\ _blocks self !! name = None
  end.
Proof.
  revert self h. induction config as [|[section items] config IH]; intros self h.
  - intros [= <- <-]. cbn. destruct (_blocks self !! name); [|done].
    split; [right; eauto | done].
  - cbn [parse]. intros H. apply res_bind_ok in H as ([self1 h1] & Hsec & Hrest).
    apply parse_section_blocks in Hsec. specialize (IH _ _ Hrest).
    cbn [has_block_section existsb block_items].
    fold (has_block_section name config).
    destruct (block_section section) as [n|].
    + destruct Hsec as (blk1 & Hupd & Hblocks).
      destruct (decide (n = name)) as [->|Hne].
      * rewrite bool_decide_eq_true_2, decide_True by done. cbn [orb].
        rewrite Hblocks, lookup_insert_eq in IH. cbn [default] in IH.
        destruct (_blocks c' !! name) as [blk|]; [|by destruct IH].
        destruct IH as [_ Hvalues]. split; [by left|].
        intros a. rewrite Hvalues, last_value_app.
        destruct (last_value BlockValue_names a (block_items name config)); [done|].
        by destruct (block_update_values _ _ _ _ _ Hupd) as (_ & ->).
      * rewrite bool_decide_eq_false_2, decide_False by congruence. cbn [orb].
        by rewrite Hblocks, lookup_insert_ne in IH.
    + rewrite bool_decide_eq_false_2, decide_False by done. cbn [orb].
      by rewrite Hsec in IH.
Qed.

(** X8: after a parse of a new [Config] that raises nothing, the registry
    holds a block exactly for the names that a [block:name] section stands
    for, and each attribute of that block holds the last value that the
    section of that name gives it, or the empty str when it gives none.
    ([configparser] yields a section name once; were a name to come again,
    the test [blockname not in self._blocks] would make its sections merge,
    in the order of the file.) *)
Theorem X8_parse_blocks_registry `{rt : Runtime}
    (config : list (string * list (string * string))) (h h' : Heap) (c' : Config)
    (name : string) :
  parse Config_init config h = Ok (c', h') ->
  match _blocks c' !! name with
  | Some blk =>
      has_block_section name config = true /\
      forall a, blk_value blk a =
                {| va_value :=
                     PyStr (default "" (last_value BlockValue_names a
                                          (block_items name config))) |}
  | None => has_block_section name config = false
  end.
Proof.
  intros Hparse. pose proof (parse_blocks config _ _ _ _ name Hparse) as H.
  destruct (_blocks c' !! name) as [blk|]; [|by destruct H].
  destruct H as [Hhas Hvalues]. split.
  - destruct Hhas as [Hhas|Hold]; [done|].
    cbn in Hold. rewrite lookup_empty in Hold. by destruct Hold.
  - intros a. rewrite Hvalues.
    by destruct (last_value BlockValue_names a (block_items name config)).
Qed.

Lemma X8_parse_blocks_witness :
  exists c' h',
    parse (rt := example_runtime Py3) Config_init
      [("block:license", [("start", "LICENSE"); ("end", "END")]);
       ("text-files", [("gpl", "gpl.txt")]);
       ("block:other", [("start", "OTHER")])] [] = Ok (c', h') /\
    match _blocks c' !! "license" with
    | Some blk =>
        blk_value blk start = {| va_value := PyStr "LICENSE" |} /\
        blk_value blk end_ = {| va_value := PyStr "END" |} /\
        blk_value blk start_pattern = {| va_value := PyStr "" |}
    | None => False
    end.
Proof.
  eexists _, _. split; [reflexivity|].
  pose proof (X8_parse_blocks_registry (rt := example_runtime Py3)
    [("block:license", [("start", "LICENSE"); ("end", "END")]);
     ("text-files", [("gpl", "gpl.txt")]);
     ("block:other", [("start", "OTHER")])] [] _ _ "license" eq_refl) as H.
  destruct (_blocks _ !! "license") as [blk|]; [|discriminate (proj1 (conj H I))].
  destruct H as [_ H]. split; [exact (H start)|]. split; [exact (H end_) | exact (H start_pattern)].
Defined.

(** What one section does to the registry of file types. *)
Lemma parse_section_filetypes `{rt : Runtime} self section items h self1 h1 :
  parse_section self section items h = Ok (self1, h1) ->
  match filetype_section section with
  | Some name =>
      exists ft0 h0 ft1,
        (ft0 = (ConfigFileType_init h).1 \/ _filetypes self !! name = Some ft0) /\
        update ft0 items h0 = Ok (ft1, h1) /\
        _filetypes self1 = <[name := ft1]> (_filetypes self)
  | None => _filetypes self1 = _filetypes self
  end.
Proof.
  unfold parse_section, filetype_section.
  destruct (startswith "filetype:" section).
  { destruct (_filetypes self !! slice_from 9 section) as [ft|] eqn:Hft.
    - intros H. apply res_bind_ok in H as ([ft1 h2] & Hupd & H). injection H as <- <-.
      exists ft, h, ft1. eauto.
    - destruct (ConfigFileType_init h) as [ft0 h0] eqn:Hinit.
      intros H. apply res_bind_ok in H as ([ft1 h2] & Hupd & H). injection H as <- <-.
      exists ft0, h0, ft1. eauto. }
  destruct (startswith "block:" section).
  { intros H. apply res_bind_ok in H as ([blk1 h2] & _ & H). by injection H as <- _. }
  destruct (startswith "action:" section).
  { destruct (match _actions self !! slice_from 7 section with
              | Some act => (act, h)
              | None => ConfigAction_init h
              end) as [act0 h0].
    intros H. apply res_bind_ok in H as ([act1 h2] & _ & H). by injection H as <- _. }
  destruct (String.eqb section "text-blocks"); [by intros [= <- _]|].
  destruct (String.eqb section "text-files"); [by intros [= <- _]|].
  discriminate.
Qed.

(** The registry of file types after a parse, from any registry of file
    types that hold strs. *)
Lemma parse_filetypes `{rt : Runtime} config self h c' h' name :
  (forall n ft, _filetypes self !! n = Some ft -> wf_filetype ft = true) ->
  parse self config h = Ok (c', h') ->
  match _filetypes c' !! name with
  | Some ft =>
      wf_filetype ft = true /\
      (has_filetype_section name config = true \/ is_Some (_filetypes self !! name))
  | None => has_filetype_section name config = false /\ _filetypes self !! name = None
  end.
Proof.
  revert self h. induction config as [|[section items] config IH]; intros self h Hwf.
  - intros [= <- <-]. cbn. destruct (_filetypes self !! name) as [ft|] eqn:Hft; [|done].
    split; [by eapply Hwf | right; eauto].
  - cbn [parse]. intros H. apply res_bind_ok in H as ([self1 h1] & Hsec & Hrest).
    apply parse_section_filetypes in Hsec.
    cbn [has_filetype_section existsb]. fold (has_filetype_section name config).
    destruct (filetype_section section) as [n|].
    + destruct Hsec as (ft0 & h0 & ft1 & Hft0 & Hupd & Hfiletypes).
      assert (Hwf1 : forall n' ft, _filetypes self1 !! n' = Some ft -> wf_filetype ft = true).
      { intros n' ft. rewrite Hfiletypes. destruct (decide (n = n')) as [->|Hne].
        - rewrite lookup_insert_eq. intros [= <-].
          eapply update_filetype_wf; [|exact Hupd].
          destruct Hft0 as [->|Hold]; [apply ConfigFileType_init_wf | by eapply Hwf].
        - rewrite lookup_insert_ne by done. apply Hwf. }
      specialize (IH _ _ Hwf1 Hrest). rewrite Hfiletypes in IH.
      destruct (decide (n = name)) as [->|Hne].
      * rewrite bool_decide_eq_true_2 by done. cbn [orb].
        rewrite lookup_insert_eq in IH.
        destruct (_filetypes c' !! name); [|by destruct IH].
        split; [apply IH | by left].
      * rewrite bool_decide_eq_false_2 by congruence. cbn [orb].
        by rewrite lookup_insert_ne in IH.
    + rewrite bool_decide_eq_false_2 by done. cbn [orb].
      specialize (IH self1 h1). rewrite Hsec in IH. by apply IH.
Qed.

(** X9: after a parse of a new [Config] that raises nothing, the registry
    holds a file type exactly for the names that a [filetype:name] section
    stands for, and every attribute of it that the renderer reads as a str
    holds a str, whatever the sections wrote. *)
Theorem X9_parse_filetypes_registry `{rt : Runtime}
    (config : list (string * list (string * string))) (h h' : Heap) (c' : Config)
    (name : string) :
  parse Config_init config h = Ok (c', h') ->
  match _filetypes c' !! name with
  | Some ft => has_filetype_section name config = true /\ wf_filetype ft = true
  | None => has_filetype_section name config = false
  end.
Proof.
  intros Hparse.
  assert (Hinit : forall n ft,
             _filetypes Config_init !! n = Some ft -> wf_filetype ft = true).
  { intros n ft. cbn. by rewrite lookup_empty. }
  pose proof (parse_filetypes config _ _ _ _ name Hinit Hparse) as H.
  destruct (_filetypes c' !! name) as [ft|]; [|by destruct H].
  destruct H as [Hwf [Hhas|Hold]]; [done|].
  cbn in Hold. rewrite lookup_empty in Hold. by destruct Hold.
Qed.

Lemma X9_parse_filetypes_witness :
  exists c' h',
    parse (rt := example_runtime Py3) Config_init
      [("filetype:c", [("extensions", "c, h"); ("line-minlength", "40")]);
       ("block:license-c", [("start", "BEGIN")])] [] = Ok (c', h') /\
    match _filetypes c' !! "c" with
    | Some ft => wf_filetype ft = true
    | None => False
    end /\
    _filetypes c' !! "license-c" = None.
Proof.
  eexists _, _. split; [reflexivity|].
  pose proof (X9_parse_filetypes_registry (rt := example_runtime Py3)
    [("filetype:c", [("extensions", "c, h"); ("line-minlength", "40")]);
     ("block:license-c", [("start", "BEGIN")])] [] _ _ "c" eq_refl) as H.
  split; [|reflexivity].
  destruct (_filetypes _ !! "c") as [ft|]; [exact (proj2 H) | discriminate H].
Defined.

(** ** The driver *)

(** X10: when the configuration parses but has no [filetype:c] section, or
    has one but no [block:license-c] section, the driver raises [KeyError]
    with the name it looked up, before it reads or writes a line. *)
Theorem X10_main_missing_section `{rt : Runtime}
    (config : list (string * list (string * string))) (test_txt : list string)
    (c : Config) (h : Heap) :
  parse Config_init config [] = Ok (c, h) ->
  has_filetype_section "c" config && has_block_section "license-c" config = false ->
  main config test_txt
  = ([], Raise (KeyError (if has_filetype_section "c" config then "license-c" else "c"))).
Proof.
  intros Hparse Hmissing. unfold main. rewrite (out_bind_lift _ _ _ Hparse).
  assert (Hinit : forall n ft,
             _filetypes Config_init !! n = Some ft -> wf_filetype ft = true).
  { intros n ft. cbn. by rewrite lookup_empty. }
  pose proof (parse_filetypes config _ _ _ _ "c" Hinit Hparse) as Hft.
  pose proof (parse_blocks config _ _ _ _ "license-c" Hparse) as Hblk.
  unfold dict_get.
  destruct (_filetypes c !! "c") as [ft|].
  - destruct Hft as [_ [Hhas|Hold]];
      [|cbn in Hold; rewrite lookup_empty in Hold; by destruct Hold].
    rewrite Hhas in Hmissing |- *. cbn [andb] in Hmissing.
    destruct (_blocks c !! "license-c") as [blk|].
    + destruct Hblk as [[Hb|Hold] _]; [congruence|].
      cbn in Hold. rewrite lookup_empty in Hold. by destruct Hold.
    + reflexivity.
  - destruct Hft as [-> _]. reflexivity.
Qed.

Lemma X10_main_missing_witness :
  main (rt := example_runtime Py3) [] (println <$> ["a line"])
    = ([], Raise (KeyError "c")) /\
  main (rt := example_runtime Py3) [("filetype:c", [])] (println <$> ["a line"])
    = ([], Raise (KeyError "license-c")).
Proof.
  split.
  - exact (X10_main_missing_section (rt := example_runtime Py3) [] (println <$> ["a line"])
             Config_init [] eq_refl eq_refl).
  - eapply (X10_main_missing_section (rt := example_runtime Py3) [("filetype:c", [])]
              (println <$> ["a line"])); reflexivity.
Defined.

(** ** The width, again *)

Lemma edges_are_str_spec ft blk :
  edges_are_str ft blk = true ->
  is_str (ft_value ft firstline_start) = true /\
  is_str (ft_value ft firstline_end) = true /\
  is_str (ft_value ft firstline_prepad) = true /\
  is_str (ft_value ft firstline_postpad) = true /\
  is_str (ft_value ft lastline_start) = true /\
  is_str (ft_value ft lastline_end) = true /\
  is_str (ft_value ft lastline_prepad) = true /\
  is_str (ft_value ft lastline_postpad) = true /\
  is_str (blk_value blk start) = true /\
  is_str (blk_value blk end_) = true.
Proof.
  unfold edges_are_str. cbn [forallb]. rewrite !andb_true_iff.
  intros H. destruct_and!. by repeat split.
Qed.

(** With strs in the attributes it measures, [determine_length] is the
    maximum over the payload and the furniture. *)
Lemma determine_length_eq `{rt : Runtime} ft blk license :
  length_attrs_are_str ft blk = true ->
  determine_length ft blk license
  = liclen ← py_max (len <$> license);
    minlength ← py_int (IniValueAttribute_get (ft_value ft line_minlength));
    Ok (max4 (firstline_width ft blk) (midline_width ft + liclen)
          (lastline_width ft blk) minlength).
Proof.
  unfold length_attrs_are_str. intros H.
  apply andb_prop in H as [H Hme]. apply andb_prop in H as [H Hms].
  apply edges_are_str_spec in H as (? & ? & ? & ? & ? & ? & ? & ? & ? & ?).
  unfold determine_length.
  repeat match goal with
         | Hs : is_str ?a = true |- _ => rewrite (sget_is_str a Hs); clear Hs
         end.
  cbn [mbind res_bind]. destruct (py_max (len <$> license)); [|reflexivity].
  cbn [mbind res_bind]. rewrite !(sget_is_str _ Hms), !(sget_is_str _ Hme) || idtac.
  reflexivity.
Qed.

Lemma determine_length_strs `{rt : Runtime} ft blk license width :
  determine_length ft blk license = Ok width -> length_attrs_are_str ft blk = true.
Proof.
  unfold determine_length, length_attrs_are_str, edges_are_str. cbn [forallb]. intros H.
  repeat (apply res_bind_ok in H as (? & [-> _]%sget_ok & H)).
  apply res_bind_ok in H as (liclen & _ & H).
  repeat (apply res_bind_ok in H as (? & [-> _]%sget_ok & H)).
  reflexivity.
Qed.

Lemma fold_max_init ys a b :
  fold_left Z.max ys (Z.max a b) = Z.max a (fold_left Z.max ys b).
Proof.
  revert b. induction ys as [|y ys IH]; intros b; cbn [fold_left]; [done|].
  by rewrite <- Z.max_assoc, IH.
Qed.

Lemma py_max_app xs ys a b :
  py_max xs = Ok a -> py_max ys = Ok b -> py_max (xs ++ ys) = Ok (Z.max a b).
Proof.
  destruct xs as [|x xs]; [discriminate|]. destruct ys as [|y ys]; [discriminate|].
  cbn [py_max app]. intros [= <-] [= <-]. f_equal.
  rewrite fold_left_app. cbn [fold_left]. apply fold_max_init.
Qed.

(** X11: the width of a payload made of two payloads is the larger of
    their two widths: the width only depends on the longest line, not on
    the order or the number of the lines. *)
Theorem X11_determine_length_app `{rt : Runtime} (ft : ConfigFileType) (blk : ConfigBlock)
    (l1 l2 : list string) (w1 w2 : Z) :
  determine_length ft blk l1 = Ok w1 ->
  determine_length ft blk l2 = Ok w2 ->
  determine_length ft blk (l1 ++ l2) = Ok (Z.max w1 w2) /\
  determine_length ft blk (l2 ++ l1) = Ok (Z.max w1 w2).
Proof.
  intros H1 H2. pose proof (determine_length_strs _ _ _ _ H1) as Hstr.
  rewrite !determine_length_eq in * by done.
  apply res_bind_ok in H1 as (m1 & Hm1 & H1). apply res_bind_ok in H1 as (n1 & Hn & H1).
  apply res_bind_ok in H2 as (m2 & Hm2 & H2). apply res_bind_ok in H2 as (n2 & Hn2 & H2).
  rewrite Hn in Hn2. injection Hn2 as <-. injection H1 as <-. injection H2 as <-.
  rewrite !fmap_app, (py_max_app _ _ _ _ Hm1 Hm2), (py_max_app _ _ _ _ Hm2 Hm1).
  cbn [mbind res_bind]. rewrite Hn. cbn [mbind res_bind].
  unfold max4. split; f_equal; lia.
Qed.

Lemma X11_determine_length_witness :
  determine_length (rt := example_runtime Py3) (plain_filetype Py3) (marker_block Py3)
    (["short"] ++ ["twenty one characters"]) = Ok (Z.max 12 21).
Proof.
  exact (proj1 (X11_determine_length_app (rt := example_runtime Py3) (plain_filetype Py3)
                  (marker_block Py3) ["short"] ["twenty one characters"] 12 21
                  eq_refl eq_refl)).
Defined.

(** ** What the renderer writes *)

Lemma join_cons x parts : join (x :: parts) = x +:+ join parts.
Proof.
  unfold join. destruct parts as [|y parts]; [|reflexivity].
  cbn. by rewrite str_app_nil_r.
Qed.

Lemma join_nil : join [] = "".
Proof. reflexivity. Qed.

Lemma midlines_exist `{rt : Runtime} ft s e length license :
  halves_are_ints ft = true ->
  exists mids,
    Forall2 (fun line parts => midline_parts ft s e length line = Ok parts) license mids.
Proof.
  intros Hhalf. induction license as [|line license [mids IH]]; [by exists []|].
  destruct (midline_parts_total ft s e length line Hhalf) as [parts Hparts].
  exists (parts :: mids). by constructor.
Qed.

Lemma for_each_midlines_run `{rt : Runtime} ft s e length license mids :
  Forall2 (fun line parts => midline_parts ft s e length line = Ok parts) license mids ->
  for_each (fun line => midline ← lift (midline_parts ft s e length line);
                        print (join midline)) license
  = ((fun parts => println (join parts)) <$> mids, Ok ()).
Proof.
  induction 1 as [|line parts license mids Hparts _ IH]; [reflexivity|].
  cbn [for_each]. rewrite (out_bind_lift _ _ _ Hparts).
  rewrite (out_bind_written _ _ [println (join parts)] () eq_refl).
  by rewrite IH.
Qed.

(** A run of [generate_block] whose steps before the last line succeed:
    it writes all the lines before the last and then the last line, or
    raises what the last line raises. *)
Lemma generate_block_run `{rt : Runtime} ft blk license width first pad n s e mids :
  determine_length ft blk license = Ok width ->
  firstline_parts ft blk width = Ok first ->
  padline_parts ft width = Ok pad ->
  py_int (IniValueAttribute_get (ft_value ft line_padding)) = Ok n ->
  sget (ft_value ft midline_start) = Ok s ->
  sget (ft_value ft midline_end) = Ok e ->
  Forall2 (fun line parts => midline_parts ft s e width line = Ok parts) license mids ->
  generate_block ft blk license
  = (println <$> (join first :: replicate (Z.to_nat n) (join pad)
                    ++ (join <$> mids) ++ replicate (Z.to_nat n) (join pad)
                    ++ match lastline_parts ft blk width with
                       | Ok last => [join last]
                       | Raise _ => []
                       end),
     match lastline_parts ft blk width with
     | Ok _ => Ok ()
     | Raise err => Raise err
     end).
Proof.
  intros Hw Hfirst Hpad Hn Hs He Hmids. unfold generate_block.
  rewrite (out_bind_lift _ _ _ Hw), (out_bind_lift _ _ _ Hfirst).
  rewrite (out_bind_written _ _ [println (join first)] () eq_refl).
  rewrite (out_bind_lift _ _ _ Hpad), (out_bind_lift _ _ _ Hn).
  rewrite (out_bind_written _ _ _ _ (print_times_out _ _)).
  rewrite (out_bind_lift _ _ _ Hs), (out_bind_lift _ _ _ He).
  rewrite (out_bind_written _ _ _ _ (for_each_midlines_run _ _ _ _ _ _ Hmids)).
  rewrite (out_bind_lift _ _ _ Hn).
  rewrite (out_bind_written _ _ _ _ (print_times_out _ _)).
  destruct (lastline_parts ft blk width) as [last|err]; cbn;
    rewrite !fmap_app, !fmap_replicate, <- list_fmap_compose, <- ?app_assoc;
    reflexivity.
Qed.

(** X12: a block that is rendered carries the payload whole and in order:
    between the padding lines there is one line per payload line, made of
    [midline_start], spaces, the payload line as it is, spaces and
    [midline_end]; the renderer cuts or changes no payload line. *)
Theorem X12_payload_preserved `{rt : Runtime} (ft : ConfigFileType) (blk : ConfigBlock)
    (license out : list string) :
  generate_block ft blk license = (out, Ok ()) ->
  exists first pads mids last,
    out = println <$> (first :: pads ++ mids ++ pads ++ [last]) /\
    Forall2 (fun line mid =>
               exists l r : Z,
                 mid = text_of (ft_value ft midline_start) +:+ str_mul " " l +:+ line
                       +:+ str_mul " " r +:+ text_of (ft_value ft midline_end))
      license mids.
Proof.
  intros Hgen. apply generate_block_ok in Hgen
    as (w & first & pad & n & s & e & mids & last
        & _ & _ & _ & _ & [_ ->]%sget_ok & [_ ->]%sget_ok & Hmids & _ & ->).
  exists (join first), (replicate (Z.to_nat n) (join pad)), (join <$> mids), (join last).
  split; [done|]. apply Forall2_fmap_r.
  induction Hmids as [|line parts license mids Hparts _ IH]; constructor; [|exact IH].
  apply midline_parts_gaps in Hparts as (left & right & -> & Hshort & Hwide).
  unfold compose. rewrite !join_cons, join_nil, str_app_nil_r.
  destruct (Z.lt_ge_cases
              (total_len [text_of (ft_value ft midline_start); ""; line; "";
                          text_of (ft_value ft midline_end)]) w) as [Hlt|Hge].
  - destruct (Hshort Hlt) as [Hl Hr]. rewrite Hr, Hl.
    destruct (_ && _), (negb _);
      first [by eexists _, _ | by exists 0; eexists | by eexists; exists 0 | by exists 0, 0].
  - destruct (Hwide Hge) as [-> ->]. by exists 0, 0.
Qed.

Lemma X12_payload_preserved_witness :
  exists first pads mids last,
    println <$> ["## BEGIN ###"; "|          |"; "|    X     |"; "|  hello   |";
                 "|          |"; "|          |"; "### END ####"]
    = println <$> (first :: pads ++ mids ++ pads ++ [last]) /\
    Forall2 (fun line mid =>
               exists l r : Z,
                 mid = text_of (ft_value (boxed_filetype Py2) midline_start)
                       +:+ str_mul " " l +:+ line +:+ str_mul " " r
                       +:+ text_of (ft_value (boxed_filetype Py2) midline_end))
      ["X"; "hello"; ""] mids.
Proof.
  exact (X12_payload_preserved (rt := example_runtime Py2) (boxed_filetype Py2)
           (marker_block Py2) ["X"; "hello"; ""] _ eq_refl).
Defined.

(** X13: with no end decoration and no centering of the middle lines, the
    renderer writes no blank after the text: each padding line is
    [midline_start] alone and each middle line is [midline_start] followed
    by the payload line, however wide the block is. *)
Theorem X13_no_trailing_blanks `{rt : Runtime} (ft : ConfigFileType) (blk : ConfigBlock)
    (license out : list string) :
  text_of (ft_value ft midline_end) = "" ->
  IniBoolAttribute_get (ft_bool ft midline_center) = false ->
  generate_block ft blk license = (out, Ok ()) ->
  exists first last n,
    py_int (IniValueAttribute_get (ft_value ft line_padding)) = Ok n /\
    out = println <$>
            (first :: replicate (Z.to_nat n) (text_of (ft_value ft midline_start))
               ++ ((fun line => text_of (ft_value ft midline_start) +:+ line) <$> license)
               ++ replicate (Z.to_nat n) (text_of (ft_value ft midline_start)) ++ [last]).
Proof.
  intros Hend Hcenter Hgen. apply generate_block_ok in Hgen
    as (w & first & pad & n & s & e & mids & last
        & _ & _ & Hpad & Hn & [_ ->]%sget_ok & [_ He]%sget_ok & Hmids & _ & ->).
  rewrite Hend in He. subst e.
  exists (join first), (join last), n. split; [done|].
  assert (Hpadline : join pad = text_of (ft_value ft midline_start)).
  { unfold padline_parts in Hpad.
    apply res_bind_ok in Hpad as (s & [_ ->]%sget_ok & Hpad).
    apply res_bind_ok in Hpad as (e & [_ ->]%sget_ok & Hpad).
    rewrite Hend, andb_false_r in Hpad. injection Hpad as <-.
    by rewrite !join_cons, join_nil, !str_app_nil_r. }
  assert (Hlines : join <$> mids
                   = (fun line => text_of (ft_value ft midline_start) +:+ line) <$> license).
  { clear -Hmids Hcenter.
    induction Hmids as [|line parts license mids Hparts _ IH]; [done|].
    cbn [fmap list_fmap]. f_equal; [|exact IH].
    unfold midline_parts in Hparts. rewrite Hcenter in Hparts. injection Hparts as <-.
    by rewrite !join_cons, join_nil, !str_app_nil_r. }
  by rewrite Hpadline, Hlines.
Qed.

Lemma X13_no_trailing_blanks_witness :
  exists first last n,
    py_int (rt := example_runtime Py3)
      (IniValueAttribute_get (ft_value (plain_filetype Py3) line_padding)) = Ok n /\
    println <$> plain_block_lines
    = println <$>
        (first :: replicate (Z.to_nat n) (text_of (ft_value (plain_filetype Py3) midline_start))
           ++ ((fun line => text_of (ft_value (plain_filetype Py3) midline_start) +:+ line)
                 <$> ["X"])
           ++ replicate (Z.to_nat n) (text_of (ft_value (plain_filetype Py3) midline_start))
           ++ [last]).
Proof.
  exact (X13_no_trailing_blanks (rt := example_runtime Py3) (plain_filetype Py3)
           (marker_block Py3) ["X"] _ eq_refl eq_refl eq_refl).
Defined.

(** ** Where the renderer stops *)

Lemma text_of_sget a : text_of a <> "" -> sget a = Ok (text_of a).
Proof.
  intros H. apply sget_is_str. destruct (is_str a) eqn:Hstr; [done|].
  exfalso. apply H. unfold is_str in Hstr. unfold text_of, IniValueAttribute_get.
  by destruct (va_value a).
Qed.

Lemma firstline_parts_total `{rt : Runtime} ft blk width :
  wf_filetype ft = true ->
  wf_block blk = true ->
  text_of (ft_value ft firstline_filler) <> "" ->
  halves_are_ints ft = true ->
  exists parts, firstline_parts ft blk width = Ok parts.
Proof.
  intros Hft Hblk Hfill Hhalf. unfold firstline_parts.
  rewrite !(wf_filetype_sget ft) by (done || in_list).
  rewrite !(wf_block_sget blk) by done.
  cbn [mbind res_bind]. apply fill_edge_total; [done | | done].
  apply wf_filetype_is_str; [done | in_list].
Qed.

Lemma padline_parts_total `{rt : Runtime} ft width :
  wf_filetype ft = true -> exists parts, padline_parts ft width = Ok parts.
Proof.
  intros Hft. unfold padline_parts.
  rewrite !(wf_filetype_sget ft) by (done || in_list).
  cbn [mbind res_bind]. destruct (_ && _); eauto.
Qed.

(** X14: a file type whose [lastline_filler] is empty breaks the renderer
    at its very end.  When the last line is shorter than the block is wide,
    [generate_block] writes the first line, the padding lines and every
    payload line, and then raises [IndexError] at [filler[0]] in place of
    the last line. *)
Theorem X14_empty_lastline_filler `{rt : Runtime} (ft : ConfigFileType) (blk : ConfigBlock)
    (license : list string) (width padding : Z) :
  wf_filetype ft = true ->
  wf_block blk = true ->
  determine_length ft blk license = Ok width ->
  py_int (IniValueAttribute_get (ft_value ft line_padding)) = Ok padding ->
  text_of (ft_value ft firstline_filler) <> "" ->
  halves_are_ints ft = true ->
  text_of (ft_value ft lastline_filler) = "" ->
  lastline_width ft blk < width ->
  exists out,
    generate_block ft blk license = (out, Raise IndexError) /\
    length out = (1 + 2 * Z.to_nat padding + length license)%nat.
Proof.
  intros Hft Hblk Hw Hpad Hfill Hhalf Hempty Hshort.
  destruct (firstline_parts_total ft blk width Hft Hblk Hfill Hhalf) as [first Hfirst].
  destruct (padline_parts_total ft width Hft) as [pad Hpadline].
  destruct (midlines_exist ft (text_of (ft_value ft midline_start))
              (text_of (ft_value ft midline_end)) width license Hhalf) as [mids Hmids].
  assert (Hlast : lastline_parts ft blk width = Raise IndexError).
  { unfold lastline_parts.
    rewrite !(wf_filetype_sget ft) by (done || in_list).
    rewrite !(wf_block_sget blk) by done.
    cbn [mbind res_bind]. unfold fill_edge.
    destruct (Z.ltb_spec (total_len [text_of (ft_value ft lastline_start); "";
                                     text_of (ft_value ft lastline_prepad);
                                     text_of (blk_value blk end_);
                                     text_of (ft_value ft lastline_postpad); "";
                                     text_of (ft_value ft lastline_end)]) width) as [_|Hge].
    - rewrite (wf_filetype_sget ft) by (done || in_list). by rewrite Hempty.
    - exfalso. unfold lastline_width in Hshort. unfold total_len in Hge.
      cbn [fold_left] in Hge. rewrite !len_empty in Hge. lia. }
  rewrite (generate_block_run ft blk license width first pad padding _ _ mids
             Hw Hfirst Hpadline Hpad
             (wf_filetype_sget ft midline_start Hft ltac:(in_list))
             (wf_filetype_sget ft midline_end Hft ltac:(in_list)) Hmids).
  rewrite Hlast. eexists. split; [reflexivity|].
  rewrite length_fmap. cbn [length].
  rewrite !length_app, !length_replicate, length_fmap, <- (Forall2_length _ _ _ Hmids).
  cbn [length]. lia.
Qed.

Lemma X14_empty_lastline_filler_witness :
  exists out,
    generate_block (rt := example_runtime Py2) (unfilled_filetype Py2) (marker_block Py2)
      ["X"; "Y"]
    = (out, Raise IndexError) /\
    length out = (1 + 2 * Z.to_nat 1 + length ["X"; "Y"])%nat.
Proof.
  apply (X14_empty_lastline_filler (rt := example_runtime Py2) (unfilled_filetype Py2)
           (marker_block Py2) ["X"; "Y"] 12 1); try reflexivity; done.
Defined.

(** X15: under Python 3 a centered first line that is shorter than the
    block is wide stops the renderer before it writes anything:
    [filler / 2] is a float there, and [char * part] raises [TypeError].
    The first line is centered unless the file type says otherwise. *)
Theorem X15_py3_centered_first_line `{rt : Runtime} (ft : ConfigFileType)
    (blk : ConfigBlock) (license : list string) (width : Z) :
  py_version = Py3 ->
  determine_length ft blk license = Ok width ->
  firstline_width ft blk < width ->
  IniBoolAttribute_get (ft_bool ft firstline_center) = true ->
  text_of (ft_value ft firstline_filler) <> "" ->
  generate_block ft blk license = ([], Raise TypeError).
Proof.
  intros Hv Hw Hshort Hcenter Hfill.
  pose proof (determine_length_strs _ _ _ _ Hw) as Hstrs.
  unfold length_attrs_are_str in Hstrs.
  apply andb_prop in Hstrs as [Hstrs _]. apply andb_prop in Hstrs as [Hstrs _].
  apply edges_are_str_spec in Hstrs as (Hs & He & Hpre & Hpost & _ & _ & _ & _ & Hbs & _).
  assert (Hfirst : firstline_parts ft blk width = Raise TypeError).
  { unfold firstline_parts.
    rewrite (sget_is_str _ Hs), (sget_is_str _ Hpre), (sget_is_str _ Hbs),
      (sget_is_str _ Hpost), (sget_is_str _ He).
    cbn [mbind res_bind].
    destruct (text_of (ft_value ft firstline_filler)) as [|c rest] eqn:Hchar; [done|].
    apply (fill_edge_py3_raises _ _ _ _ (String c "")); [done | done | |].
    - unfold firstline_width in Hshort. unfold total_len.
      cbn [fold_left]. rewrite !len_empty. lia.
    - rewrite text_of_sget, Hchar; [reflexivity|]. by rewrite Hchar. }
  unfold generate_block.
  by rewrite (out_bind_lift _ _ _ Hw), (out_bind_lift_raise _ _ _ Hfirst).
Qed.

Lemma X15_py3_centered_first_line_witness :
  generate_block (rt := example_runtime Py3) (centered_filetype Py3) (marker_block Py3)
    test_license
  = ([], Raise TypeError).
Proof.
  apply (X15_py3_centered_first_line (rt := example_runtime Py3) (centered_filetype Py3)
           (marker_block Py3) test_license 93); try reflexivity; done.
Defined.

(** X16: the renderer raises nothing and writes a whole block when the
    payload has a line, the attributes it reads hold strs, [line_minlength]
    and [line_padding] are numbers that [int] reads, both fill strings have
    a character to take and every half it computes is an int.  The block has
    the two edge lines, [line_padding] padding lines on either side and one
    line for each line of the payload. *)
Theorem X16_generate_block_succeeds `{rt : Runtime} (ft : ConfigFileType)
    (blk : ConfigBlock) (license : list string) (minlength padding : Z) :
  license <> [] ->
  wf_filetype ft = true ->
  wf_block blk = true ->
  py_int (IniValueAttribute_get (ft_value ft line_minlength)) = Ok minlength ->
  py_int (IniValueAttribute_get (ft_value ft line_padding)) = Ok padding ->
  text_of (ft_value ft firstline_filler) <> "" ->
  text_of (ft_value ft lastline_filler) <> "" ->
  halves_are_ints ft = true ->
  exists out,
    generate_block ft blk license = (out, Ok ()) /\
    length out = (2 + 2 * Z.to_nat padding + length license)%nat.
Proof.
  intros Hne Hft Hblk Hmin Hpad Hf1 Hf2 Hhalf.
  pose proof (generate_block_total ft blk license minlength padding
                Hne Hft Hblk Hmin Hpad Hf1 Hf2 Hhalf) as Hok.
  destruct (generate_block ft blk license) as [out result] eqn:Hgen.
  cbn [snd] in Hok. subst result. exists out. split; [done|].
  apply generate_block_ok in Hgen
    as (w & first & pad & n & s & e & mids & last
        & _ & _ & _ & Hn & _ & _ & Hmids & _ & ->).
  rewrite Hpad in Hn. injection Hn as <-.
  rewrite length_fmap. cbn [length].
  rewrite !length_app, !length_replicate, length_fmap, <- (Forall2_length _ _ _ Hmids).
  cbn [length]. lia.
Qed.

Lemma X16_generate_block_succeeds_witness :
  exists out,
    generate_block (rt := example_runtime Py2) (boxed_filetype Py2) (marker_block Py2)
      test_license
    = (out, Ok ()) /\
    length out = (2 + 2 * Z.to_nat 1 + length test_license)%nat.
Proof.
  apply (X16_generate_block_succeeds (rt := example_runtime Py2) (boxed_filetype Py2)
           (marker_block Py2) test_license 12 1); try reflexivity; done.
Defined.

(** ** Texts with and without blocks *)

(** The loop over a text that holds one closed block: the lines before the
    start marker, then what the renderer writes; the loop goes on outside
    the block if the renderer raises nothing, and stops if it raises. *)
Lemma scan_closed `{rt : Runtime} ft blk license re_start re_end pre s body e
    rendered result :
  Forall (fun line => re_match re_start line = false) pre ->
  re_match re_start s = true ->
  Forall (fun line => re_match re_end line = false) body ->
  re_match re_end e = true ->
  generate_block ft blk license = (rendered, result) ->
  scan ft blk re_start re_end license (pre ++ s :: body ++ [e]) false
  = (pre ++ rendered, match result with
                      | Ok _ => Ok false
                      | Raise err => Raise err
                      end).
Proof.
  intros Hpre Hs Hbody He Hgen.
  rewrite scan_app, (out_bind_written _ _ _ _ (scan_pass_through _ _ _ _ _ _ Hpre)).
  cbn [scan]. rewrite Hs.
  rewrite scan_app, (out_bind_written _ _ _ _ (scan_swallow _ _ _ _ _ _ Hbody)).
  cbn [scan]. rewrite He, Hgen.
  destruct result as [[]|err]; cbn; by rewrite ?app_nil_r.
Qed.

Lemma closed_block_split {A} (pre : list A) s body e post :
  pre ++ s :: body ++ e :: post = (pre ++ s :: body ++ [e]) ++ post.
Proof. by rewrite <- !app_assoc, <- app_comm_cons, <- app_assoc. Qed.

(** X17: a text in which no line matches the start pattern is written
    out as it is, line for line, whatever the file type and the payload
    are: the renderer is not called, so nothing it would raise (an empty
    payload, an attribute it cannot use) is raised. *)
Theorem X17_no_marker_identity `{rt : Runtime} (ft : ConfigFileType) (blk : ConfigBlock)
    (handle license : list string) (re_start re_end : Regex) :
  compile (IniValueAttribute_get (blk_value blk start_pattern)) = Ok re_start ->
  compile (IniValueAttribute_get (blk_value blk end_pattern)) = Ok re_end ->
  Forall (fun line => re_match re_start line = false) handle ->
  apply_block ft blk handle license = (handle, Ok ()).
Proof.
  intros Hcs Hce Hplain. rewrite (apply_block_scan _ _ _ _ _ _ Hcs Hce).
  rewrite (out_bind_written _ _ _ _ (scan_pass_through _ _ _ _ _ _ Hplain)).
  cbn. by rewrite app_nil_r.
Qed.

Lemma X17_no_marker_identity_witness :
  apply_block (rt := example_runtime Py3) (centered_filetype Py3) (marker_block Py3)
    (println <$> ["one"; "END of nothing"; " BEGIN is not at the start"]) []
  = (println <$> ["one"; "END of nothing"; " BEGIN is not at the start"], Ok ()).
Proof.
  apply (X17_no_marker_identity (rt := example_runtime Py3) (centered_filetype Py3)
           (marker_block Py3) _ [] "BEGIN" "END"); try reflexivity; cbn; repeat constructor.
Defined.

(** X18: a closed block is replaced and the scan goes on.  For a text made
    of lines that do not match the start pattern, a line that does, lines
    that do not match the end pattern, a line that does and a rest,
    [apply_block] writes the first lines, the rendered block and then what
    it writes for the rest alone; the two marker lines and all lines
    between them are dropped, also those that match the start pattern. *)
Theorem X18_closed_block_replaced `{rt : Runtime} (ft : ConfigFileType) (blk : ConfigBlock)
    (license pre : list string) (s : string) (body : list string) (e : string)
    (post : list string) (re_start re_end : Regex) (rendered : list string) :
  compile (IniValueAttribute_get (blk_value blk start_pattern)) = Ok re_start ->
  compile (IniValueAttribute_get (blk_value blk end_pattern)) = Ok re_end ->
  Forall (fun line => re_match re_start line = false) pre ->
  re_match re_start s = true ->
  Forall (fun line => re_match re_end line = false) body ->
  re_match re_end e = true ->
  generate_block ft blk license = (rendered, Ok ()) ->
  apply_block ft blk (pre ++ s :: body ++ e :: post) license
  = (pre ++ rendered ++ (apply_block ft blk post license).1,
     (apply_block ft blk post license).2).
Proof.
  intros Hcs Hce Hpre Hs Hbody He Hgen.
  rewrite closed_block_split, !(apply_block_scan _ _ _ _ _ _ Hcs Hce).
  rewrite scan_app, out_bind_assoc.
  rewrite (out_bind_written _ _ _ _
             (scan_closed _ _ _ _ _ _ _ _ _ _ _ Hpre Hs Hbody He Hgen)).
  cbn [fst snd]. by rewrite <- app_assoc.
Qed.

Lemma X18_closed_block_replaced_witness :
  apply_block (rt := example_runtime Py3) (plain_filetype Py3) (marker_block Py3)
    ((println <$> ["keep me"])
       ++ println "BEGIN" :: (println <$> ["old"; "BEGIN again"])
       ++ println "END" :: (println <$> ["and me"; "END"])) ["X"]
  = ((println <$> ["keep me"]) ++ (println <$> plain_block_lines)
       ++ (apply_block (rt := example_runtime Py3) (plain_filetype Py3) (marker_block Py3)
             (println <$> ["and me"; "END"]) ["X"]).1,
     (apply_block (rt := example_runtime Py3) (plain_filetype Py3) (marker_block Py3)
        (println <$> ["and me"; "END"]) ["X"]).2).
Proof.
  apply (X18_closed_block_replaced (rt := example_runtime Py3) (plain_filetype Py3)
           (marker_block Py3) ["X"] (println <$> ["keep me"]) (println "BEGIN")
           (println <$> ["old"; "BEGIN again"]) (println "END")
           (println <$> ["and me"; "END"]) "BEGIN" "END" (println <$> plain_block_lines));
    try reflexivity; cbn; repeat constructor.
Defined.

(** X19: when the renderer raises at the end of the first closed block,
    [apply_block] has written the lines before the block and what the
    renderer wrote before it raised, and raises the same error: the rest
    of the text is not written. *)
Theorem X19_renderer_error_truncates `{rt : Runtime} (ft : ConfigFileType)
    (blk : ConfigBlock) (license pre : list string) (s : string) (body : list string)
    (e : string) (post : list string) (re_start re_end : Regex)
    (written : list string) (err : PyErr) :
  compile (IniValueAttribute_get (blk_value blk start_pattern)) = Ok re_start ->
  compile (IniValueAttribute_get (blk_value blk end_pattern)) = Ok re_end ->
  Forall (fun line => re_match re_start line = false) pre ->
  re_match re_start s = true ->
  Forall (fun line => re_match re_end line = false) body ->
  re_match re_end e = true ->
  generate_block ft blk license = (written, Raise err) ->
  apply_block ft blk (pre ++ s :: body ++ e :: post) license
  = (pre ++ written, Raise err).
Proof.
  intros Hcs Hce Hpre Hs Hbody He Hgen.
  rewrite closed_block_split, (apply_block_scan _ _ _ _ _ _ Hcs Hce).
  rewrite scan_app, out_bind_assoc.
  by rewrite (scan_closed _ _ _ _ _ _ _ _ _ _ _ Hpre Hs Hbody He Hgen).
Qed.

Lemma X19_renderer_error_truncates_witness :
  apply_block (rt := example_runtime Py2) (unfilled_filetype Py2) (marker_block Py2)
    ((println <$> ["keep me"])
       ++ println "BEGIN" :: (println <$> ["old"])
       ++ println "END" :: (println <$> ["lost"; "lost too"])) ["X"]
  = ((println <$> ["keep me"]) ++ (println <$> ["## BEGIN ###"; ""; "X"; ""]),
     Raise IndexError).
Proof.
  apply (X19_renderer_error_truncates (rt := example_runtime Py2) (unfilled_filetype Py2)
           (marker_block Py2) ["X"] (println <$> ["keep me"]) (println "BEGIN")
           (println <$> ["old"]) (println "END") (println <$> ["lost"; "lost too"])
           "BEGIN" "END"); try reflexivity; cbn; repeat constructor.
Defined.

(** ** The lists of a configuration *)

Lemma extension_parts_app `{rt : Runtime} p q :
  extension_parts (p ++ q) = extension_parts p ++ extension_parts q.
Proof.
  unfold extension_parts, values_of.
  by rewrite List.filter_app, !fmap_app, concat_app.
Qed.

(** [update] of a file type keeps its list object, makes no list and
    leaves the other lists alone. *)
Lemma filetype_update_frame `{rt : Runtime} (ft ft' : ConfigFileType) section h h' :
  update ft section h = Ok (ft', h') ->
  extensions ft' = extensions ft /\
  length h' = length h /\
  forall r, r <> la_value (extensions ft) -> deref h' r = deref h r.
Proof.
  revert ft h. induction section as [|[key value] section IH]; intros ft h.
  - by intros [= <- <-].
  - cbn [update].
    destruct (attr_set rt ft (dash_to_underscore key) value h) as [[[ft1 h1]|e]|] eqn:Hset;
      [|discriminate|by destruct (other_attr _)].
    cbn [mbind res_bind]. intros Hrest.
    apply IH in Hrest as (Hext & Hlen & Hother).
    assert (Hstep : extensions ft1 = extensions ft /\ length h1 = length h /\
                    forall r, r <> la_value (extensions ft) -> deref h1 r = deref h r).
    { cbn [attr_set ConfigFileType_section] in Hset.
      destruct (String.eqb (dash_to_underscore key) "extensions").
      - injection Hset as Hset. apply res_bind_ok in Hset as (h2 & Hh2 & [= <- <-]).
        unfold IniListAttribute_set in Hh2.
        apply res_bind_ok in Hh2 as (pieces & _ & [= <-]).
        split; [done|]. split; [apply length_alter|].
        intros r Hne. by rewrite deref_alter_ne.
      - destruct (assoc _ FileTypeValue_names); [by injection Hset as <- <-|].
        destruct (assoc _ FileTypeBool_names); [by injection Hset as <- <-|done]. }
    destruct Hstep as (Hext1 & Hlen1 & Hother1). rewrite Hext1 in *.
    split; [done|]. split; [lia|]. intros r Hne. rewrite Hother by done. by apply Hother1.
Qed.

Lemma action_update_frame `{rt : Runtime} (act act' : ConfigAction) section h h' :
  update act section h = Ok (act', h') ->
  filetype act' = filetype act /\
  length h' = length h /\
  forall r, r <> la_value (filetype act) -> deref h' r = deref h r.
Proof.
  revert act h. induction section as [|[key value] section IH]; intros act h.
  - by intros [= <- <-].
  - cbn [update].
    destruct (attr_set rt act (dash_to_underscore key) value h) as [[[act1 h1]|e]|] eqn:Hset;
      [|discriminate|by destruct (other_attr _)].
    cbn [mbind res_bind]. intros Hrest.
    apply IH in Hrest as (Hext & Hlen & Hother).
    assert (Hstep : filetype act1 = filetype act /\ length h1 = length h /\
                    forall r, r <> la_value (filetype act) -> deref h1 r = deref h r).
    { cbn [attr_set ConfigAction_section] in Hset.
      destruct (String.eqb (dash_to_underscore key) "filetype").
      - injection Hset as Hset. apply res_bind_ok in Hset as (h2 & Hh2 & [= <- <-]).
        unfold IniListAttribute_set in Hh2.
        apply res_bind_ok in Hh2 as (pieces & _ & [= <-]).
        split; [done|]. split; [apply length_alter|].
        intros r Hne. by rewrite deref_alter_ne.
      - destruct (assoc _ ActionValue_names); [by injection Hset as <- <-|done]. }
    destruct Hstep as (Hext1 & Hlen1 & Hother1). rewrite Hext1 in *.
    split; [done|]. split; [lia|]. intros r Hne. rewrite Hother by done. by apply Hother1.
Qed.

(** What [update] of a file type adds to its list. *)
Lemma filetype_update_content `{rt : Runtime} (ft ft' : ConfigFileType) section h h' :
  la_sep (extensions ft) = "," ->
  (la_value (extensions ft) < length h)%nat ->
  update ft section h = Ok (ft', h') ->
  deref h' (la_value (extensions ft))
  = deref h (la_value (extensions ft)) ++ extension_parts section.
Proof.
  revert ft h. induction section as [|[key value] section IH]; intros ft h Hsep Hr.
  - intros [= <- <-]. unfold extension_parts. cbn. by rewrite app_nil_r.
  - change ((key, value) :: section) with ([(key, value)] ++ section).
    rewrite update_app, extension_parts_app. intros Hupd.
    apply res_bind_ok in Hupd as ([ft1 h1] & Hone & Hrest).
    pose proof (filetype_update_frame _ _ _ _ _ Hone) as (Hext & Hlen & _).
    rewrite <- Hext in *.
    rewrite (IH ft1 h1 Hsep ltac:(lia) Hrest), app_assoc. f_equal.
    rewrite Hext in *. clear IH Hrest Hlen Hext.
    cbn [update] in Hone. unfold extension_parts. rewrite values_of_cons.
    destruct (attr_set rt ft (dash_to_underscore key) value h) as [[[ft2 h2]|e]|] eqn:Hset;
      [|discriminate|by destruct (other_attr _)].
    cbn [mbind res_bind] in Hone. injection Hone as -> ->.
    cbn [attr_set ConfigFileType_section] in Hset.
    destruct (String.eqb (dash_to_underscore key) "extensions").
    + injection Hset as Hset. apply res_bind_ok in Hset as (h2 & Hh2 & [= _ <-]).
      unfold IniListAttribute_set in Hh2. rewrite Hsep in Hh2.
      rewrite split_ok in Hh2 by done. cbn [mbind res_bind] in Hh2. injection Hh2 as <-.
      rewrite deref_alter, stripped_parts_trimmed by done.
      cbn [values_of fmap list_fmap List.concat]. by rewrite app_nil_r.
    + assert (h1 = h) as ->.
      { destruct (assoc _ FileTypeValue_names); [by injection Hset as _ <-|].
        destruct (assoc _ FileTypeBool_names); [by injection Hset as _ <-|done]. }
      cbn. by rewrite app_nil_r.
Qed.

Lemma own_lists_same c c1 h h1 :
  own_lists c h ->
  length h1 = length h ->
  (forall o, owned_list c1 o = owned_list c o) ->
  own_lists c1 h1.
Proof.
  intros Hown Hlen Hsame o r. rewrite Hsame, Hlen. intros Ho.
  destruct (Hown o r Ho) as [Hr Hinj]. split; [done|].
  intros o'. rewrite Hsame. apply Hinj.
Qed.

(** One owner gets a new list, past the end of the old heap; the other
    owners keep theirs. *)
Lemma own_lists_new c c1 h h1 o0 r0 :
  own_lists c h ->
  (forall o, o <> o0 -> owned_list c1 o = owned_list c o) ->
  owned_list c o0 = None ->
  owned_list c1 o0 = Some r0 ->
  (length h <= r0 < length h1)%nat ->
  own_lists c1 h1.
Proof.
  intros Hown Hsame Hold Hnew Hr0 o r Ho.
  destruct (decide (o = o0)) as [->|Hne].
  - rewrite Hnew in Ho. injection Ho as <-. split; [lia|].
    intros o' Ho'. destruct (decide (o' = o0)) as [|Hne']; [done|].
    rewrite Hsame in Ho' by done. apply Hown in Ho' as [Hr _]. lia.
  - rewrite Hsame in Ho by done. destruct (Hown o r Ho) as [Hr Hinj]. split; [lia|].
    intros o' Ho'. destruct (decide (o' = o0)) as [->|Hne'].
    + rewrite Hnew in Ho'. injection Ho' as <-. lia.
    + rewrite Hsame in Ho' by done. by apply Hinj.
Qed.

Lemma ConfigFileType_init_list h :
  la_value (extensions (ConfigFileType_init h).1) = length h /\
  la_sep (extensions (ConfigFileType_init h).1) = "," /\
  (ConfigFileType_init h).2 = h ++ [[]].
Proof. done. Qed.

Lemma ConfigAction_init_list h :
  la_value (filetype (ConfigAction_init h).1) = length h /\
  (ConfigAction_init h).2 = h ++ [[]].
Proof. done. Qed.

Lemma deref_snoc_old (h : Heap) l r : (r < length h)%nat -> deref (h ++ [l]) r = deref h r.
Proof. intros Hr. unfold deref. by rewrite lookup_total_app_l. Qed.

Lemma deref_snoc_new (h : Heap) l : deref (h ++ [l]) (length h) = l.
Proof. unfold deref. by rewrite list_lookup_total_middle. Qed.

(** What one section of the configuration does to the lists: the owners
    keep lists of their own, and only the list of the file type the section
    stands for grows. *)
Lemma parse_section_lists `{rt : Runtime} self section items h self1 h1 :
  own_lists self h ->
  (forall n ft, _filetypes self !! n = Some ft -> la_sep (extensions ft) = ",") ->
  parse_section self section items h = Ok (self1, h1) ->
  own_lists self1 h1 /\
  (forall n ft, _filetypes self1 !! n = Some ft -> la_sep (extensions ft) = ",") /\
  forall name,
    match _filetypes self1 !! name with
    | Some ft1 =>
        deref h1 (la_value (extensions ft1))
        = match _filetypes self !! name with
          | Some ft => deref h (la_value (extensions ft))
          | None => []
          end
          ++ (if decide (filetype_section section = Some name)
              then extension_parts items else [])
    | None => _filetypes self !! name = None /\ filetype_section section <> Some name
    end.
Proof.
  intros Hown Hsep. unfold parse_section, filetype_section.
  destruct (startswith "filetype:" section).
  { set (n := slice_from 9 section). clearbody n.
    destruct (_filetypes self !! n) as [ft|] eqn:Hft.
    - intros H. apply res_bind_ok in H as ([ft1 h2] & Hupd & H). injection H as <- <-.
      pose proof (filetype_update_frame _ _ _ _ _ Hupd) as (Hext & Hlen & Hother).
      assert (Hsame : forall o,
                 owned_list {| _filetypes := <[n := ft1]> (_filetypes self);
                               _blocks := _blocks self; _actions := _actions self;
                               _textblocks := _textblocks self;
                               _textfiles := _textfiles self |} o
                 = owned_list self o).
      { intros [n'|n']; cbn [owned_list _filetypes _actions]; [|done].
        destruct (decide (n = n')) as [<-|Hne].
        - rewrite lookup_insert_eq, Hft. cbn. by rewrite Hext.
        - by rewrite lookup_insert_ne. }
      split; [by eapply own_lists_same|]. cbn [_filetypes]. split.
      + intros n' ft'. destruct (decide (n = n')) as [<-|Hne].
        * rewrite lookup_insert_eq. intros [= <-]. rewrite Hext. by eapply Hsep.
        * rewrite lookup_insert_ne by done. apply Hsep.
      + intros name. destruct (decide (n = name)) as [<-|Hne].
        * rewrite lookup_insert_eq, Hft, decide_True by done. rewrite Hext.
          destruct (Hown (FileTypeOwner n) (la_value (extensions ft))) as [Hr _];
            [cbn; by rewrite Hft|].
          eapply filetype_update_content; [by eapply Hsep | done | done].
        * rewrite lookup_insert_ne, decide_False, app_nil_r by congruence.
          destruct (_filetypes self !! name) as [ft'|] eqn:Hft'; [|split; congruence].
          apply Hother. intros Heq.
          destruct (Hown (FileTypeOwner name) (la_value (extensions ft'))) as [_ Hinj];
            [cbn; by rewrite Hft'|].
          specialize (Hinj (FileTypeOwner n)). cbn [owned_list] in Hinj.
          rewrite Hft in Hinj. cbn in Hinj. rewrite Heq in Hinj.
          specialize (Hinj eq_refl). congruence.
    - destruct (ConfigFileType_init_list h) as (Hnew & Hcomma & Hheap).
      destruct (ConfigFileType_init h) as [ft0 h0]. cbn [fst snd] in Hnew, Hcomma, Hheap.
      subst h0.
      intros H. apply res_bind_ok in H as ([ft1 h2] & Hupd & H). injection H as <- <-.
      pose proof (filetype_update_frame _ _ _ _ _ Hupd) as (Hext & Hlen & Hother).
      rewrite length_app in Hlen. cbn [length] in Hlen.
      split; [|cbn [_filetypes]; split].
      + apply (own_lists_new self _ h h2 (FileTypeOwner n) (length h) Hown).
        * intros [n'|n'] Hne; cbn [owned_list _filetypes _actions]; [|done].
          rewrite lookup_insert_ne; [done | congruence].
        * cbn. by rewrite Hft.
        * cbn. rewrite lookup_insert_eq. cbn. by rewrite Hext, Hnew.
        * lia.
      + intros n' ft'. destruct (decide (n = n')) as [<-|Hne].
        * rewrite lookup_insert_eq. intros [= <-]. by rewrite Hext.
        * rewrite lookup_insert_ne by done. apply Hsep.
      + intros name. destruct (decide (n = name)) as [<-|Hne].
        * rewrite lookup_insert_eq, Hft, decide_True by done. rewrite Hext, Hnew.
          rewrite <- (deref_snoc_new h []), <- Hnew.
          eapply filetype_update_content; [done | | done].
          rewrite Hnew, length_app. cbn. lia.
        * rewrite lookup_insert_ne, decide_False, app_nil_r by congruence.
          destruct (_filetypes self !! name) as [ft'|] eqn:Hft'; [|split; congruence].
          destruct (Hown (FileTypeOwner name) (la_value (extensions ft'))) as [Hr _];
            [cbn; by rewrite Hft'|].
          rewrite Hother by lia. by apply deref_snoc_old. }
  destruct (startswith "block:" section).
  { intros H. apply res_bind_ok in H as ([blk1 h2] & Hupd & H). injection H as <- <-.
    apply block_update_values in Hupd as [-> _].
    split; [by eapply own_lists_same|]. split; [done|]. cbn [_filetypes].
    intros name. rewrite decide_False, app_nil_r by done.
    by destruct (_filetypes self !! name). }
  destruct (startswith "action:" section).
  { set (n := slice_from 7 section). clearbody n.
    destruct (_actions self !! n) as [act|] eqn:Hact.
    - intros H. apply res_bind_ok in H as ([act1 h2] & Hupd & H). injection H as <- <-.
      pose proof (action_update_frame _ _ _ _ _ Hupd) as (Hext & Hlen & Hother).
      assert (Hsame : forall o,
                 owned_list {| _filetypes := _filetypes self; _blocks := _blocks self;
                               _actions := <[n := act1]> (_actions self);
                               _textblocks := _textblocks self;
                               _textfiles := _textfiles self |} o
                 = owned_list self o).
      { intros [n'|n']; cbn [owned_list _filetypes _actions]; [done|].
        destruct (decide (n = n')) as [<-|Hne].
        - rewrite lookup_insert_eq, Hact. cbn. by rewrite Hext.
        - by rewrite lookup_insert_ne. }
      split; [by eapply own_lists_same|]. split; [done|]. cbn [_filetypes].
      intros name. rewrite decide_False, app_nil_r by done.
      destruct (_filetypes self !! name) as [ft'|] eqn:Hft'; [|done].
      apply Hother. intros Heq.
      destruct (Hown (FileTypeOwner name) (la_value (extensions ft'))) as [_ Hinj];
        [cbn; by rewrite Hft'|].
      specialize (Hinj (ActionOwner n)). cbn [owned_list] in Hinj.
      rewrite Hact in Hinj. cbn in Hinj. rewrite Heq in Hinj.
      specialize (Hinj eq_refl). congruence.
    - destruct (ConfigAction_init_list h) as (Hnew & Hheap).
      destruct (ConfigAction_init h) as [act0 h0]. cbn [fst snd] in Hnew, Hheap. subst h0.
      intros H. apply res_bind_ok in H as ([act1 h2] & Hupd & H). injection H as <- <-.
      pose proof (action_update_frame _ _ _ _ _ Hupd) as (Hext & Hlen & Hother).
      rewrite length_app in Hlen. cbn [length] in Hlen.
      split; [|split; [done|]].
      + apply (own_lists_new self _ h h2 (ActionOwner n) (length h) Hown).
        * intros [n'|n'] Hne; cbn [owned_list _filetypes _actions]; [done|].
          rewrite lookup_insert_ne; [done | congruence].
        * cbn. by rewrite Hact.
        * cbn. rewrite lookup_insert_eq. cbn. by rewrite Hext, Hnew.
        * lia.
      + cbn [_filetypes]. intros name. rewrite decide_False, app_nil_r by done.
        destruct (_filetypes self !! name) as [ft'|] eqn:Hft'; [|done].
        destruct (Hown (FileTypeOwner name) (la_value (extensions ft'))) as [Hr _];
          [cbn; by rewrite Hft'|].
        rewrite Hother by lia. by apply deref_snoc_old. }
  destruct (String.eqb section "text-blocks").
  { intros [= <- <-]. split; [by eapply own_lists_same|]. split; [done|]. cbn [_filetypes].
    intros name. rewrite decide_False, app_nil_r by done.
    by destruct (_filetypes self !! name). }
  destruct (String.eqb section "text-files").
  { intros [= <- <-]. split; [by eapply own_lists_same|]. split; [done|]. cbn [_filetypes].
    intros name. rewrite decide_False, app_nil_r by done.
    by destruct (_filetypes self !! name). }
  discriminate.
Qed.

(** The lists after a parse, from any [Config] whose owners have lists of
    their own. *)
Lemma parse_lists `{rt : Runtime} config self h c' h' :
  own_lists self h ->
  (forall n ft, _filetypes self !! n = Some ft -> la_sep (extensions ft) = ",") ->
  parse self config h = Ok (c', h') ->
  own_lists c' h' /\
  forall name ft',
    _filetypes c' !! name = Some ft' ->
    deref h' (la_value (extensions ft'))
    = match _filetypes self !! name with
      | Some ft => deref h (la_value (extensions ft))
      | None => []
      end ++ extension_parts (filetype_items name config).
Proof.
  revert self h. induction config as [|[section items] config IH]; intros self h Hown Hsep.
  - intros [= <- <-]. split; [done|]. intros name ft' ->.
    unfold extension_parts. cbn. by rewrite app_nil_r.
  - cbn [parse]. intros H. apply res_bind_ok in H as ([self1 h1] & Hsec & Hrest).
    apply parse_section_lists in Hsec as (Hown1 & Hsep1 & Hlists); [|done..].
    destruct (IH self1 h1 Hown1 Hsep1 Hrest) as [Hown' Hlists']. split; [done|].
    intros name ft' Hft'. rewrite (Hlists' name ft' Hft'). cbn [filetype_items].
    specialize (Hlists name).
    destruct (_filetypes self1 !! name) as [ft1|].
    + rewrite Hlists. destruct (decide (filetype_section section = Some name)).
      * by rewrite extension_parts_app, !app_assoc.
      * by rewrite app_nil_r.
    + destruct Hlists as [-> Hne]. by rewrite decide_False.
Qed.

Lemma Config_init_own_lists h : own_lists Config_init h.
Proof. intros [name|name] r; cbn; by rewrite lookup_empty. Qed.

(** X20: after a parse that raises nothing, every file type and every
    action of the configuration refers to a list object of its own: the
    list exists, and no other file type or action refers to it, so that a
    value added to the [extensions] of one file type or to the [filetype]
    of one action shows in no other. *)
Theorem X20_parse_lists_not_shared `{rt : Runtime}
    (config : list (string * list (string * string))) (h h' : Heap) (c' : Config) :
  parse Config_init config h = Ok (c', h') ->
  own_lists c' h'.
Proof.
  intros Hparse.
  refine (proj1 (parse_lists config Config_init h c' h' (Config_init_own_lists h) _ Hparse)).
  intros n ft. cbn. by rewrite lookup_empty.
Qed.

Lemma X20_parse_lists_not_shared_witness :
  exists c' h',
    parse (rt := example_runtime Py3) Config_init example_config [] = Ok (c', h') /\
    own_lists c' h'.
Proof.
  eexists _, _. split; [reflexivity|].
  exact (X20_parse_lists_not_shared (rt := example_runtime Py3) example_config [] _ _
           eq_refl).
Defined.

(** X21: after a parse of a new [Config] that raises nothing, the
    [extensions] of a file type are the trimmed, non-empty items of the
    comma-separated values that the sections of that file type give under
    [extensions], in the order of the configuration; the sections of other
    file types, of blocks and of actions add nothing to them. *)
Theorem X21_parse_extensions `{rt : Runtime}
    (config : list (string * list (string * string))) (h h' : Heap) (c' : Config)
    (name : string) (ft : ConfigFileType) :
  parse Config_init config h = Ok (c', h') ->
  _filetypes c' !! name = Some ft ->
  deref h' (la_value (extensions ft)) = extension_parts (filetype_items name config).
Proof.
  intros Hparse Hft.
  assert (Hsep : forall n ft0,
             _filetypes Config_init !! n = Some ft0 -> la_sep (extensions ft0) = ",").
  { intros n ft0. cbn. by rewrite lookup_empty. }
  destruct (parse_lists config Config_init h c' h' (Config_init_own_lists h) Hsep Hparse)
    as [_ Hlists].
  rewrite (Hlists name ft Hft). cbn. by rewrite lookup_empty.
Qed.

Lemma X21_parse_extensions_witness :
  exists c' h' ft,
    parse (rt := example_runtime Py3) Config_init example_config [] = Ok (c', h') /\
    _filetypes c' !! "c" = Some ft /\
    deref h' (la_value (extensions ft)) = ["c"; "h"; "cpp"].
Proof.
  eexists _, _, _. split; [reflexivity|]. split; [reflexivity|].
  exact (X21_parse_extensions (rt := example_runtime Py3) example_config [] _ _ "c" _
           eq_refl eq_refl).
Defined.

(** ** The texts of a configuration *)

Lemma startswith_other p name section :
  startswith p section = true -> startswith p name = false ->
  String.eqb section name = false.
Proof.
  intros Hp Hname. destruct (String.eqb_spec section name) as [->|]; [congruence | done].
Qed.

(** What one section does to the two collections of texts. *)
Lemma parse_section_texts `{rt : Runtime} self section items h self1 h1 :
  parse_section self section items h = Ok (self1, h1) ->
  _textblocks self1
  = IniSection_update (_textblocks self)
      (if String.eqb section "text-blocks" then items else []) /\
  _textfiles self1
  = IniSection_update (_textfiles self)
      (if String.eqb section "text-files" then items else []).
Proof.
  unfold parse_section.
  destruct (startswith "filetype:" section) eqn:Hfiletype.
  { rewrite !(startswith_other _ _ _ Hfiletype) by done.
    destruct (match _filetypes self !! slice_from 9 section with
              | Some ft => (ft, h)
              | None => ConfigFileType_init h
              end) as [ft0 h0].
    intros H. apply res_bind_ok in H as ([ft1 h2] & _ & H). by injection H as <- _. }
  destruct (startswith "block:" section) eqn:Hblock.
  { rewrite !(startswith_other _ _ _ Hblock) by done.
    intros H. apply res_bind_ok in H as ([blk1 h2] & _ & H). by injection H as <- _. }
  destruct (startswith "action:" section) eqn:Haction.
  { rewrite !(startswith_other _ _ _ Haction) by done.
    destruct (match _actions self !! slice_from 7 section with
              | Some act => (act, h)
              | None => ConfigAction_init h
              end) as [act0 h0].
    intros H. apply res_bind_ok in H as ([act1 h2] & _ & H). by injection H as <- _. }
  destruct (String.eqb_spec section "text-blocks") as [->|_]; [by intros [= <- _]|].
  destruct (String.eqb section "text-files"); [by intros [= <- _]|].
  discriminate.
Qed.

(** X22: after a parse of a new [Config] that raises nothing, each of the
    two collections of texts is what [IniSection.update] makes of a new
    [ConfigTextFiles] and the pairs of its own section, [text-blocks] or
    [text-files]: no other section writes to it, and the two collections
    share nothing. *)
Theorem X22_parse_texts `{rt : Runtime}
    (config : list (string * list (string * string))) (h h' : Heap) (c' : Config) :
  parse Config_init config h = Ok (c', h') ->
  _textblocks c'
  = IniSection_update ConfigTextFiles_init (section_items "text-blocks" config) /\
  _textfiles c'
  = IniSection_update ConfigTextFiles_init (section_items "text-files" config).
Proof.
  change ConfigTextFiles_init with (_textblocks Config_init) at 1.
  change ConfigTextFiles_init with (_textfiles Config_init).
  generalize Config_init. revert h.
  induction config as [|[section items] config IH]; intros h self.
  - by intros [= <- _].
  - cbn [parse section_items]. intros H.
    apply res_bind_ok in H as ([self1 h1] & Hsec & Hrest).
    apply parse_section_texts in Hsec as [Hblocks Hfiles].
    apply IH in Hrest as [-> ->]. rewrite Hblocks, Hfiles. split.
    + destruct (String.eqb section "text-blocks"); [|done].
      by rewrite IniSection_update_app.
    + destruct (String.eqb section "text-files"); [|done].
      by rewrite IniSection_update_app.
Qed.

Lemma X22_parse_texts_witness :
  exists c' h',
    parse (rt := example_runtime Py3) Config_init
      (example_config ++ [("text-files", [("gpl", "gpl.txt")]);
                          ("text-blocks", [("mit", "Permission is hereby granted")])]) []
    = Ok (c', h') /\
    _results (_textfiles c') !! "gpl" = Some {| va_value := PyStr "gpl.txt" |} /\
    _results (_textfiles c') !! "mit" = None.
Proof.
  eexists _, _. split; [reflexivity|].
  pose proof (X22_parse_texts (rt := example_runtime Py3)
                (example_config ++ [("text-files", [("gpl", "gpl.txt")]);
                                    ("text-blocks", [("mit", "Permission is hereby granted")])])
                [] _ _ eq_refl) as [_ Hfiles].
  rewrite Hfiles. split; reflexivity.
Defined.
